(** * timelog-bot: a shallow embedding of [timelogbot.py]

    The development follows the layout of the script:
    - Python text ([str]) as lists of code points, with the few
      [str] methods the script calls;
    - numbers as exact rationals, with the [format] specifiers and the
      [float] parser the report uses;
    - calendar dates as [datetime] keeps them (year, month, day) and the
      proleptic Gregorian ordinal it uses for arithmetic;
    - [normalize_project_id], [work_hours], [Confluence.update_report_page],
      [Database], [EMailer.update] and the notification step of [main].

    Hours and budgets are Python floats in the script.  They are modelled
    as exact rationals ([Q]); every concrete input used below is a dyadic
    rational of small magnitude, on which binary64 arithmetic is exact. *)

From Stdlib Require Import ZArith QArith Qabs Lia List Ascii String Bool.
From Stdlib Require Import Numbers.DecimalString Numbers.DecimalPos.
From Stdlib Require Import Sorted Permutation Qround.
From stdpp Require Import base list gmap.

Set Default Proof Using "Type".
Local Open Scope Z_scope.

(* ===================================================================== *)
(** ** Python text *)
(* ===================================================================== *)

(** A Python [str] is a sequence of Unicode code points. *)
Definition char := N.
Definition pystr := list N.

Module Py.

(** ASCII literals of the script, written as Rocq strings. *)
Fixpoint lit (s : string) : pystr :=
  match s with
  | EmptyString => []
  | String a s' => N_of_ascii a :: lit s'
  end.

(** [s.startswith(p)]. *)
Fixpoint startswith (p s : pystr) : bool :=
  match p, s with
  | [], _ => true
  | _ :: _, [] => false
  | a :: p', b :: s' => N.eqb a b && startswith p' s'
  end.

(** [s.find(sub)]: the lowest index at which [sub] occurs, [-1] if none. *)
Fixpoint find_from (sub s : pystr) (i : Z) : Z :=
  if startswith sub s then i
  else match s with
       | [] => -1
       | _ :: s' => find_from sub s' (i + 1)
       end.

Definition find (s sub : pystr) : Z := find_from sub s 0.

(** [s[i:]] and [s[:i]] for an index [0 <= i]. *)
Definition slice_from (s : pystr) (i : Z) : pystr := drop (Z.to_nat i) s.
Definition slice_to (s : pystr) (i : Z) : pystr := take (Z.to_nat i) s.

(** [str(n)] and ["{}".format(n)] for an [int]. *)
Definition str_int (n : Z) : pystr := lit (NilZero.string_of_int (Z.to_int n)).

(** [s.translate(table)]: a code point with an entry in the table is
    replaced by the entry's text, any other code point is kept. *)
Definition translate (table : list (char * pystr)) (s : pystr) : pystr :=
  concat (map (fun c =>
                 match List.find (fun e => N.eqb (fst e) c) table with
                 | Some e => snd e
                 | None => [c]
                 end) s).

End Py.

Notation "'py' s" := (Py.lit s%string) (at level 9, s at level 0, only parsing).

(* ===================================================================== *)
(** ** [normalize_project_id] *)
(* ===================================================================== *)

(** The keys of [MAP] as code points ([ord(c)]):
    o-umlaut 246, a-umlaut 228, a-ring 229 and their capitals 214, 196, 197. *)
Definition MAP : list (char * pystr) :=
  [ (246%N, py "o"); (228%N, py "a"); (229%N, py "a");
    (214%N, py "O"); (196%N, py "A"); (197%N, py "A") ].

Definition normalize_project_id (project_id : pystr) : pystr :=
  Py.translate MAP project_id.

(* ===================================================================== *)
(** ** Exceptions and numbers *)
(* ===================================================================== *)

(** The exceptions the modelled code can raise. *)
Inductive exn :=
  | ValueError          (* float() on text that is not a number *)
  | ZeroDivisionError   (* division by zero *)
  | OverflowError       (* datetime arithmetic out of range *)
  | KeyError            (* Database.__getitem__ on a missing project *)
  | SMTPException.      (* the mail transport failed *)

Inductive result (A : Type) :=
  | Ok (a : A)
  | Raise (e : exn).
Arguments Ok {A} a.
Arguments Raise {A} e.

Module Num.

(** Rounding of an exact value to the nearest integer, ties to even:
    what the [f] and [%] presentation types do to the digits they drop. *)
Definition round_half_even (q : Q) : Z :=
  let n := Qnum q in
  let d := Z.pos (Qden q) in
  let fl := n / d in
  match (2 * (n mod d)) ?= d with
  | Lt => fl
  | Gt => fl + 1
  | Eq => if Z.even fl then fl else fl + 1
  end.

Definition pow10 (k : nat) : Z := 10 ^ Z.of_nat k.

Definition zero_pad (width : nat) (s : pystr) : pystr :=
  replicate (width - length s) 48%N ++ s.

(** ["{:.<prec>f}".format(x)]. *)
Definition format_f (prec : nat) (x : Q) : pystr :=
  let scaled := round_half_even (Qabs x * inject_Z (pow10 prec))%Q in
  let sign := if Qlt_le_dec x 0 then py "-" else [] in
  let int_part := Py.str_int (scaled / pow10 prec) in
  let frac_part :=
    match prec with
    | O => []
    | S _ => py "." ++ zero_pad prec (Py.str_int (scaled mod pow10 prec))
    end in
  sign ++ int_part ++ frac_part.

(** ["{:.<prec>%}".format(x)]: the value times 100, in [f] notation,
    followed by a percent sign. *)
Definition format_percent (prec : nat) (x : Q) : pystr :=
  format_f prec (x * 100)%Q ++ py "%".

(** ** [float(text)] on the texts the report pattern can capture *)

Definition is_digit (c : char) : bool := (48 <=? c)%N && (c <=? 57)%N.
Definition is_dot (c : char) : bool := (c =? 46)%N.

(** The value of a run of ASCII digits ([None] on any other code point). *)
Fixpoint digits_value (acc : Z) (s : pystr) : option Z :=
  match s with
  | [] => Some acc
  | c :: s' =>
      if is_digit c then digits_value (10 * acc + Z.of_N (c - 48)%N) s'
      else None
  end.

(** The text before the first dot, and what follows it (dot included). *)
Fixpoint split_dot (s : pystr) : pystr * pystr :=
  match s with
  | [] => ([], [])
  | c :: s' =>
      if is_dot c then ([], s)
      else let '(a, b) := split_dot s' in (c :: a, b)
  end.

(** [float(s)] for a text [s] made of ASCII digits and dots, which is all
    the pattern [[0-9.]+] lets through: digits with at most one dot and at
    least one digit denote a decimal number, anything else is a
    [ValueError]. *)
Definition float_of_str (s : pystr) : result Q :=
  let '(ip, rest) := split_dot s in
  match rest with
  | [] =>
      match ip, digits_value 0 ip with
      | _ :: _, Some n => Ok (inject_Z n)
      | _, _ => Raise ValueError
      end
  | _ :: fp =>
      match ip ++ fp, digits_value 0 (ip ++ fp) with
      | _ :: _, Some n => Ok (n # Z.to_pos (pow10 (length fp)))
      | _, _ => Raise ValueError
      end
  end.

(** [a / b] on numbers. *)
Definition div (a b : Q) : result Q :=
  if Qeq_bool b 0 then Raise ZeroDivisionError else Ok (a / b)%Q.

(** [a < b] and [a >= b]. *)
Definition ltb (a b : Q) : bool :=
  if Qlt_le_dec a b then true else false.
Definition geb (a b : Q) : bool :=
  if Qlt_le_dec a b then false else true.

(** [abs(a - b) < 0.01]. *)
Definition close_to (a b : Q) : bool := ltb (Qabs (a - b)) (1 # 100).

(** [b > 0]. *)
Definition positive (b : Q) : bool := ltb 0 b.

End Num.

(* ===================================================================== *)
(** ** Calendar dates and [datetime] *)
(* ===================================================================== *)

(** The date arithmetic of Python's [datetime] module: a date is kept as
    (year, month, day), ordered as that triple, and converted to its
    proleptic Gregorian ordinal (1 = 0001-01-01) for arithmetic. *)
Module Cal.

Definition MINYEAR : Z := 1.
Definition MAXYEAR : Z := 9999.
Definition MAXORDINAL : Z := 3652059.

Definition is_leap (year : Z) : bool :=
  (year mod 4 =? 0) && (negb (year mod 100 =? 0) || (year mod 400 =? 0)).

Definition days_before_year (year : Z) : Z :=
  let y := year - 1 in y * 365 + y / 4 - y / 100 + y / 400.

Definition DAYS_IN_MONTH (month : Z) : Z :=
  match month with
  | 1 => 31 | 2 => 28 | 3 => 31 | 4 => 30 | 5 => 31 | 6 => 30
  | 7 => 31 | 8 => 31 | 9 => 30 | 10 => 31 | 11 => 30 | 12 => 31
  | _ => -1
  end.

Definition DAYS_BEFORE_MONTH (month : Z) : Z :=
  match month with
  | 1 => 0 | 2 => 31 | 3 => 59 | 4 => 90 | 5 => 120 | 6 => 151
  | 7 => 181 | 8 => 212 | 9 => 243 | 10 => 273 | 11 => 304 | 12 => 334
  | _ => -1
  end.

Definition days_in_month (year month : Z) : Z :=
  if (month =? 2) && is_leap year then 29 else DAYS_IN_MONTH month.

Definition days_before_month (year month : Z) : Z :=
  DAYS_BEFORE_MONTH month + (if (2 <? month) && is_leap year then 1 else 0).

Definition ymd2ord (year month day : Z) : Z :=
  days_before_year year + days_before_month year month + day.

Definition DI400Y : Z := 146097.
Definition DI100Y : Z := 36524.
Definition DI4Y : Z := 1461.

Definition ord2ymd (n : Z) : Z * Z * Z :=
  let n := n - 1 in
  let n400 := n / DI400Y in
  let n := n mod DI400Y in
  let year := n400 * 400 + 1 in
  let n100 := n / DI100Y in
  let n := n mod DI100Y in
  let n4 := n / DI4Y in
  let n := n mod DI4Y in
  let n1 := n / 365 in
  let n := n mod 365 in
  let year := year + n100 * 100 + n4 * 4 + n1 in
  if (n1 =? 4) || (n100 =? 4) then (year - 1, 12, 31)
  else
    let leapyear := (n1 =? 3) && (negb (n4 =? 24) || (n100 =? 3)) in
    let month := Z.shiftr (n + 50) 5 in
    let preceding :=
      DAYS_BEFORE_MONTH month + (if (2 <? month) && leapyear then 1 else 0) in
    if n <? preceding then
      let month := month - 1 in
      let preceding :=
        preceding
        - (DAYS_IN_MONTH month + (if (month =? 2) && leapyear then 1 else 0)) in
      (year, month, n - preceding + 1)
    else (year, month, n - preceding + 1).

(** A [datetime]: the calendar date and the time of day, the latter as
    microseconds since midnight (hour, minute, second and microsecond
    folded into one number: their order is the order of that number). *)
Record datetime := mk_datetime {
  year : Z;
  month : Z;
  day : Z;
  time_us : Z
}.

Definition US_PER_DAY : Z := 86400000000.

(** A [date]. *)
Record date := mk_date {
  d_year : Z;
  d_month : Z;
  d_day : Z
}.

(** [dt.date()]. *)
Definition date_of (d : datetime) : date :=
  mk_date (year d) (month d) (day d).

(** A date at midnight, as [strptime] gives for a date-only format. *)
Definition midnight (y m d : Z) : datetime := mk_datetime y m d 0.

(** [datetime.combine(d, datetime.min.time())]. *)
Definition combine_min (d : date) : datetime :=
  midnight (d_year d) (d_month d) (d_day d).

Definition toordinal (d : datetime) : Z := ymd2ord (year d) (month d) (day d).

(** Comparison of two [datetime]s: the order of their field tuples. *)
Definition compare (a b : datetime) : comparison :=
  match year a ?= year b with
  | Eq =>
      match month a ?= month b with
      | Eq =>
          match day a ?= day b with
          | Eq => time_us a ?= time_us b
          | c => c
          end
      | c => c
      end
  | c => c
  end.

Definition ltb (a b : datetime) : bool :=
  match compare a b with Lt => true | _ => false end.
Definition leb (a b : datetime) : bool :=
  match compare a b with Gt => false | _ => true end.

(** [d + timedelta(days=n)]: the time of day is kept, the date moves by
    [n] ordinals, and leaving the supported range is an [OverflowError]. *)
Definition add_days (d : datetime) (n : Z) : result datetime :=
  let o := toordinal d + n in
  if (0 <? o) && (o <=? MAXORDINAL) then
    let '(y, m, dd) := ord2ymd o in Ok (mk_datetime y m dd (time_us d))
  else Raise OverflowError.

(** [(a - b).days]: a [timedelta] is normalised so that its seconds and
    microseconds are non-negative, hence the floor. *)
Definition sub_days (a b : datetime) : Z :=
  (toordinal a - toordinal b) + (time_us a - time_us b) / US_PER_DAY.

Definition month_name (m : Z) : pystr :=
  match m with
  | 1 => py "January" | 2 => py "February" | 3 => py "March"
  | 4 => py "April" | 5 => py "May" | 6 => py "June"
  | 7 => py "July" | 8 => py "August" | 9 => py "September"
  | 10 => py "October" | 11 => py "November" | 12 => py "December"
  | _ => []
  end.

(** [date(year, month, 1).strftime("%B %Y")] in the C locale (years of
    four digits; the padding of earlier years depends on the platform). *)
Definition strftime_B_Y (y m : Z) : pystr :=
  month_name m ++ py " " ++ Py.str_int y.

End Cal.

(* ===================================================================== *)
(** ** Text helpers of the report: the pattern, [textwrap.dedent] *)
(* ===================================================================== *)

Module Re.

Definition in_class (c : char) : bool := Num.is_digit c || Num.is_dot c.

(** The longest run of [[0-9.]] at the head of the text, and the rest. *)
Fixpoint span_class (s : pystr) : pystr * pystr :=
  match s with
  | [] => ([], [])
  | c :: s' =>
      if in_class c then let '(a, b) := span_class s' in (c :: a, b)
      else ([], s)
  end.

(** [rest] when the text starts with [p]. *)
Definition strip_prefix (p s : pystr) : option pystr :=
  if Py.startswith p s then Some (drop (length p) s) else None.

(** A match of [([0-9.]+) out of ([0-9.]+) hours used] that starts at the
    head of the text.  Each group is greedy; the literal after a group
    starts with a space, which is not in the class, so a shorter group can
    never match where the longest one fails and no backtracking is lost. *)
Definition match_here (s : pystr) : option (pystr * pystr) :=
  match span_class s with
  | ([], _) => None
  | (g1, r1) =>
      match strip_prefix (py " out of ") r1 with
      | None => None
      | Some r2 =>
          match span_class r2 with
          | ([], _) => None
          | (g2, r3) =>
              if Py.startswith (py " hours used") r3 then Some (g1, g2)
              else None
          end
      end
  end.

(** [re.search("([0-9.]+) out of ([0-9.]+) hours used", s)]: the groups
    of the leftmost match. *)
Fixpoint search (s : pystr) : option (pystr * pystr) :=
  match match_here s with
  | Some m => Some m
  | None =>
      match s with
      | [] => None
      | _ :: s' => search s'
      end
  end.

End Re.

Module Textwrap.

Definition is_blank (c : char) : bool := (c =? 32)%N || (c =? 9)%N.

(** [text.split("\n")]. *)
Fixpoint split_lines (s : pystr) : list pystr :=
  match s with
  | [] => [[]]
  | c :: s' =>
      if (c =? 10)%N then [] :: split_lines s'
      else match split_lines s' with
           | l :: ls => (c :: l) :: ls
           | [] => [[c]]
           end
  end.

(** ["\n".join(lines)]. *)
Fixpoint join_lines (ls : list pystr) : pystr :=
  match ls with
  | [] => []
  | [l] => l
  | l :: ls' => l ++ 10%N :: join_lines ls'
  end.

Fixpoint leading_blanks (l : pystr) : pystr :=
  match l with
  | c :: l' => if is_blank c then c :: leading_blanks l' else []
  | [] => []
  end.

Fixpoint common_prefix (a b : pystr) : pystr :=
  match a, b with
  | x :: a', y :: b' => if (x =? y)%N then x :: common_prefix a' b' else []
  | _, _ => []
  end.

(** The margin: the longest common prefix of the indents, if any line
    has text. *)
Definition margin_of (indents : list pystr) : pystr :=
  match indents with
  | [] => []
  | i :: rest => fold_left common_prefix rest i
  end.

(** [textwrap.dedent(text)]: lines of spaces and tabs only become empty,
    the indent common to the other lines is removed from each of them. *)
Definition dedent (text : pystr) : pystr :=
  let lines :=
    map (fun l => if forallb is_blank l then [] else l) (split_lines text) in
  let indents :=
    map leading_blanks
        (List.filter (fun l => negb (forallb is_blank l)) lines) in
  let margin := margin_of indents in
  join_lines
    (map (fun l =>
            match margin with
            | [] => l
            | _ :: _ => if Py.startswith margin l then drop (length margin) l
                        else l
            end) lines).

End Textwrap.

(* ===================================================================== *)
(** ** Work units and the report *)
(* ===================================================================== *)

Record work_unit := mk_work_unit {
  date : Cal.datetime;
  hours : Q
}.

(** [sum(xs)]: the running total starts from [0]. *)
Definition py_sum (xs : list Q) : Q := fold_left Qplus xs 0%Q.

Definition work_hours (units : list work_unit) : Q :=
  py_sum (map hours units).

(** [sorted(xs, key=..., reverse=True)]: stable, greatest key first. *)
Fixpoint insert_desc {A} (ltb : A -> A -> bool) (x : A) (l : list A) : list A :=
  match l with
  | [] => [x]
  | y :: l' => if ltb x y then y :: insert_desc ltb x l' else x :: l
  end.

Fixpoint sorted_desc {A} (ltb : A -> A -> bool) (l : list A) : list A :=
  match l with
  | [] => []
  | x :: l' => insert_desc ltb x (sorted_desc ltb l')
  end.

(** [itertools.groupby(xs, key=...)]: maximal runs of equal keys. *)
Fixpoint groupby {A K} (eqb : K -> K -> bool) (key : A -> K) (l : list A)
  : list (K * list A) :=
  match l with
  | [] => []
  | x :: l' =>
      match groupby eqb key l' with
      | (k, g) :: rest =>
          if eqb (key x) k then (k, x :: g) :: rest
          else (key x, [x]) :: (k, g) :: rest
      | [] => [(key x, [x])]
      end
  end.

Definition marker : pystr := py "<hr />".
Definition NL : pystr := [10%N].

Definition year_month (wu : work_unit) : Z * Z :=
  (Cal.year (date wu), Cal.month (date wu)).

Definition year_month_eqb (a b : Z * Z) : bool :=
  (fst a =? fst b) && (snd a =? snd b).

(** The months of the report, most recent first, each with its hours. *)
Definition month_rows (work_units : list work_unit) : list ((Z * Z) * Q) :=
  map (fun kg => (fst kg, py_sum (map hours (snd kg))))
      (groupby year_month_eqb year_month
         (sorted_desc (fun a b => Cal.ltb (date a) (date b)) work_units)).

Definition row_html (row : (Z * Z) * Q) : pystr :=
  let '((y, m), h) := row in
  py "<tr><td>" ++ Cal.strftime_B_Y y m ++ py "</td><td>"
  ++ Num.format_f 2 h ++ py "</td></tr>" ++ NL.

Definition month_table (work_units : list work_unit) : pystr :=
  py "<p><table>" ++ NL
  ++ py "<tr><th>Date</th><th>Hours spent</th></tr>" ++ NL
  ++ concat (map row_html (month_rows work_units))
  ++ py "</table></p>".

(** The template of the report with its fields filled in, before
    [textwrap.dedent]. *)
Definition report_template (space_name : pystr) (percent hours_spent budget : Q)
  : pystr :=
  NL
  ++ py "            " ++ marker ++ NL
  ++ py "            <h2>Project " ++ space_name ++ py " is "
  ++ Num.format_percent 1 percent ++ py " complete</h2>" ++ NL
  ++ py "            <p>" ++ Num.format_f 2 hours_spent ++ py " out of "
  ++ Num.format_f 0 budget ++ py " hours used.</p>" ++ NL
  ++ py "        ".

Definition make_report (space_name : pystr) (percent hours_spent budget : Q)
    (work_units : list work_unit) : pystr :=
  Textwrap.dedent (report_template space_name percent hours_spent budget)
  ++ month_table work_units.

(** [hours_spent / budget if budget > 0 else 0.0]. *)
Definition completion (hours_spent budget : Q) : result Q :=
  if Num.positive budget then Num.div hours_spent budget else Ok 0%Q.

(** What a call of [update_report_page] leaves behind: the flag it
    returns and the storage value of the page (the [content] it builds
    when it updates, the text it fetched when it does not). *)
Record rendered := mk_rendered {
  changed : bool;
  body : pystr
}.

(** [text.index(marker)]. *)
Definition index_of (text sub : pystr) : result Z :=
  let i := Py.find text sub in
  if 0 <=? i then Ok i else Raise ValueError.

Definition bind {A B} (r : result A) (k : A -> result B) : result B :=
  match r with
  | Ok a => k a
  | Raise e => Raise e
  end.

Notation "'let*' x := r 'in' k" := (bind r (fun x => k))
  (at level 10, x name, r at level 100, k at level 200).

(** The tail of [update_report_page]: build the report and the new page
    content from the (possibly truncated) text. *)
Definition write_report (space_name text : pystr)
    (work_units : list work_unit) (hours_spent budget : Q) : result rendered :=
  let* percent := completion hours_spent budget in
  let report := make_report space_name percent hours_spent budget work_units in
  Ok (mk_rendered true (text ++ NL ++ report)).

(** [Confluence.update_report_page], on the text of the page. *)
Definition update_report_page (force : bool) (space_name text : pystr)
    (work_units : list work_unit) (budget : Q) : result rendered :=
  let hours_spent := work_hours work_units in
  let index := Py.find text marker in
  if 0 <=? index then
    let truncate_and_write :=
      let* i := index_of text marker in
      write_report space_name (Py.slice_to text i) work_units hours_spent budget
    in
    if negb force then
      let previous_report := Py.slice_from text index in
      match Re.search previous_report with
      | Some (g1, g2) =>
          let* previous_hours_spent := Num.float_of_str g1 in
          let* previous_budget := Num.float_of_str g2 in
          if Num.close_to hours_spent previous_hours_spent
             && Num.close_to previous_budget budget
          then Ok (mk_rendered false text)
          else truncate_and_write
      | None => truncate_and_write
      end
    else truncate_and_write
  else write_report space_name text work_units hours_spent budget.

(* ===================================================================== *)
(** ** The state store, the mail transport and [EMailer.update] *)
(* ===================================================================== *)

(** Send notifications when a project reaches these work hours. *)
Definition CHECKPOINT_HOURS : list Z := [100; 300].

(** Send a notification when a project reaches this number of days since
    the first logged hour. *)
Definition CHECKPOINT_DAYS : Z := 365.

(** A row of the table [projects]: [hours] and [date], keyed by [name]. *)
Record project_row := mk_row {
  row_hours : Q;
  row_date : Cal.datetime
}.

(** The database: what the connection sees (changes of the open
    transaction included) and what is committed to the file. *)
Record database := mk_database {
  rows : gmap pystr project_row;
  stored : gmap pystr project_row
}.

Record email := mk_email {
  subject : pystr;
  message_body : pystr;
  from_header : pystr;
  to_header : pystr
}.

(** What [send_email] does with a message: prints it (dry run), hands it
    to the SMTP server, or fails doing so. *)
Inductive event :=
  | Printed (m : email)
  | Sent (m : email)
  | Failed (m : email).

Definition mail_of (e : event) : email :=
  match e with Printed m | Sent m | Failed m => m end.

Record world := mk_world {
  db : database;
  trace : list event
}.

(** What a call reads from its surroundings: the local clock
    ([datetime.today()]), the clock of the database ([CURRENT_TIMESTAMP])
    and whether the SMTP server accepts the message. *)
Record env := mk_env {
  today : Cal.datetime;
  current_timestamp : Cal.datetime;
  smtp_up : bool
}.

Record emailer := mk_emailer {
  dry_run : bool;
  em_recipients : list pystr;
  em_sender : pystr
}.

(** Computations over the world that may raise. *)
Definition M (A : Type) : Type := world -> result A * world.

Definition ret {A} (a : A) : M A := fun w => (Ok a, w).
Definition raise {A} (e : exn) : M A := fun w => (Raise e, w).
Definition mbind {A B} (c : M A) (k : A -> M B) : M B :=
  fun w =>
    match c w with
    | (Ok a, w') => k a w'
    | (Raise e, w') => (Raise e, w')
    end.
Definition lift {A} (r : result A) : M A := fun w => (r, w).

(** [try: c except KeyError: h]. *)
Definition try_except_KeyError {A} (c h : M A) : M A :=
  fun w =>
    match c w with
    | (Raise KeyError, w') => h w'
    | r => r
    end.

Notation "'let!' x := c 'in' k" := (mbind c (fun x => k))
  (at level 10, x name, c at level 100, k at level 200).
Notation "c ;;; k" := (mbind c (fun _ => k))
  (at level 100, k at level 200, right associativity).

Definition log (e : event) : M unit :=
  fun w => (Ok tt, mk_world (db w) (trace w ++ [e])).

(** [Database.__getitem__]. *)
Definition db_getitem (name : pystr) : M (Q * Cal.date) :=
  fun w =>
    match rows (db w) !! name with
    | None => (Raise KeyError, w)
    | Some r => (Ok (row_hours r, Cal.date_of (row_date r)), w)
    end.

(** [Database.__setitem__]: [INSERT OR REPLACE] of [(name, hours)]; the
    [date] column takes its default, the current timestamp. *)
Definition db_setitem (e : env) (name : pystr) (hours : Q) : M unit :=
  fun w =>
    (Ok tt,
     mk_world
       (mk_database
          (<[name := mk_row hours (current_timestamp e)]> (rows (db w)))
          (stored (db w)))
       (trace w)).

(** [Database.commit]. *)
Definition db_commit : M unit :=
  fun w =>
    (Ok tt, mk_world (mk_database (rows (db w)) (rows (db w))) (trace w)).

Definition join_comma (l : list pystr) : pystr :=
  match l with
  | [] => []
  | x :: rest => fold_left (fun acc y => acc ++ py ", " ++ y) rest x
  end.

(** [EMailer.send_email]. *)
Definition send_email (self : emailer) (e : env) (subject body : pystr)
    (force : bool) : M unit :=
  let message :=
    mk_email subject body (em_sender self) (join_comma (em_recipients self)) in
  if dry_run self && negb force then log (Printed message)
  else if smtp_up e then log (Sent message)
  else (log (Failed message) ;;; raise SMTPException).

Section Update.

(** [str(x)] for a float: the shortest decimal text that reads back as
    the same binary64 number.  It depends on the binary representation,
    which the rational model does not have; the model takes it as given. *)
Variable float_str : Q -> pystr.

Definition hour_subject (name : pystr) (checkpoint : Z) : pystr :=
  py "[TimeLog Bot] Checkpoint in project " ++ name ++ py ": "
  ++ Py.str_int checkpoint ++ py " hours".

Definition hour_body (name : pystr) (hours : Q) (elapsed_days : Z) : pystr :=
  (float_str hours ++ py " hours have been reached in project " ++ name
   ++ py "." ++ NL)
  ++ (Py.str_int elapsed_days ++ py " calendar days have elapsed").

Definition day_subject (name : pystr) : pystr :=
  py "[TimeLog Bot] Checkpoint in project " ++ name ++ py ": "
  ++ Py.str_int CHECKPOINT_DAYS ++ py " days".

Definition day_body (name : pystr) (hours : Q) (elapsed_days : Z) : pystr :=
  (Py.str_int elapsed_days ++ py " calendar days have been reached in project "
   ++ name ++ NL)
  ++ (Num.format_f 1 hours ++ py " working hours have been spent").

(** The loop over [CHECKPOINT_HOURS], with its [break]: the value is the
    flag [sent_email] after the loop. *)
Fixpoint hour_loop (self : emailer) (e : env) (name : pystr) (hours : Q)
    (elapsed_days : Z) (previous_hours : Q) (checkpoints : list Z) : M bool :=
  match checkpoints with
  | [] => ret false
  | checkpoint :: rest =>
      if Num.ltb previous_hours (inject_Z checkpoint)
         && Num.geb hours (inject_Z checkpoint)
      then
        send_email self e (hour_subject name checkpoint)
                   (hour_body name hours elapsed_days) false ;;;
        ret true
      else hour_loop self e name hours elapsed_days previous_hours rest
  end.

(** [EMailer.update]. *)
Definition update (self : emailer) (e : env) (name : pystr) (hours : Q)
    (project_start_date : Cal.datetime) : M bool :=
  let! previous :=
    try_except_KeyError
      (let! r := db_getitem name in
       ret (Some (fst r), Some (Cal.combine_min (snd r))))
      (ret (None, None)) in
  let previous_hours : option Q := fst previous in
  let previous_date : option Cal.datetime := snd previous in
  let elapsed_days := Cal.sub_days (today e) project_start_date in
  let! sent_email :=
    match previous_hours with
    | Some ph =>
        hour_loop self e name hours elapsed_days ph CHECKPOINT_HOURS
    | None => ret false
    end in
  let! sent_email :=
    match previous_date with
    | Some pd =>
        if negb sent_email then
          let! checkpoint :=
            lift (Cal.add_days project_start_date CHECKPOINT_DAYS) in
          if Cal.ltb pd checkpoint && Cal.leb checkpoint (today e) then
            send_email self e (day_subject name)
                       (day_body name hours elapsed_days) false ;;;
            ret true
          else ret sent_email
        else ret sent_email
    | None => ret sent_email
    end in
  (* Always do this to ensure the timestamp is updated even if the hours
     did not change *)
  db_setitem e name hours ;;;
  db_commit ;;;
  ret sent_email.

(** The notification step of [main] for one matched project:
    [if work_units and emailer.update(subject, hours_spent,
       project_start_date=work_units[-1]['date'])]. *)
Definition project_start_date (work_units : list work_unit)
  : option Cal.datetime :=
  option_map date (last work_units).

Definition notify_step (self : emailer) (e : env) (project_subject : pystr)
    (work_units : list work_unit) : M bool :=
  match project_start_date work_units with
  | None => ret false
  | Some start =>
      update self e project_subject (work_hours work_units) start
  end.

End Update.

(* ===================================================================== *)
(** ** The rest of the script: the upload, the projects, the pages, the
       dump *)
(* ===================================================================== *)

Module Text.

(** [s.replace(old, new)] for a non-empty [old]: the occurrences are
    taken from the left and do not overlap.  [skip] counts the code
    points of the occurrence being replaced that are still to be passed. *)
Fixpoint replace_from (old new : pystr) (skip : nat) (s : pystr) : pystr :=
  match s with
  | [] => []
  | c :: s' =>
      match skip with
      | S k => replace_from old new k s'
      | O =>
          if Py.startswith old s
          then new ++ replace_from old new (length old - 1) s'
          else c :: replace_from old new 0 s'
      end
  end.

(** [s.replace(old, new)]; an empty [old] matches before every code
    point and at the end. *)
Definition replace (s old new : pystr) : pystr :=
  match old with
  | [] => new ++ concat (map (fun c => c :: new) s)
  | _ :: _ => replace_from old new 0 s
  end.

(** [a == b] on texts. *)
Definition eqb (a b : pystr) : bool := bool_decide (a = b).

End Text.

(** [Database.close]: what is pending is committed before the connection
    goes. *)
Definition db_close : M unit := db_commit.

(** *** [Confluence.update_report_page], with the page and the upload *)

(** The page as the wiki returns it ([expand=body.storage,version,
    ancestors]). *)
Record wiki_page := mk_wiki_page {
  page_id : pystr;
  page_title : pystr;
  page_ancestors : list pystr;
  page_text : pystr;
  page_version : Z
}.

(** The [content] that is sent back. *)
Record content := mk_content {
  content_id : pystr;
  content_type : pystr;
  content_title : pystr;
  content_ancestors : list pystr;
  content_value : pystr;
  content_representation : pystr;
  content_version : Z
}.

Record confluence := mk_confluence {
  upload : bool;
  force : bool
}.

(** How a call ends: it returns, an exception of the script's own code
    escapes, or [raise_for_status] raises an [HTTPError]. *)
Inductive ending (A : Type) :=
  | Returned (a : A)
  | Escaped (e : exn)
  | HTTPError.
Arguments Returned {A} a.
Arguments Escaped {A} e.
Arguments HTTPError {A}.

(** [Confluence.update_report_page] on the page [j] it fetched: how the
    call ends, and the [PUT] requests it issued.  [http_ok] tells whether
    the wiki accepts the request. *)
Definition upload_report (self : confluence) (http_ok : bool)
    (space_name : pystr) (j : wiki_page) (work_units : list work_unit)
    (budget : Q) : ending bool * list content :=
  match update_report_page (force self) space_name (page_text j)
          work_units budget with
  | Raise e => (Escaped e, [])
  | Ok r =>
      if changed r then
        let content :=
          mk_content (page_id j) (py "page") (page_title j)
                     (page_ancestors j) (body r) (py "storage")
                     (page_version j + 1) in
        if upload self then
          if http_ok then (Returned true, [content])
          else (HTTPError, [content])
        else (Returned true, [])
      else (Returned false, [])
  end.

(** *** The projects of the tracker *)

(** An issue of the tracker: its id, its subject and its custom fields
    (name and value; the list may be missing, a value may be [None]). *)
Record issue := mk_issue {
  issue_id : Z;
  issue_subject : pystr;
  issue_fields : option (list (pystr * option pystr))
}.

(** [[attr['value'] for attr in fields if attr['name'] == name][0]]
    under [try ... except (IndexError, KeyError): None]: the value of the
    first field of that name, [None] when there is no such field
    ([IndexError]) or no field list ([KeyError]). *)
Definition field_value (name : pystr) (i : issue) : option pystr :=
  match issue_fields i with
  | None => None
  | Some fields =>
      match List.filter (fun attr => Text.eqb (fst attr) name) fields with
      | [] => None
      | attr :: _ => snd attr
      end
  end.

Section Projects.

(** [\d] of the [re] module on text: the decimal digits of Unicode
    (category Nd).  The table is not part of the script; it is taken as
    given. *)
Variable is_decimal : char -> bool.

(** [re.match(r'.*_\d{4}$', s)]: up to an optional final line feed, the
    text ends with an underscore and four digits, and no line feed stands
    before them. *)
Definition subject_is_id (s : pystr) : bool :=
  let body :=
    match rev s with
    | 10%N :: r => r
    | r => r
    end in
  match body with
  | d4 :: d3 :: d2 :: d1 :: 95%N :: before =>
      is_decimal d1 && is_decimal d2 && is_decimal d3 && is_decimal d4
      && forallb (fun c => negb (c =? 10)%N) before
  | _ => false
  end.

(** The key under which an issue is kept, if it is kept: the WABI ID,
    else a subject that looks like one; normalised. *)
Definition project_key (i : issue) : option pystr :=
  match field_value (py "WABI ID") i with
  | Some project_id => Some (normalize_project_id project_id)
  | None =>
      if subject_is_id (issue_subject i)
      then Some (normalize_project_id (issue_subject i))
      else None
  end.

(** The loop of [main] that fills [projects]. *)
Definition build_projects (issues : list issue) : gmap pystr issue :=
  fold_left (fun projects i =>
               match project_key i with
               | Some k => <[k := i]> projects
               | None => projects
               end) issues ∅.

End Projects.

(** *** The pages of the wiki *)

Definition NBIS : pystr := py "NBIS ".

(** What becomes of a page in the loop of [main]. *)
Inductive page_match (P : Type) :=
  | Ignored            (* the --space option names another space *)
  | Matched (p : P)
  | NotInRedmine.
Arguments Ignored {P}.
Arguments Matched {P} p.
Arguments NotInRedmine {P}.

(** [projects[k]]. *)
Definition getitem {P} (projects : gmap pystr P) (k : pystr) : result P :=
  match projects !! k with
  | Some p => Ok p
  | None => Raise KeyError
  end.

(** The head of the loop over the pages: the filter of [--space], then
    the project of the page, under the normalised name of the space or
    under that name without ["NBIS "]. *)
Definition find_project {P} (projects : gmap pystr P) (space : option pystr)
    (space_name : pystr) : result (page_match P) :=
  let space_name_norm := normalize_project_id space_name in
  let filtered :=
    match space with
    | None => false
    | Some s =>
        negb (Text.eqb s space_name) && negb (Text.eqb s space_name_norm)
    end in
  if filtered then Ok Ignored
  else if bool_decide (is_Some (projects !! space_name_norm))
          || bool_decide
               (is_Some (projects !! Text.replace space_name_norm NBIS []))
  then
    match getitem projects space_name_norm with
    | Ok project => Ok (Matched project)
    | Raise KeyError =>
        let* project :=
          getitem projects (Text.replace space_name_norm NBIS []) in
        Ok (Matched project)
    | Raise e => Raise e
    end
  else Ok NotInRedmine.

(** *** The dump *)

(** [d.strftime("%Y-%m-%d")] (the year as the C library prints it: four
    digits from the year 1000 on). *)
Definition strftime_Y_m_d (d : Cal.datetime) : pystr :=
  Py.str_int (Cal.year d) ++ py "-"
  ++ Num.zero_pad 2 (Py.str_int (Cal.month d)) ++ py "-"
  ++ Num.zero_pad 2 (Py.str_int (Cal.day d)).

Record json_unit := mk_json_unit {
  json_date : pystr;
  json_hours : Q
}.

Definition work_unit_to_json (unit : work_unit) : json_unit :=
  mk_json_unit (strftime_Y_m_d (date unit)) (hours unit).

(** *** One matched project in the loop of [main] *)

Section Process.

Variable float_str : Q -> pystr.

(** The report, then the notification:
    [try: confluence.update_report_page(...) except HTTPError: ...] and
    [if work_units and emailer.update(...)].  The value is what the
    notification step gives and the [PUT] requests issued. *)
Definition process_project (conf : confluence) (mailer : emailer) (e : env)
    (http_ok : bool) (space_name : pystr) (j : wiki_page)
    (project_subject : pystr) (work_units : list work_unit) (budget : Q)
    (w : world) : (result bool * world) * list content :=
  match upload_report conf http_ok space_name j work_units budget with
  | (Escaped ex, puts) => ((Raise ex, w), puts)
  | (_, puts) =>
      (notify_step float_str mailer e project_subject work_units w, puts)
  end.

End Process.

(* ===================================================================== *)
(** * Specification-side definitions *)
(* ===================================================================== *)

(** ** The identifier normalizer *)

(** The accent folding of the specification, one code point at a time:
    o-umlaut to o, a-umlaut and a-ring to a, and the same for capitals. *)
Definition unaccent (c : char) : char :=
  match c with
  | 246%N => 111%N
  | 228%N | 229%N => 97%N
  | 214%N => 79%N
  | 196%N | 197%N => 65%N
  | _ => c
  end.

Definition accented : list char := [246; 228; 229; 214; 196; 197]%N.


(** ** The calendar *)

Module CalOrder.
Import Cal.

(** The order of dates: year, then month, then day. *)
Definition ymd_lt (a b : Z * Z * Z) : Prop :=
  let '(y, m, d) := a in
  let '(y', m', d') := b in
  y < y' \/ (y = y' /\ (m < m' \/ (m = m' /\ d < d'))).

Definition valid_ymd (a : Z * Z * Z) : Prop :=
  let '(y, m, d) := a in
  1 <= m <= 12 /\ 1 <= d <= days_in_month y m.

(** The month and day of [ord2ymd], from the day of the year. *)
Definition month_day (n : Z) (leapyear : bool) : Z * Z :=
  let month := Z.shiftr (n + 50) 5 in
  let preceding :=
    DAYS_BEFORE_MONTH month + (if (2 <? month) && leapyear then 1 else 0) in
  if n <? preceding then
    let month := month - 1 in
    let preceding :=
      preceding
      - (DAYS_IN_MONTH month + (if (month =? 2) && leapyear then 1 else 0)) in
    (month, n - preceding + 1)
  else (month, n - preceding + 1).

Definition month_day_ok (leapyear : bool) (n : Z) : bool :=
  let '(m, d) := month_day n leapyear in
  (1 <=? m) && (m <=? 12) && (1 <=? d)
  && (d <=? (if (m =? 2) && leapyear then 29 else DAYS_IN_MONTH m))
  && (DAYS_BEFORE_MONTH m + (if (2 <? m) && leapyear then 1 else 0) + d
      =? n + 1).

End CalOrder.

(** ** The threshold evaluator *)

(** The events a call appended to the trace. *)
Definition emitted (w w' : world) : list event :=
  drop (length (trace w)) (trace w').

(** What becomes of a message handed to [send_email]. *)
Definition outcome (self : emailer) (e : env) (m : email) : event :=
  if dry_run self then Printed m
  else if smtp_up e then Sent m
  else Failed m.

(** [previous_hours < checkpoint <= hours]. *)
Definition crossed (previous_hours hours : Q) (checkpoint : Z) : bool :=
  Num.ltb previous_hours (inject_Z checkpoint)
  && Num.geb hours (inject_Z checkpoint).

(** The two notifications, as [update] words them. *)
Definition hour_mail (float_str : Q -> pystr) (self : emailer) (e : env)
    (name : pystr) (hours : Q) (start : Cal.datetime) (checkpoint : Z) : email :=
  mk_email (hour_subject name checkpoint)
           (hour_body float_str name hours (Cal.sub_days (today e) start))
           (em_sender self) (join_comma (em_recipients self)).

Definition day_mail (self : emailer) (e : env) (name : pystr) (hours : Q)
    (start : Cal.datetime) : email :=
  mk_email (day_subject name)
           (day_body name hours (Cal.sub_days (today e) start))
           (em_sender self) (join_comma (em_recipients self)).

(** The world once the row of [name] is written and committed. *)
Definition persisted (e : env) (name : pystr) (hours : Q) (w : world)
    (tr : list event) : world :=
  let r := <[name := mk_row hours (current_timestamp e)]> (rows (db w)) in
  mk_world (mk_database r r) tr.

(** A notification is handed to the transport; the row is written only
    if the transport does not raise. *)
Definition notify (self : emailer) (e : env) (name : pystr) (hours : Q)
    (w : world) (m : email) : result bool * world :=
  if dry_run self || smtp_up e
  then (Ok true, persisted e name hours w (trace w ++ [outcome self e m]))
  else (Raise SMTPException, mk_world (db w) (trace w ++ [Failed m])).

(** The order of calendar dates. *)
Definition date_lt (a b : Cal.date) : Prop :=
  CalOrder.ymd_lt (Cal.d_year a, Cal.d_month a, Cal.d_day a)
                  (Cal.d_year b, Cal.d_month b, Cal.d_day b).
Definition date_le (a b : Cal.date) : Prop := date_lt a b \/ a = b.

(** The notification that is due, if any: the lowest hour checkpoint
    crossed since the stored hours, else the day checkpoint crossed since
    the stored date. *)
Definition due (float_str : Q -> pystr) (self : emailer) (e : env)
    (name : pystr) (hours : Q) (start : Cal.datetime) (w : world)
  : option email :=
  match rows (db w) !! name with
  | None => None
  | Some r =>
      match List.find (crossed (row_hours r) hours) CHECKPOINT_HOURS with
      | Some c => Some (hour_mail float_str self e name hours start c)
      | None =>
          match Cal.add_days start CHECKPOINT_DAYS with
          | Raise _ => None
          | Ok cp =>
              if Cal.ltb (Cal.combine_min (Cal.date_of (row_date r))) cp
                 && Cal.leb cp (today e)
              then Some (day_mail self e name hours start)
              else None
          end
      end
  end.

(** ** The report *)

(** The hand-written part of a page: the text strictly before the first
    marker, or all of it when there is no marker. *)
Definition before_marker (s : pystr) : pystr :=
  let i := Py.find s marker in
  if 0 <=? i then Py.slice_to s i else s.

(** No line feed in a text. *)
Definition one_line (s : pystr) : Prop :=
  forallb (fun c => negb (c =? 10)%N) s = true.

(** The report once [textwrap.dedent] has removed the indent of the
    template. *)
Definition report_head (space_name : pystr) (percent hours_spent budget : Q)
  : pystr :=
  NL ++ marker ++ NL
  ++ py "<h2>Project " ++ space_name ++ py " is "
  ++ Num.format_percent 1 percent ++ py " complete</h2>" ++ NL
  ++ py "<p>" ++ Num.format_f 2 hours_spent ++ py " out of "
  ++ Num.format_f 0 budget ++ py " hours used.</p>" ++ NL.

(** The indent of the template. *)
Definition indent12 : pystr := py "            ".

(** The code points [format] writes for a number. *)
Definition num_char (c : char) : bool :=
  Num.is_digit c || Num.is_dot c || (c =? 45)%N.

(** The two decimals of a number below one hundred are two digits that
    denote it (checked for each such number by computation). *)
Definition two_digits_ok (k : nat) : bool :=
  match Num.zero_pad 2 (Py.str_int (Z.of_nat k)) with
  | [a; b] =>
      Num.is_digit a && Num.is_digit b
      && (10 * Z.of_N (a - 48) + Z.of_N (b - 48) =? Z.of_nat k)
  | _ => false
  end.

(** ** The monthly table *)





(** ** Sample data for the examples *)

Module Sample.

(** A stand-in for the text of a float in the examples: one decimal. *)
Definition float_str (q : Q) : pystr := Num.format_f 1 q.

Definition mailer : emailer :=
  mk_emailer false [py "pm@example.org"] (py "bot@example.org").

Definition name : pystr := py "A_Project_2301".

(** The store holds 90 hours for the project, written on 2024-12-30. *)
Definition store : gmap pystr project_row :=
  <[name := mk_row 90 (Cal.mk_datetime 2024 12 30 43200000000)]> ∅.

Definition w0 : world := mk_world (mk_database store store) [].

(** The run is on 2025-01-01; the first hour was logged on 2024-01-01,
    a leap year, so that the 365th day after it is 2024-12-31. *)
Definition clock (up : bool) : env :=
  mk_env (Cal.mk_datetime 2025 1 1 32400000000)
         (Cal.mk_datetime 2025 1 1 28800000000) up.

Definition start : Cal.datetime := Cal.midnight 2024 1 1.

(** Work units in the order of their dates. *)
Definition ascending : list work_unit :=
  [ mk_work_unit (Cal.midnight 2024 1 1) 1;
    mk_work_unit (Cal.midnight 2024 2 1) 1 ].

(** A page whose report shows six hours in January, and work units with
    the same total in February. *)
Definition january_page : pystr :=
  py "<p>Notes</p>" ++ NL ++ NL ++ marker ++ NL
  ++ py "<h2>Project P is 60.0% complete</h2>" ++ NL
  ++ py "<p>6.00 out of 10 hours used.</p>" ++ NL
  ++ py "<p><table>" ++ NL
  ++ py "<tr><th>Date</th><th>Hours spent</th></tr>" ++ NL
  ++ py "<tr><td>January 2024</td><td>6.00</td></tr>" ++ NL
  ++ py "</table></p>".

Definition february_units : list work_unit :=
  [ mk_work_unit (Cal.midnight 2024 2 3) 4;
    mk_work_unit (Cal.midnight 2024 2 10) 2 ].

End Sample.

(** ** The renderer, once more *)

(** The completion that is shown. *)
Definition percent_of (hours_spent budget : Q) : Q :=
  if Num.positive budget then (hours_spent / budget)%Q else 0%Q.

(** The page that a rewrite leaves: the text before the marker, a line
    feed, the report. *)
Definition fresh_page (space_name text : pystr) (work_units : list work_unit)
    (budget : Q) : pystr :=
  before_marker text ++ NL
  ++ make_report space_name (percent_of (work_hours work_units) budget)
       (work_hours work_units) budget work_units.

(** The figures of the page, as the guard reads them. *)
Definition figures (text : pystr) : option (pystr * pystr) :=
  Re.search (Py.slice_from text (Py.find text marker)).

(** A run of digits and dots that [float] takes: at least one digit, at
    most one dot. *)
Definition dots (g : pystr) : nat := length (List.filter Num.is_dot g).
Definition is_number (g : pystr) : bool :=
  existsb Num.is_digit g && (dots g <=? 1)%nat.

(* ===================================================================== *)
(** * Properties *)
(* ===================================================================== *)

(** ** The identifier normalizer *)

Lemma translate_MAP_char c :
  match List.find (fun e => N.eqb (fst e) c) MAP with
  | Some e => snd e
  | None => [c]
  end = [unaccent c].
Proof.
  unfold MAP; cbn [List.find fst snd].
  destruct (N.eqb_spec 246 c) as [<-|H1]; [reflexivity|].
  destruct (N.eqb_spec 228 c) as [<-|H2]; [reflexivity|].
  destruct (N.eqb_spec 229 c) as [<-|H3]; [reflexivity|].
  destruct (N.eqb_spec 214 c) as [<-|H4]; [reflexivity|].
  destruct (N.eqb_spec 196 c) as [<-|H5]; [reflexivity|].
  destruct (N.eqb_spec 197 c) as [<-|H6]; [reflexivity|].
  f_equal. unfold unaccent.
  repeat (match goal with
          | |- context [match ?x with _ => _ end] => destruct x; try congruence
          end).
Qed.

Lemma normalize_map s : normalize_project_id s = map unaccent s.
Proof.
  unfold normalize_project_id, Py.translate.
  induction s as [|c s IH]; [reflexivity|].
  cbn [map concat]. rewrite translate_MAP_char, IH. reflexivity.
Qed.

Lemma unaccent_other c : ~ In c accented -> unaccent c = c.
Proof.
  intros H. unfold unaccent.
  repeat (match goal with
          | |- context [match ?x with _ => _ end] =>
              destruct x; try reflexivity
          end);
  exfalso; apply H; unfold accented; simpl; tauto.
Qed.

(** C7.  [normalize_project_id] is a total function that rewrites the
    text one code point at a time: the six accented letters of the map
    become their plain letters, every other code point is kept, so the
    length is unchanged; and [normalize("Orjan aao" with its accents)]
    is ["Orjan aao"]. *)
Theorem normalize_project_id_spec :
  (forall s, normalize_project_id s = map unaccent s) /\
  (map unaccent accented = [111; 97; 97; 79; 65; 65]%N) /\
  (forall c, ~ In c accented -> unaccent c = c) /\
  (forall s, length (normalize_project_id s) = length s) /\
  normalize_project_id [214; 114; 106; 97; 110; 32; 229; 228; 246]%N
  = py "Orjan aao".
Proof.
  split; [exact normalize_map|].
  split; [reflexivity|].
  split; [exact unaccent_other|].
  split; [|reflexivity].
  intros s. rewrite normalize_map. apply length_map.
Qed.

(** ** The calendar *)

Module CalFacts.
Import Cal CalOrder.

Local Ltac zdiv := Z.div_mod_to_equations; lia.

Lemma is_leap_true y :
  is_leap y = true <-> y mod 4 = 0 /\ (y mod 100 <> 0 \/ y mod 400 = 0).
Proof.
  unfold is_leap.
  rewrite andb_true_iff, orb_true_iff, negb_true_iff, !Z.eqb_eq, Z.eqb_neq.
  reflexivity.
Qed.

Lemma days_before_year_succ y :
  days_before_year (y + 1)
  = days_before_year y + 365 + (if is_leap y then 1 else 0).
Proof.
  unfold days_before_year.
  destruct (is_leap y) eqn:L.
  - apply is_leap_true in L. zdiv.
  - assert (N : ~ (y mod 4 = 0 /\ (y mod 100 <> 0 \/ y mod 400 = 0))).
    { intros H. apply is_leap_true in H. congruence. }
    zdiv.
Qed.

Lemma days_before_year_mono y y' :
  y <= y' -> days_before_year y <= days_before_year y'.
Proof. unfold days_before_year. intros H. zdiv. Qed.

Lemma month_cases m :
  1 <= m <= 12 ->
  m = 1 \/ m = 2 \/ m = 3 \/ m = 4 \/ m = 5 \/ m = 6 \/
  m = 7 \/ m = 8 \/ m = 9 \/ m = 10 \/ m = 11 \/ m = 12.
Proof. lia. Qed.

Local Ltac by_month m H :=
  let C := fresh in
  pose proof (month_cases m H) as C;
  repeat (destruct C as [C|C]; [subst m|]); [..|subst m].

(** The days before a month, and through it, within a year. *)
Lemma days_through_month y m :
  1 <= m <= 12 ->
  0 <= days_before_month y m /\
  days_before_month y m + days_in_month y m
  <= 365 + (if is_leap y then 1 else 0).
Proof.
  intros H. unfold days_before_month, days_in_month.
  by_month m H; destruct (is_leap y); cbn; lia.
Qed.

Lemma days_before_month_mono y m m' :
  1 <= m -> m < m' -> m' <= 12 ->
  days_before_month y m + days_in_month y m <= days_before_month y m'.
Proof.
  intros H1 H2 H3.
  assert (Hm : 1 <= m <= 12) by lia.
  assert (Hm' : 1 <= m' <= 12) by lia.
  unfold days_before_month, days_in_month.
  by_month m Hm; by_month m' Hm'; try lia; destruct (is_leap y); cbn; lia.
Qed.

Lemma day_of_year_bound y m d :
  valid_ymd (y, m, d) ->
  1 <= days_before_month y m + d <= 365 + (if is_leap y then 1 else 0).
Proof.
  intros [Hm Hd].
  pose proof (days_through_month y m Hm) as [H0 H1].
  lia.
Qed.

(** [ymd2ord] respects the order of dates. *)
Lemma ymd2ord_lt a b :
  valid_ymd a -> valid_ymd b -> ymd_lt a b ->
  (let '(y, m, d) := a in ymd2ord y m d)
  < (let '(y', m', d') := b in ymd2ord y' m' d').
Proof.
  destruct a as [[y m] d], b as [[y' m'] d'].
  intros Va Vb L. unfold ymd2ord.
  pose proof (day_of_year_bound _ _ _ Va) as Ba.
  pose proof (day_of_year_bound _ _ _ Vb) as Bb.
  destruct Va as [Hm Hd], Vb as [Hm' Hd'].
  destruct L as [L|[-> [L|[-> L]]]].
  - pose proof (days_before_year_succ y) as S.
    pose proof (days_before_year_mono (y + 1) y' ltac:(lia)) as Mo.
    lia.
  - pose proof (days_before_month_mono y' m m' ltac:(lia) L ltac:(lia)).
    lia.
  - lia.
Qed.

Lemma month_day_table :
  forallb (fun k => month_day_ok true (Z.of_nat k)
                    && month_day_ok false (Z.of_nat k)) (seq 0 365) = true.
Proof. vm_compute. reflexivity. Qed.

Lemma month_day_spec n leapyear :
  0 <= n < 365 ->
  let '(m, d) := month_day n leapyear in
  1 <= m <= 12 /\
  1 <= d <= (if (m =? 2) && leapyear then 29 else DAYS_IN_MONTH m) /\
  DAYS_BEFORE_MONTH m + (if (2 <? m) && leapyear then 1 else 0) + d = n + 1.
Proof.
  intros H.
  pose proof month_day_table as T.
  rewrite forallb_forall in T.
  specialize (T (Z.to_nat n)).
  rewrite Z2Nat.id in T by lia.
  assert (I : In (Z.to_nat n) (seq 0 365)) by (apply in_seq; lia).
  apply T in I. apply andb_true_iff in I as [I1 I2].
  assert (I : month_day_ok leapyear n = true) by (destruct leapyear; assumption).
  unfold month_day_ok in I.
  destruct (month_day n leapyear) as [m d].
  rewrite !andb_true_iff in I.
  destruct I as [[[[A B] C] D] E].
  apply Z.leb_le in A, B, C, D. apply Z.eqb_eq in E.
  lia.
Qed.

Lemma ord2ymd_unfold n :
  ord2ymd n =
  let n0 := n - 1 in
  let n400 := n0 / DI400Y in
  let r400 := n0 mod DI400Y in
  let n100 := r400 / DI100Y in
  let r100 := r400 mod DI100Y in
  let n4 := r100 / DI4Y in
  let r4 := r100 mod DI4Y in
  let n1 := r4 / 365 in
  let r1 := r4 mod 365 in
  let y := n400 * 400 + 1 + n100 * 100 + n4 * 4 + n1 in
  if (n1 =? 4) || (n100 =? 4) then (y - 1, 12, 31)
  else
    let '(m, d) :=
      month_day r1 ((n1 =? 3) && (negb (n4 =? 24) || (n100 =? 3))) in
    (y, m, d).
Proof.
  unfold ord2ymd, month_day. cbv zeta.
  repeat match goal with
         | |- context [if ?c then _ else _] => destruct c
         end; reflexivity.
Qed.

(** [ord2ymd] gives a date of the calendar, whose ordinal is the number
    it was given. *)
Lemma ord2ymd_inverse n :
  1 <= n ->
  valid_ymd (ord2ymd n) /\
  (let '(y, m, d) := ord2ymd n in ymd2ord y m d) = n.
Proof.
  intros Hn. rewrite ord2ymd_unfold. cbv zeta.
  unfold DI400Y, DI100Y, DI4Y.
  set (n0 := n - 1).
  set (q := n0 / 146097). set (r400 := n0 mod 146097).
  set (a := r400 / 36524). set (r100 := r400 mod 36524).
  set (b := r100 / 1461). set (r4 := r100 mod 1461).
  set (c := r4 / 365). set (r1 := r4 mod 365).
  assert (E0 : n0 = 146097 * q + r400 /\ 0 <= r400 < 146097)
    by (subst q r400; zdiv).
  assert (E1 : r400 = 36524 * a + r100 /\ 0 <= r100 < 36524)
    by (subst a r100; zdiv).
  assert (E2 : r100 = 1461 * b + r4 /\ 0 <= r4 < 1461)
    by (subst b r4; zdiv).
  assert (E3 : r4 = 365 * c + r1 /\ 0 <= r1 < 365)
    by (subst c r1; zdiv).
  assert (Hq : 0 <= q) by (subst q n0; zdiv).
  clearbody q r400 a r100 b r4 c r1.
  assert (Ha : 0 <= a <= 4) by lia.
  assert (Hb : 0 <= b <= 24) by lia.
  assert (Hc : 0 <= c <= 4) by lia.
  destruct ((c =? 4) || (a =? 4)) eqn:Last.
  - (* the last day of a leap year *)
    apply orb_true_iff in Last. rewrite !Z.eqb_eq in Last.
    split.
    + unfold valid_ymd, days_in_month. cbn. lia.
    + unfold ymd2ord, days_before_month. cbn [DAYS_BEFORE_MONTH].
      replace ((2 <? 12)) with true by reflexivity. cbn [andb].
      set (Y := q * 400 + 1 + a * 100 + b * 4 + c - 1).
      assert (L : is_leap Y = true).
      { apply is_leap_true. subst Y. destruct Last; zdiv. }
      rewrite L.
      pose proof (days_before_year_succ Y) as S. rewrite L in S.
      assert (T : days_before_year (Y + 1) = n).
      { unfold days_before_year. subst Y. destruct Last; zdiv. }
      lia.
  - apply orb_false_iff in Last. rewrite !Z.eqb_neq in Last.
    set (leapyear := (c =? 3) && (negb (b =? 24) || (a =? 3))).
    set (Y := q * 400 + 1 + a * 100 + b * 4 + c).
    assert (L : is_leap Y = leapyear).
    { subst leapyear Y. apply eq_true_iff_eq.
      rewrite is_leap_true, andb_true_iff, orb_true_iff, negb_true_iff,
        !Z.eqb_eq, Z.eqb_neq.
      zdiv. }
    pose proof (month_day_spec r1 leapyear ltac:(lia)) as MD.
    destruct (month_day r1 leapyear) as [m d].
    destruct MD as (Hm & Hd & Hs).
    split.
    + unfold valid_ymd, days_in_month. rewrite L. lia.
    + unfold ymd2ord, days_before_month. rewrite L.
      assert (T : days_before_year Y = n0 - r1).
      { unfold days_before_year. subst Y. zdiv. }
      subst n0. lia.
Qed.

Lemma ymd_lt_trichotomy a b : ymd_lt a b \/ a = b \/ ymd_lt b a.
Proof.
  destruct a as [[y m] d], b as [[y' m'] d']. unfold ymd_lt.
  destruct (Z.lt_trichotomy y y') as [?|[->|?]]; [lia| |lia].
  destruct (Z.lt_trichotomy m m') as [?|[->|?]]; [lia| |lia].
  destruct (Z.lt_trichotomy d d') as [?|[->|?]]; [lia| |lia].
  right; left; reflexivity.
Qed.

(** Later ordinals are later dates. *)
Lemma ord2ymd_lt a b : 1 <= a -> a < b -> ymd_lt (ord2ymd a) (ord2ymd b).
Proof.
  intros Ha Hab.
  destruct (ord2ymd_inverse a Ha) as [Va Ia].
  destruct (ord2ymd_inverse b ltac:(lia)) as [Vb Ib].
  destruct (ymd_lt_trichotomy (ord2ymd a) (ord2ymd b)) as [L|[E|L]].
  - exact L.
  - rewrite E in Ia. lia.
  - pose proof (ymd2ord_lt _ _ Vb Va L) as H. rewrite Ia, Ib in H. lia.
Qed.

End CalFacts.

(** ** The threshold evaluator *)

Lemma ltb_lt a b : Num.ltb a b = true <-> (a < b)%Q.
Proof.
  unfold Num.ltb. destruct (Qlt_le_dec a b) as [H|H]; split; intros H';
    try assumption; try reflexivity; try discriminate.
  exfalso. apply (Qlt_not_le _ _ H'). assumption.
Qed.

Lemma geb_le a b : Num.geb a b = true <-> (b <= a)%Q.
Proof.
  unfold Num.geb. destruct (Qlt_le_dec a b) as [H|H]; split; intros H';
    try assumption; try reflexivity; try discriminate.
  exfalso. apply (Qlt_not_le _ _ H). assumption.
Qed.

Section UpdateFacts.

Variable float_str : Q -> pystr.
Variable self : emailer.
Variable e : env.
Variable name : pystr.
Variable hours : Q.
Variable start : Cal.datetime.

Local Abbreviation elapsed := (Cal.sub_days (today e) start).
Local Abbreviation hmail := (hour_mail float_str self e name hours start).
Local Abbreviation dmail := (day_mail self e name hours start).
Local Abbreviation saved := (persisted e name hours).
Local Abbreviation announce := (notify self e name hours).

Lemma crossed_spec ph c :
  crossed ph hours c = true <-> (ph < inject_Z c)%Q /\ (inject_Z c <= hours)%Q.
Proof. unfold crossed. rewrite andb_true_iff, ltb_lt, geb_le. reflexivity. Qed.

Lemma send_email_run subj body w :
  send_email self e subj body false w
  = let m := mk_email subj body (em_sender self)
               (join_comma (em_recipients self)) in
    if dry_run self || smtp_up e
    then (Ok tt, mk_world (db w) (trace w ++ [outcome self e m]))
    else (Raise SMTPException, mk_world (db w) (trace w ++ [Failed m])).
Proof.
  unfold send_email, outcome, log, mbind, raise.
  destruct (dry_run self), (smtp_up e); reflexivity.
Qed.

Lemma hour_loop_run ph cps w :
  hour_loop float_str self e name hours elapsed ph cps w
  = match List.find (crossed ph hours) cps with
    | Some c =>
        if dry_run self || smtp_up e
        then (Ok true,
              mk_world (db w) (trace w ++ [outcome self e (hmail c)]))
        else (Raise SMTPException,
              mk_world (db w) (trace w ++ [Failed (hmail c)]))
    | None => (Ok false, w)
    end.
Proof.
  induction cps as [|c cps IH]; [reflexivity|].
  cbn [hour_loop List.find]. fold (crossed ph hours c).
  destruct (crossed ph hours c).
  - unfold mbind. rewrite send_email_run. cbv zeta.
    destruct (dry_run self || smtp_up e); reflexivity.
  - exact IH.
Qed.

(** [update], by cases on what the store holds and which rule applies. *)
Lemma update_run w :
  update float_str self e name hours start w
  = match rows (db w) !! name with
    | None => (Ok false, saved w (trace w))
    | Some r =>
        match List.find (crossed (row_hours r) hours) CHECKPOINT_HOURS with
        | Some c => announce w (hmail c)
        | None =>
            match Cal.add_days start CHECKPOINT_DAYS with
            | Raise ex => (Raise ex, w)
            | Ok cp =>
                if Cal.ltb (Cal.combine_min (Cal.date_of (row_date r))) cp
                   && Cal.leb cp (today e)
                then announce w dmail
                else (Ok false, saved w (trace w))
            end
        end
    end.
Proof.
  unfold update.
  unfold mbind at 1. unfold try_except_KeyError, mbind at 1, db_getitem.
  destruct (rows (db w) !! name) as [r|] eqn:Hr.
  - cbn [ret fst snd].
    unfold mbind at 1. rewrite hour_loop_run.
    destruct (List.find (crossed (row_hours r) hours) CHECKPOINT_HOURS) as [c|].
    + unfold notify.
      destruct (dry_run self || smtp_up e); [|reflexivity].
      cbn. reflexivity.
    + cbn [negb]. unfold mbind at 1. unfold mbind at 1. unfold lift.
      destruct (Cal.add_days start CHECKPOINT_DAYS) as [cp|ex]; [|reflexivity].
      destruct (Cal.ltb _ cp && Cal.leb cp (today e)).
      * unfold mbind at 1. rewrite send_email_run. cbv zeta.
        unfold notify.
        destruct (dry_run self || smtp_up e); [|reflexivity].
        cbn. reflexivity.
      * cbn. reflexivity.
  - cbn. reflexivity.
Qed.

Lemma emitted_app w d l : emitted w (mk_world d (trace w ++ l)) = l.
Proof. unfold emitted. cbn [trace]. apply drop_app_length. Qed.

Lemma emitted_same w d : emitted w (mk_world d (trace w)) = [].
Proof. unfold emitted. cbn [trace]. apply drop_all. Qed.

Lemma emitted_refl w : emitted w w = [].
Proof. unfold emitted. apply drop_all. Qed.

Lemma outcome_failed m :
  dry_run self || smtp_up e = false -> outcome self e m = Failed m.
Proof.
  unfold outcome. destruct (dry_run self), (smtp_up e); try discriminate.
  reflexivity.
Qed.

Lemma mail_of_outcome m : mail_of (outcome self e m) = m.
Proof. unfold outcome. destruct (dry_run self), (smtp_up e); reflexivity. Qed.

Lemma announce_emitted w m :
  trace (snd (announce w m)) = trace w ++ [outcome self e m].
Proof.
  unfold notify. destruct (dry_run self || smtp_up e) eqn:D; cbn.
  - reflexivity.
  - rewrite (outcome_failed m D). reflexivity.
Qed.

(** A call appends to the trace what became of the notification that was
    due, and nothing else. *)
Lemma update_trace w :
  trace (snd (update float_str self e name hours start w))
  = trace w ++ match due float_str self e name hours start w with
               | Some m => [outcome self e m]
               | None => []
               end.
Proof.
  rewrite update_run. unfold due.
  destruct (rows (db w) !! name) as [r|]; [|cbn; symmetry; apply app_nil_r].
  destruct (List.find _ CHECKPOINT_HOURS) as [c|]; [apply announce_emitted|].
  destruct (Cal.add_days start CHECKPOINT_DAYS) as [cp|ex];
    [|cbn; symmetry; apply app_nil_r].
  destruct (Cal.ltb _ cp && Cal.leb cp (today e));
    [apply announce_emitted|cbn; symmetry; apply app_nil_r].
Qed.

Lemma update_emitted w :
  emitted w (snd (update float_str self e name hours start w))
  = match due float_str self e name hours start w with
    | Some m => [outcome self e m]
    | None => []
    end.
Proof. unfold emitted. rewrite update_trace. apply drop_app_length. Qed.

Lemma subject_tail_inj (a b : pystr) :
  py "[TimeLog Bot] Checkpoint in project " ++ name ++ py ": " ++ a
  = py "[TimeLog Bot] Checkpoint in project " ++ name ++ py ": " ++ b ->
  a = b.
Proof.
  intros H. apply List.app_inv_head in H. apply List.app_inv_head in H.
  apply List.app_inv_head in H. exact H.
Qed.

Lemma mail_subject_eq s b f t s' b' f' t' :
  mk_email s b f t = mk_email s' b' f' t' -> s = s'.
Proof. congruence. Qed.

Lemma hour_mail_inj c c' :
  In c CHECKPOINT_HOURS -> In c' CHECKPOINT_HOURS ->
  hmail c = hmail c' -> c = c'.
Proof.
  unfold CHECKPOINT_HOURS, hour_mail, hour_subject.
  intros [<-|[<-|[]]] [<-|[<-|[]]] H; try reflexivity;
    apply mail_subject_eq, subject_tail_inj in H;
    vm_compute in H; discriminate.
Qed.

Lemma hour_day_mail_neq c : In c CHECKPOINT_HOURS -> hmail c <> dmail.
Proof.
  unfold CHECKPOINT_HOURS, hour_mail, day_mail, hour_subject, day_subject.
  intros [<-|[<-|[]]] H; apply mail_subject_eq, subject_tail_inj in H;
    vm_compute in H; discriminate.
Qed.

Lemma find_crossed_Some ph c :
  List.find (crossed ph hours) CHECKPOINT_HOURS = Some c <->
  In c CHECKPOINT_HOURS /\ crossed ph hours c = true /\
  forall c', In c' CHECKPOINT_HOURS -> crossed ph hours c' = true -> c <= c'.
Proof.
  unfold CHECKPOINT_HOURS. cbn [List.find].
  destruct (crossed ph hours 100) eqn:C1.
  - split.
    + intros [= <-]. split; [left; reflexivity|]. split; [exact C1|].
      intros c' [<-|[<-|[]]] _; lia.
    + intros ([<-|[<-|[]]] & _ & Hmin); [reflexivity|].
      specialize (Hmin 100 ltac:(left; reflexivity) C1). lia.
  - destruct (crossed ph hours 300) eqn:C3.
    + split.
      * intros [= <-]. split; [right; left; reflexivity|]. split; [exact C3|].
        intros c' [<-|[<-|[]]] H; [congruence|lia].
      * intros ([<-|[<-|[]]] & Hc & _); [congruence|reflexivity].
    + split; [discriminate|].
      intros ([<-|[<-|[]]] & Hc & _); congruence.
Qed.

Lemma find_crossed_None ph :
  List.find (crossed ph hours) CHECKPOINT_HOURS = None <->
  forall c, In c CHECKPOINT_HOURS -> crossed ph hours c = false.
Proof.
  unfold CHECKPOINT_HOURS. cbn [List.find].
  destruct (crossed ph hours 100) eqn:C1.
  - split; [discriminate|]. intros H.
    specialize (H 100 ltac:(left; reflexivity)). congruence.
  - destruct (crossed ph hours 300) eqn:C3.
    + split; [discriminate|]. intros H.
      specialize (H 300 ltac:(right; left; reflexivity)). congruence.
    + split; [|reflexivity]. intros _ c [<-|[<-|[]]]; assumption.
Qed.

(** Which hour notification a call hands to the transport. *)
Lemma hour_fired_iff w c :
  In c CHECKPOINT_HOURS ->
  In (hmail c)
     (map mail_of (emitted w (snd (update float_str self e name hours start w))))
  <-> exists r, rows (db w) !! name = Some r /\
        List.find (crossed (row_hours r) hours) CHECKPOINT_HOURS = Some c.
Proof.
  intros Hc. rewrite update_emitted. unfold due.
  destruct (rows (db w) !! name) as [r|].
  2:{ split; [intros []|intros (r & H & _); discriminate]. }
  destruct (List.find (crossed (row_hours r) hours) CHECKPOINT_HOURS) as [c0|] eqn:F.
  - cbn [map In]. rewrite mail_of_outcome. split.
    + intros [H|[]]. exists r. split; [reflexivity|].
      rewrite F. apply find_crossed_Some in F as (Hc0 & _).
      f_equal. apply hour_mail_inj; assumption.
    + intros (r' & [= <-] & F'). left.
      assert (E : c0 = c) by congruence. rewrite E. reflexivity.
  - split.
    + intros H. exfalso.
      destruct (Cal.add_days start CHECKPOINT_DAYS) as [cp|ex]; [|destruct H].
      destruct (Cal.ltb _ cp && Cal.leb cp (today e)); [|destruct H].
      cbn [map In] in H. rewrite mail_of_outcome in H.
      destruct H as [H|[]]. symmetry in H.
      exact (hour_day_mail_neq c Hc H).
    + intros (r' & [= <-] & H). congruence.
Qed.

(** When the day notification is handed to the transport. *)
Lemma day_fired_iff w :
  In dmail
     (map mail_of (emitted w (snd (update float_str self e name hours start w))))
  <-> exists r cp, rows (db w) !! name = Some r /\
        List.find (crossed (row_hours r) hours) CHECKPOINT_HOURS = None /\
        Cal.add_days start CHECKPOINT_DAYS = Ok cp /\
        Cal.ltb (Cal.combine_min (Cal.date_of (row_date r))) cp = true /\
        Cal.leb cp (today e) = true.
Proof.
  rewrite update_emitted. unfold due.
  destruct (rows (db w) !! name) as [r|].
  2:{ split; [intros []|intros (r & cp & H & _); discriminate]. }
  destruct (List.find (crossed (row_hours r) hours) CHECKPOINT_HOURS) as [c0|] eqn:F.
  - cbn [map In]. rewrite mail_of_outcome. split.
    + intros [H|[]]. exfalso.
      destruct (proj1 (find_crossed_Some _ _) F) as (Hc0 & _).
      exact (hour_day_mail_neq c0 Hc0 H).
    + intros (r' & cp & [= <-] & H & _). congruence.
  - destruct (Cal.add_days start CHECKPOINT_DAYS) as [cp|ex].
    2:{ split; [intros []|intros (r' & cp & _ & _ & H & _); discriminate]. }
    destruct (Cal.ltb _ cp && Cal.leb cp (today e)) eqn:C.
    + split; [|intros _; cbn; rewrite mail_of_outcome; left; reflexivity].
      intros _. exists r, cp. apply andb_true_iff in C as [C1 C2].
      repeat split; assumption.
    + split; [intros []|].
      intros (r' & cp' & [= <-] & _ & [= <-] & C1 & C2).
      rewrite C1, C2 in C. discriminate.
Qed.

Lemma emitted_length w :
  (length (emitted w (snd (update float_str self e name hours start w))) <= 1)%nat.
Proof.
  rewrite update_emitted.
  destruct (due float_str self e name hours start w); cbn; lia.
Qed.

End UpdateFacts.

(** *** Dates and the order of [datetime]s *)

Lemma compare_Lt_iff a b :
  Cal.compare a b = Lt <->
  date_lt (Cal.date_of a) (Cal.date_of b) \/
  (Cal.date_of a = Cal.date_of b /\ Cal.time_us a < Cal.time_us b).
Proof.
  destruct a as [y m d t], b as [y' m' d' t'].
  unfold Cal.compare, date_lt, CalOrder.ymd_lt, Cal.date_of. cbn.
  destruct (Z.compare_spec y y') as [->|?|?].
  2:{ split; [intros _; lia|reflexivity]. }
  2:{ split; [discriminate|]. intros [?|[[= ? ? ?] _]]; lia. }
  destruct (Z.compare_spec m m') as [->|?|?].
  2:{ split; [intros _; lia|reflexivity]. }
  2:{ split; [discriminate|]. intros [?|[[= ? ?] _]]; lia. }
  destruct (Z.compare_spec d d') as [->|?|?].
  2:{ split; [intros _; lia|reflexivity]. }
  2:{ split; [discriminate|]. intros [?|[[= ?] _]]; lia. }
  rewrite Z.compare_lt_iff. split.
  - intros H. right. split; [reflexivity|exact H].
  - intros [?|[_ ?]]; lia.
Qed.

Lemma compare_Gt_iff a b : Cal.compare a b = Gt <-> Cal.compare b a = Lt.
Proof.
  destruct a as [y m d t], b as [y' m' d' t']. unfold Cal.compare. cbn.
  rewrite (Z.compare_antisym y y'), (Z.compare_antisym m m'),
    (Z.compare_antisym d d'), (Z.compare_antisym t t').
  destruct (y ?= y'), (m ?= m'), (d ?= d'), (t ?= t'); cbn;
    split; congruence.
Qed.

Lemma ltb_date_lt a b :
  date_lt (Cal.date_of a) (Cal.date_of b) -> Cal.ltb a b = true.
Proof.
  intros H. unfold Cal.ltb.
  rewrite (proj2 (compare_Lt_iff a b)); [reflexivity|left; exact H].
Qed.

Lemma leb_date_lt a b :
  date_lt (Cal.date_of a) (Cal.date_of b) -> Cal.leb a b = true.
Proof.
  intros H. unfold Cal.leb.
  rewrite (proj2 (compare_Lt_iff a b)); [reflexivity|left; exact H].
Qed.

Lemma date_lt_asym a b : date_lt a b -> date_lt b a -> False.
Proof. unfold date_lt, CalOrder.ymd_lt. lia. Qed.

Lemma date_lt_irrefl a : ~ date_lt a a.
Proof. unfold date_lt, CalOrder.ymd_lt. lia. Qed.

Lemma ltb_date_gt a b :
  date_lt (Cal.date_of b) (Cal.date_of a) -> Cal.ltb a b = false.
Proof.
  intros H. unfold Cal.ltb.
  destruct (Cal.compare a b) eqn:C; try reflexivity.
  apply compare_Lt_iff in C as [C|[C _]].
  - destruct (date_lt_asym _ _ H C).
  - rewrite C in H. destruct (date_lt_irrefl _ H).
Qed.

(** For a checkpoint at midnight, the two comparisons of [update] are
    comparisons of dates. *)
Lemma ltb_midnight d cp :
  Cal.time_us cp = 0 ->
  Cal.ltb (Cal.combine_min d) cp = true <-> date_lt d (Cal.date_of cp).
Proof.
  intros T. unfold Cal.ltb.
  destruct (Cal.compare (Cal.combine_min d) cp) eqn:C.
  - split; [discriminate|]. intros H.
    assert (L : Cal.compare (Cal.combine_min d) cp = Lt).
    { apply compare_Lt_iff. left. destruct d; exact H. }
    congruence.
  - split; [|reflexivity]. intros _.
    apply compare_Lt_iff in C as [C|[_ C]].
    + destruct d; exact C.
    + cbn in C. lia.
  - split; [discriminate|]. intros H.
    assert (L : Cal.compare (Cal.combine_min d) cp = Lt).
    { apply compare_Lt_iff. left. destruct d; exact H. }
    congruence.
Qed.

Lemma leb_midnight cp t :
  Cal.time_us cp = 0 -> 0 <= Cal.time_us t ->
  Cal.leb cp t = true <-> date_le (Cal.date_of cp) (Cal.date_of t).
Proof.
  intros T0 T1. unfold Cal.leb, date_le.
  destruct (Cal.compare cp t) eqn:C.
  - split; [intros _|reflexivity].
    destruct cp as [y m d u], t as [y' m' d' u'].
    unfold Cal.compare in C. cbn in *.
    destruct (Z.compare_spec y y'); try discriminate.
    destruct (Z.compare_spec m m'); try discriminate.
    destruct (Z.compare_spec d d'); try discriminate.
    right. unfold Cal.date_of. cbn. congruence.
  - split; [intros _|reflexivity].
    apply compare_Lt_iff in C as [C|[C _]]; [left; exact C|right; exact C].
  - split; [discriminate|]. intros H. exfalso.
    apply compare_Gt_iff, compare_Lt_iff in C as [C|[C1 C2]].
    + destruct H as [H|H].
      * exact (date_lt_asym _ _ H C).
      * rewrite H in C. exact (date_lt_irrefl _ C).
    + lia.
Qed.

Lemma add_days_Ok d n p :
  Cal.add_days d n = Ok p ->
  1 <= Cal.toordinal d + n /\
  (Cal.year p, Cal.month p, Cal.day p) = Cal.ord2ymd (Cal.toordinal d + n) /\
  Cal.time_us p = Cal.time_us d.
Proof.
  unfold Cal.add_days.
  destruct ((0 <? Cal.toordinal d + n) && (Cal.toordinal d + n <=? Cal.MAXORDINAL))
    eqn:R; [|discriminate].
  apply andb_true_iff in R as [R1 R2]. apply Z.ltb_lt in R1.
  destruct (Cal.ord2ymd (Cal.toordinal d + n)) as [[y m] dd].
  intros [= <-]. cbn. split; [lia|]. split; reflexivity.
Qed.

Lemma add_days_Raise d n ex : Cal.add_days d n = Raise ex -> ex = OverflowError.
Proof.
  unfold Cal.add_days.
  destruct ((0 <? Cal.toordinal d + n) && _).
  - destruct (Cal.ord2ymd (Cal.toordinal d + n)) as [[y m] dd]. discriminate.
  - congruence.
Qed.

(** Adding more days gives a later date. *)
Lemma add_days_lt d n n' p p' :
  Cal.add_days d n = Ok p -> Cal.add_days d n' = Ok p' -> n < n' ->
  date_lt (Cal.date_of p) (Cal.date_of p').
Proof.
  intros H H' L.
  apply add_days_Ok in H as (B & E & _).
  apply add_days_Ok in H' as (B' & E' & _).
  change (CalOrder.ymd_lt (Cal.year p, Cal.month p, Cal.day p)
                          (Cal.year p', Cal.month p', Cal.day p')).
  rewrite E, E'. apply CalFacts.ord2ymd_lt; lia.
Qed.

Lemma add_days_between d n1 n2 n3 p1 p3 :
  Cal.add_days d n1 = Ok p1 -> Cal.add_days d n3 = Ok p3 ->
  n1 <= n2 <= n3 -> exists p2, Cal.add_days d n2 = Ok p2.
Proof.
  unfold Cal.add_days. intros H1 H3 B.
  destruct ((0 <? Cal.toordinal d + n1) && _) eqn:R1; [|discriminate].
  destruct ((0 <? Cal.toordinal d + n3) && _) eqn:R3; [|discriminate].
  apply andb_true_iff in R1 as [A1 A2], R3 as [A3 A4].
  apply Z.ltb_lt in A1. apply Z.leb_le in A4.
  assert (R : (0 <? Cal.toordinal d + n2)
              && (Cal.toordinal d + n2 <=? Cal.MAXORDINAL) = true).
  { apply andb_true_iff. split; [apply Z.ltb_lt|apply Z.leb_le]; lia. }
  rewrite R. destruct (Cal.ord2ymd (Cal.toordinal d + n2)) as [[y m] dd].
  eexists; reflexivity.
Qed.

(** *** The hour checkpoints *)

(** C3.  With the checkpoints (100, 300): a call of [update] hands an
    hour-checkpoint notification to the transport if and only if the
    store holds previous hours for the project and some checkpoint [c]
    has [previous_hours < c <= hours]; the notification is the one of the
    lowest such checkpoint, and a call emits at most one notification.
    With 90 hours stored and 105 now, the notification for 100 goes out;
    with nothing stored, none does, whatever the hours. *)
Theorem hour_checkpoint_rule
    (float_str : Q -> pystr) (self : emailer) (e : env) (name : pystr)
    (hours : Q) (start : Cal.datetime) (w : world) :
  let w' := snd (update float_str self e name hours start w) in
  let previous_hours := row_hours <$> rows (db w) !! name in
  let fired c :=
    In (hour_mail float_str self e name hours start c)
       (map mail_of (emitted w w')) in
  let crossing ph c := (ph < inject_Z c)%Q /\ (inject_Z c <= hours)%Q in
  CHECKPOINT_HOURS = [100; 300] /\
  trace w' = trace w ++ emitted w w' /\
  ((exists c, In c CHECKPOINT_HOURS /\ fired c) <->
   (exists ph c, previous_hours = Some ph /\ In c CHECKPOINT_HOURS
                 /\ crossing ph c)) /\
  (forall c, In c CHECKPOINT_HOURS ->
     (fired c <->
      exists ph, previous_hours = Some ph /\ crossing ph c /\
        forall c', In c' CHECKPOINT_HOURS -> crossing ph c' -> c <= c')) /\
  (length (emitted w w') <= 1)%nat /\
  (forall ph, previous_hours = Some ph -> (ph == 90)%Q -> (hours == 105)%Q ->
     fired 100) /\
  (previous_hours = None -> emitted w w' = []).
Proof.
  intros w' previous_hours fired crossing.
  assert (Per : forall c, In c CHECKPOINT_HOURS ->
     (fired c <->
      exists ph, previous_hours = Some ph /\ crossing ph c /\
        forall c', In c' CHECKPOINT_HOURS -> crossing ph c' -> c <= c')).
  { intros c Hc. subst fired w' previous_hours crossing. cbv beta.
    rewrite hour_fired_iff by exact Hc. split.
    - intros (r & Hr & F). exists (row_hours r). rewrite Hr.
      split; [reflexivity|].
      apply find_crossed_Some in F as (_ & C & Min).
      split; [apply crossed_spec; exact C|].
      intros c' Hc' C'. apply Min; [exact Hc'|]. apply crossed_spec; exact C'.
    - intros (ph & Hph & C & Min).
      destruct (rows (db w) !! name) as [r|]; [|discriminate].
      injection Hph as <-. exists r. split; [reflexivity|].
      apply find_crossed_Some. split; [exact Hc|].
      split; [apply crossed_spec; exact C|].
      intros c' Hc' C'. apply Min; [exact Hc'|]. apply crossed_spec; exact C'. }
  split; [reflexivity|].
  split.
  { subst w'. rewrite update_trace, update_emitted. reflexivity. }
  split.
  { split.
    - intros (c & Hc & F). apply (Per c Hc) in F as (ph & Hph & C & _).
      exists ph, c. repeat split; try assumption; apply C.
    - intros (ph & c & Hph & Hc & C).
      subst previous_hours.
      destruct (rows (db w) !! name) as [r|] eqn:Hr; [|discriminate].
      injection Hph as <-.
      destruct (List.find (crossed (row_hours r) hours) CHECKPOINT_HOURS)
        as [c0|] eqn:F.
      + exists c0. split; [apply find_crossed_Some in F; apply F|].
        subst fired w'. cbv beta.
        apply hour_fired_iff; [apply find_crossed_Some in F; apply F|].
        exists r. split; [exact Hr|exact F].
      + exfalso.
        pose proof (proj1 (find_crossed_None hours (row_hours r)) F c Hc) as N.
        apply (crossed_spec hours) in C. congruence. }
  split; [exact Per|].
  split; [apply emitted_length|].
  split.
  { intros ph Hph E90 E105. apply (Per 100); [left; reflexivity|].
    exists ph. split; [exact Hph|].
    assert (C : crossing ph 100).
    { subst crossing. cbv beta. rewrite E90, E105. split; [reflexivity|].
      unfold Qle; cbn; lia. }
    split; [exact C|].
    intros c' [<-|[<-|[]]] _; lia. }
  { intros N. subst w' previous_hours. rewrite update_emitted. unfold due.
    destruct (rows (db w) !! name); [discriminate|reflexivity]. }
Qed.

(** *** The day checkpoint *)

(** C4.  With the fixed count of 365 days: a call of [update] hands the
    day-checkpoint notification to the transport if and only if it hands
    over no hour-checkpoint notification, the store holds a previous
    update for the project, and
    [previous_update_date < project_start_date + 365 days <= today]
    (as [datetime]s, and as calendar dates when the start is at midnight);
    so a previous update on start + 364 days with today on start + 366
    days notifies unless an hour checkpoint does, a previous update on
    start + 366 days does not, and a call emits at most one notification
    of either kind. *)
Theorem day_checkpoint_rule
    (float_str : Q -> pystr) (self : emailer) (e : env) (name : pystr)
    (hours : Q) (start : Cal.datetime) (w : world) :
  let w' := snd (update float_str self e name hours start w) in
  let sent := map mail_of (emitted w w') in
  let hour_fired :=
    exists c, In c CHECKPOINT_HOURS /\
              In (hour_mail float_str self e name hours start c) sent in
  let day_fired := In (day_mail self e name hours start) sent in
  CHECKPOINT_DAYS = 365 /\
  (day_fired <->
   ~ hour_fired /\
   exists r cp, rows (db w) !! name = Some r /\
     Cal.add_days start CHECKPOINT_DAYS = Ok cp /\
     Cal.ltb (Cal.combine_min (Cal.date_of (row_date r))) cp = true /\
     Cal.leb cp (today e) = true) /\
  (Cal.time_us start = 0 -> 0 <= Cal.time_us (today e) ->
   (day_fired <->
    ~ hour_fired /\
    exists r cp, rows (db w) !! name = Some r /\
      Cal.add_days start CHECKPOINT_DAYS = Ok cp /\
      date_lt (Cal.date_of (row_date r)) (Cal.date_of cp) /\
      date_le (Cal.date_of cp) (Cal.date_of (today e)))) /\
  (forall r p t, rows (db w) !! name = Some r ->
     Cal.add_days start 364 = Ok p ->
     Cal.date_of (row_date r) = Cal.date_of p ->
     Cal.add_days start 366 = Ok t ->
     Cal.date_of (today e) = Cal.date_of t ->
     ~ hour_fired -> day_fired) /\
  (forall r p, rows (db w) !! name = Some r ->
     Cal.add_days start 366 = Ok p ->
     Cal.date_of (row_date r) = Cal.date_of p ->
     ~ day_fired) /\
  (length (emitted w w') <= 1)%nat.
Proof.
  intros w' sent hour_fired day_fired.
  assert (NoHour : forall r, rows (db w) !! name = Some r ->
            ~ hour_fired <->
            List.find (crossed (row_hours r) hours) CHECKPOINT_HOURS = None).
  { intros r Hr. split.
    - intros N.
      destruct (List.find (crossed (row_hours r) hours) CHECKPOINT_HOURS)
        as [c0|] eqn:F; [|reflexivity].
      exfalso. apply N. exists c0.
      split; [apply find_crossed_Some in F; apply F|].
      apply hour_fired_iff; [apply find_crossed_Some in F; apply F|].
      exists r. split; [exact Hr|exact F].
    - intros F (c & Hc & H).
      apply hour_fired_iff in H as (r' & Hr' & F'); [|exact Hc].
      rewrite Hr in Hr'. injection Hr' as <-. congruence. }
  assert (Main : day_fired <->
     ~ hour_fired /\
     exists r cp, rows (db w) !! name = Some r /\
       Cal.add_days start CHECKPOINT_DAYS = Ok cp /\
       Cal.ltb (Cal.combine_min (Cal.date_of (row_date r))) cp = true /\
       Cal.leb cp (today e) = true).
  { subst day_fired sent w'. rewrite day_fired_iff. split.
    - intros (r & cp & Hr & F & A & C1 & C2).
      split; [apply (NoHour r Hr); exact F|].
      exists r, cp. repeat split; assumption.
    - intros (N & r & cp & Hr & A & C1 & C2).
      exists r, cp. split; [exact Hr|].
      split; [apply (NoHour r Hr); exact N|].
      repeat split; assumption. }
  split; [reflexivity|].
  split; [exact Main|].
  split.
  { intros T0 T1. rewrite Main. split.
    - intros (N & r & cp & Hr & A & C1 & C2).
      split; [exact N|]. exists r, cp.
      pose proof (add_days_Ok _ _ _ A) as (_ & _ & Tcp).
      split; [exact Hr|]. split; [exact A|]. split.
      + apply ltb_midnight; [lia|exact C1].
      + apply leb_midnight; [lia|exact T1|exact C2].
    - intros (N & r & cp & Hr & A & C1 & C2).
      split; [exact N|]. exists r, cp.
      pose proof (add_days_Ok _ _ _ A) as (_ & _ & Tcp).
      split; [exact Hr|]. split; [exact A|]. split.
      + apply ltb_midnight; [lia|exact C1].
      + apply leb_midnight; [lia|exact T1|exact C2]. }
  split.
  { intros r p t Hr Ap Ep At Et N. apply Main. split; [exact N|].
    destruct (add_days_between start 364 365 366 p t Ap At ltac:(lia))
      as [cp A].
    exists r, cp. split; [exact Hr|]. split; [exact A|]. split.
    - apply ltb_date_lt.
      change (Cal.date_of (Cal.combine_min (Cal.date_of (row_date r))))
        with (Cal.date_of (row_date r)).
      rewrite Ep. apply (add_days_lt start 364 365); [exact Ap|exact A|lia].
    - apply leb_date_lt. rewrite Et.
      apply (add_days_lt start 365 366); [exact A|exact At|lia]. }
  split.
  { intros r p Hr Ap Ep D. apply Main in D as (_ & r' & cp & Hr' & A & C1 & _).
    rewrite Hr in Hr'. injection Hr' as <-.
    rewrite ltb_date_gt in C1; [discriminate|].
    change (Cal.date_of (Cal.combine_min (Cal.date_of (row_date r))))
      with (Cal.date_of (row_date r)).
    rewrite Ep. apply (add_days_lt start 365 366); [exact A|exact Ap|lia]. }
  apply emitted_length.
Qed.

(** *** The state store *)

(** C5.  When [update] returns, with or without a notification and
    whatever the hours were before, the row of the project holds the
    current hours and the current timestamp, and it is committed; the
    other rows are as the connection had them.  When the mail transport
    fails, the call raises that failure and leaves the database as it
    was: the row is neither written nor committed. *)
Theorem update_persists
    (float_str : Q -> pystr) (self : emailer) (e : env) (name : pystr)
    (hours : Q) (start : Cal.datetime) (w : world) :
  let r := fst (update float_str self e name hours start w) in
  let w' := snd (update float_str self e name hours start w) in
  let row := mk_row hours (current_timestamp e) in
  (forall sent_email, r = Ok sent_email ->
     stored (db w') !! name = Some row /\
     stored (db w') = <[name := row]> (rows (db w)) /\
     rows (db w') = stored (db w')) /\
  (forall ex, r = Raise ex -> db w' = db w) /\
  (forall m, In (Failed m) (emitted w w') -> r = Raise SMTPException) /\
  (r = Raise SMTPException ->
     dry_run self = false /\ smtp_up e = false /\
     exists m, due float_str self e name hours start w = Some m /\
               emitted w w' = [Failed m]).
Proof.
  intros r w' row.
  assert (Saved : forall tr,
            stored (db (persisted e name hours w tr)) !! name = Some row /\
            stored (db (persisted e name hours w tr))
            = <[name := row]> (rows (db w)) /\
            rows (db (persisted e name hours w tr))
            = stored (db (persisted e name hours w tr))).
  { intros tr. unfold persisted. cbn. split; [apply lookup_insert_eq|].
    split; reflexivity. }
  assert (Ann : forall m,
            let res := notify self e name hours w m in
            (forall b, fst res = Ok b ->
               stored (db (snd res)) !! name = Some row /\
               stored (db (snd res)) = <[name := row]> (rows (db w)) /\
               rows (db (snd res)) = stored (db (snd res))) /\
            (forall ex, fst res = Raise ex -> db (snd res) = db w) /\
            (forall m', In (Failed m') (emitted w (snd res)) ->
               fst res = Raise SMTPException) /\
            (fst res = Raise SMTPException ->
               dry_run self = false /\ smtp_up e = false /\
               emitted w (snd res) = [Failed m])).
  { intros m res. subst res. unfold notify.
    destruct (dry_run self) eqn:D, (smtp_up e) eqn:U; cbn [orb fst snd].
    1-3: (split; [intros b _; apply Saved|];
          split; [discriminate|];
          split; [|discriminate];
          intros m'; unfold persisted; rewrite emitted_app;
          unfold outcome; rewrite D, ?U; intros [H|[]]; discriminate).
    split; [discriminate|]. split; [reflexivity|].
    split; [reflexivity|]. intros _.
    split; [reflexivity|]. split; [reflexivity|]. apply emitted_app. }
  assert (Quiet : forall b,
            (forall m, In (Failed m) (emitted w (persisted e name hours w (trace w))) ->
               @Ok bool b = Raise SMTPException)).
  { intros b m. unfold persisted. rewrite emitted_same. intros []. }
  subst r w'. rewrite update_run. unfold due.
  destruct (rows (db w) !! name) as [rw|].
  2:{ cbn [fst snd]. split; [intros _ _; apply Saved|].
      split; [discriminate|]. split; [apply Quiet|discriminate]. }
  destruct (List.find (crossed (row_hours rw) hours) CHECKPOINT_HOURS) as [c|].
  { destruct (Ann (hour_mail float_str self e name hours start c))
      as (A1 & A2 & A3 & A4).
    split; [exact A1|]. split; [exact A2|]. split; [exact A3|].
    intros H. destruct (A4 H) as (? & ? & ?).
    split; [assumption|]. split; [assumption|]. eexists; split; eauto. }
  destruct (Cal.add_days start CHECKPOINT_DAYS) as [cp|ex] eqn:A.
  2:{ (* an OverflowError is not the transport's failure *)
      apply add_days_Raise in A. subst ex.
      cbn [fst snd]. split; [discriminate|]. split; [reflexivity|].
      split; [rewrite emitted_refl; intros m []|discriminate]. }
  destruct (Cal.ltb _ cp && Cal.leb cp (today e)).
  { destruct (Ann (day_mail self e name hours start)) as (A1 & A2 & A3 & A4).
    split; [exact A1|]. split; [exact A2|]. split; [exact A3|].
    intros H. destruct (A4 H) as (? & ? & ?).
    split; [assumption|]. split; [assumption|]. eexists; split; eauto. }
  cbn [fst snd]. split; [intros _ _; apply Saved|].
  split; [discriminate|]. split; [apply Quiet|discriminate].
Qed.

(** ** Text search *)

Module PyFacts.
Import Py.

Lemma startswith_app p r : startswith p (p ++ r) = true.
Proof.
  induction p as [|a p IH]; [reflexivity|].
  cbn. rewrite N.eqb_refl. exact IH.
Qed.

Lemma startswith_spec p s : startswith p s = true <-> exists r, s = p ++ r.
Proof.
  split.
  - revert s. induction p as [|a p IH]; intros s H.
    + exists s. reflexivity.
    + destruct s as [|b s]; [discriminate|]. cbn in H.
      apply andb_true_iff in H as [E H]. apply N.eqb_eq in E. subst b.
      destruct (IH s H) as [r ->]. exists r. reflexivity.
  - intros [r ->]. apply startswith_app.
Qed.

Lemma startswith_extend p q r :
  startswith p q = true -> startswith p (q ++ r) = true.
Proof.
  intros H. apply startswith_spec in H as [t ->].
  rewrite <- app_assoc. apply startswith_app.
Qed.

(** An occurrence cannot run over a code point it does not contain. *)
Lemma startswith_sep p q c r :
  ~ In c p -> startswith p (q ++ c :: r) = true -> startswith p q = true.
Proof.
  revert q. induction p as [|a p IH]; intros q N H; [reflexivity|].
  destruct q as [|b q].
  - cbn in H. apply andb_true_iff in H as [E _]. apply N.eqb_eq in E.
    exfalso. apply N. left. congruence.
  - cbn in H |- *. apply andb_true_iff in H as [E H]. rewrite E. cbn.
    apply IH; [|exact H]. intros I. apply N. right. exact I.
Qed.

Local Ltac zeqb :=
  repeat match goal with
         | |- context [?a =? ?b] => destruct (Z.eqb_spec a b)
         | H : context [?a =? ?b] |- _ => destruct (Z.eqb_spec a b)
         end.

Lemma find_from_lower sub s i :
  0 <= i -> find_from sub s i = -1 \/ i <= find_from sub s i.
Proof.
  revert i. induction s as [|c s IH]; intros i Hi; cbn [find_from].
  - destruct (startswith sub []); lia.
  - destruct (startswith sub (c :: s)); [lia|].
    destruct (IH (i + 1) ltac:(lia)); lia.
Qed.

Lemma find_from_shift sub s i :
  find_from sub s i
  = if find_from sub s 0 =? -1 then -1 else i + find_from sub s 0.
Proof.
  revert i. induction s as [|c s IH]; intros i; cbn [find_from].
  - destruct (startswith sub []); zeqb; lia.
  - destruct (startswith sub (c :: s)); [zeqb; lia|].
    rewrite (IH (i + 1)), (IH (0 + 1)).
    pose proof (find_from_lower sub s 0 ltac:(lia)).
    zeqb; lia.
Qed.

Lemma find_from_range sub s :
  find_from sub s 0 = -1 \/ 0 <= find_from sub s 0 <= Z.of_nat (length s).
Proof.
  induction s as [|c s IH]; cbn [find_from].
  - destruct (startswith sub []); cbn; lia.
  - destruct (startswith sub (c :: s)); [cbn [length]; lia|].
    rewrite find_from_shift. cbn [length]. zeqb; lia.
Qed.

(** What [find] returns: the first offset at which the text starts with
    the searched text. *)
Lemma find_found s sub (k : nat) :
  find s sub = Z.of_nat k <->
  startswith sub (drop k s) = true /\
  forall j, (j < k)%nat -> startswith sub (drop j s) = false.
Proof.
  unfold find. revert k. induction s as [|c s IH]; intros k; cbn [find_from].
  - destruct (startswith sub []) eqn:St.
    + split.
      * intros H. assert (k = 0%nat) by lia. subst k.
        split; [exact St|intros j Hj; lia].
      * intros [_ H]. destruct k; [reflexivity|].
        specialize (H 0%nat ltac:(lia)). cbn in H. congruence.
    + split; [lia|]. intros [H _]. rewrite drop_nil in H. congruence.
  - destruct (startswith sub (c :: s)) eqn:St.
    + split.
      * intros H. assert (k = 0%nat) by lia. subst k.
        split; [exact St|intros j Hj; lia].
      * intros [_ H]. destruct k; [reflexivity|].
        specialize (H 0%nat ltac:(lia)). cbn in H. congruence.
    + rewrite find_from_shift.
      destruct (find_from_range sub s) as [R|R].
      * rewrite R. change (-1 =? -1) with true. cbv iota.
        split; [lia|]. intros [H1 H2].
        destruct k; [cbn in H1; congruence|].
        cbn in H1. exfalso.
        assert (F : find_from sub s 0 = Z.of_nat k).
        { apply IH. split; [exact H1|]. intros j Hj.
          apply (H2 (S j)). lia. }
        lia.
      * destruct (find_from sub s 0 =? -1) eqn:E; [apply Z.eqb_eq in E; lia|].
        split.
        -- intros H. destruct k; [lia|].
           assert (F : find_from sub s 0 = Z.of_nat k) by lia.
           apply IH in F as [F1 F2]. split; [exact F1|].
           intros [|j] Hj; [exact St|]. apply F2. lia.
        -- intros [H1 H2]. destruct k; [cbn in H1; congruence|].
           cbn in H1.
           assert (F : find_from sub s 0 = Z.of_nat k).
           { apply IH. split; [exact H1|]. intros j Hj.
             apply (H2 (S j)). lia. }
           lia.
Qed.

Lemma find_absent s sub :
  find s sub = -1 <-> forall j, startswith sub (drop j s) = false.
Proof.
  unfold find. induction s as [|c s IH]; cbn [find_from].
  - destruct (startswith sub []) eqn:St.
    + split; [lia|]. intros H. specialize (H 0%nat). cbn in H. congruence.
    + split; [|reflexivity]. intros _ j. rewrite drop_nil. exact St.
  - destruct (startswith sub (c :: s)) eqn:St.
    + split; [lia|]. intros H. specialize (H 0%nat). cbn in H. congruence.
    + rewrite find_from_shift.
      destruct (find_from_range sub s) as [R|R].
      * rewrite R. change (-1 =? -1) with true. cbv iota.
        split; [|reflexivity]. intros _ [|j]; [exact St|].
        cbn. apply IH. exact R.
      * destruct (find_from sub s 0 =? -1) eqn:E; [apply Z.eqb_eq in E; lia|].
        split; [lia|]. intros H. exfalso.
        assert (F : find_from sub s 0 = -1).
        { apply IH. intros j. apply (H (S j)). }
        lia.
Qed.

Lemma find_range s sub :
  find s sub = -1 \/ 0 <= find s sub <= Z.of_nat (length s).
Proof. apply find_from_range. Qed.

(** The text before the first occurrence holds no occurrence. *)
Lemma take_find_clean s sub (k : nat) :
  sub <> [] -> find s sub = Z.of_nat k ->
  forall j, startswith sub (drop j (take k s)) = false.
Proof.
  intros NE F j.
  assert (Hk : (k <= length s)%nat).
  { destruct (find_range s sub); lia. }
  apply find_found in F as [_ F].
  destruct (le_lt_dec k j) as [L|L].
  - rewrite drop_ge by (rewrite length_take; lia).
    destruct sub; [congruence|reflexivity].
  - destruct (startswith sub (drop j (take k s))) eqn:St; [|reflexivity].
    rewrite <- (F j L). symmetry.
    replace (drop j s) with (drop j (take k s) ++ drop k s).
    + apply startswith_extend. exact St.
    + rewrite <- (take_drop k s) at 3.
      rewrite drop_app_le by (rewrite length_take; lia). reflexivity.
Qed.

(** The first occurrence in [a ++ c :: b], when [a] holds none and the
    separator [c] is foreign to the searched text. *)
Lemma find_after_clean a c b sub (k : nat) :
  sub <> [] -> ~ In c sub ->
  (forall j, startswith sub (drop j a) = false) ->
  find b sub = Z.of_nat k ->
  find (a ++ c :: b) sub = Z.of_nat (length a + 1 + k).
Proof.
  intros NE NC Clean F. apply find_found in F as [F1 F2].
  apply find_found. split.
  - rewrite drop_app_ge by lia.
    replace (length a + 1 + k - length a)%nat with (S k) by lia.
    cbn [drop]. exact F1.
  - intros j Hj.
    destruct (le_lt_dec j (length a)) as [L|L].
    + rewrite drop_app_le by lia.
      destruct (startswith sub (drop j a ++ c :: b)) eqn:St; [|reflexivity].
      apply startswith_sep in St; [|exact NC].
      rewrite Clean in St. discriminate.
    + rewrite drop_app_ge by lia.
      destruct (j - length a)%nat as [|i] eqn:E; [lia|].
      cbn [drop]. apply F2. lia.
Qed.

End PyFacts.

(** ** Number formatting and [textwrap.dedent] *)

Module FormatFacts.

Lemma string_of_uint_digits d :
  forallb Num.is_digit (Py.lit (NilEmpty.string_of_uint d)) = true.
Proof. induction d; cbn [NilEmpty.string_of_uint Py.lit forallb]; auto. Qed.

Lemma str_int_chars n : forallb num_char (Py.str_int n) = true.
Proof.
  assert (D : forall d, forallb num_char (Py.lit (NilEmpty.string_of_uint d)) = true).
  { intros d. pose proof (string_of_uint_digits d) as H.
    rewrite forallb_forall in *. intros c Hc. unfold num_char.
    rewrite (H c Hc). reflexivity. }
  assert (Z0 : forall d, forallb num_char (Py.lit (NilZero.string_of_uint d)) = true).
  { intros d. destruct d; try exact (D _). reflexivity. }
  unfold Py.str_int, NilZero.string_of_int.
  destruct (Z.to_int n) as [d|d].
  - apply Z0.
  - cbn [Py.lit forallb]. rewrite Z0. reflexivity.
Qed.

Lemma forallb_replicate {A} (f : A -> bool) n x :
  f x = true -> forallb f (replicate n x) = true.
Proof. intros H. induction n; cbn; [reflexivity|]. rewrite H. exact IHn. Qed.

Lemma format_f_chars prec x : forallb num_char (Num.format_f prec x) = true.
Proof.
  unfold Num.format_f. cbv zeta.
  rewrite !forallb_app. apply andb_true_iff. split.
  - destruct (Qlt_le_dec x 0); reflexivity.
  - apply andb_true_iff. split; [apply str_int_chars|].
    destruct prec; [reflexivity|].
    rewrite forallb_app. apply andb_true_iff. split; [reflexivity|].
    unfold Num.zero_pad. rewrite forallb_app. apply andb_true_iff.
    split; [apply forallb_replicate; reflexivity|apply str_int_chars].
Qed.

Lemma num_char_one_line s : forallb num_char s = true -> one_line s.
Proof.
  unfold one_line. rewrite !forallb_forall. intros H c Hc.
  specialize (H c Hc). unfold num_char, Num.is_digit, Num.is_dot in H.
  destruct (N.eqb_spec c 10) as [->|]; [discriminate|reflexivity].
Qed.

Lemma one_line_app a b : one_line (a ++ b) <-> one_line a /\ one_line b.
Proof. unfold one_line. rewrite forallb_app, andb_true_iff. reflexivity. Qed.

Lemma format_f_one_line prec x : one_line (Num.format_f prec x).
Proof. apply num_char_one_line, format_f_chars. Qed.

Lemma format_percent_one_line prec x : one_line (Num.format_percent prec x).
Proof.
  unfold Num.format_percent. apply one_line_app.
  split; [apply format_f_one_line|reflexivity].
Qed.

Import Textwrap.

Lemma split_lines_cons_line a b :
  one_line a -> split_lines (a ++ 10%N :: b) = a :: split_lines b.
Proof.
  unfold one_line. induction a as [|c a IH]; intros H.
  - reflexivity.
  - cbn in H. apply andb_true_iff in H as [H1 H2].
    cbn [app split_lines].
    destruct (c =? 10)%N; [discriminate|].
    rewrite (IH H2). reflexivity.
Qed.

Lemma split_lines_last_line a : one_line a -> split_lines a = [a].
Proof.
  unfold one_line. induction a as [|c a IH]; intros H.
  - reflexivity.
  - cbn in H. apply andb_true_iff in H as [H1 H2].
    cbn [split_lines].
    destruct (c =? 10)%N; [discriminate|].
    rewrite (IH H2). reflexivity.
Qed.

Lemma indented_not_blank r :
  forallb is_blank (indent12 ++ 60%N :: r) = false.
Proof. reflexivity. Qed.

Lemma indented_leading r : leading_blanks (indent12 ++ 60%N :: r) = indent12.
Proof. reflexivity. Qed.

Lemma indented_startswith r : Py.startswith indent12 (indent12 ++ r) = true.
Proof. reflexivity. Qed.

Lemma indented_drop r : drop (length indent12) (indent12 ++ r) = r.
Proof. reflexivity. Qed.

Lemma indent12_cons {A} (a b : A) :
  match indent12 with [] => a | _ :: _ => b end = b.
Proof. reflexivity. Qed.

(** [dedent] on the template: for a space name of one line, the indent
    of twelve spaces goes and the closing line of spaces is emptied. *)
Lemma dedent_report_template space_name percent hours_spent budget :
  one_line space_name ->
  dedent (report_template space_name percent hours_spent budget)
  = report_head space_name percent hours_spent budget.
Proof.
  intros N.
  set (l2 := py "h2>Project " ++ space_name ++ py " is "
             ++ Num.format_percent 1 percent ++ py " complete</h2>").
  set (l3 := py "p>" ++ Num.format_f 2 hours_spent ++ py " out of "
             ++ Num.format_f 0 budget ++ py " hours used.</p>").
  assert (T : report_template space_name percent hours_spent budget
              = [] ++ 10%N ::
                (indent12 ++ 60%N :: py "hr />") ++ 10%N ::
                (indent12 ++ 60%N :: l2) ++ 10%N ::
                (indent12 ++ 60%N :: l3) ++ 10%N :: py "        ").
  { subst l2 l3. unfold report_template, NL, marker, indent12.
    cbn [Py.lit]. repeat (progress (cbn [app]; rewrite <- ?app_assoc)).
    reflexivity. }
  assert (O2 : one_line (indent12 ++ 60%N :: l2)).
  { subst l2. apply one_line_app. split; [reflexivity|].
    change (60%N :: ?x) with ([60%N] ++ x).
    apply one_line_app; split; [reflexivity|].
    apply one_line_app; split; [reflexivity|].
    apply one_line_app; split; [exact N|].
    apply one_line_app; split; [reflexivity|].
    apply one_line_app; split; [apply format_percent_one_line|reflexivity]. }
  assert (O3 : one_line (indent12 ++ 60%N :: l3)).
  { subst l3. apply one_line_app. split; [reflexivity|].
    change (60%N :: ?x) with ([60%N] ++ x).
    apply one_line_app; split; [reflexivity|].
    apply one_line_app; split; [reflexivity|].
    apply one_line_app; split; [apply format_f_one_line|].
    apply one_line_app; split; [reflexivity|].
    apply one_line_app; split; [apply format_f_one_line|reflexivity]. }
  rewrite T. unfold dedent.
  rewrite split_lines_cons_line by reflexivity.
  rewrite split_lines_cons_line by reflexivity.
  rewrite split_lines_cons_line by exact O2.
  rewrite split_lines_cons_line by exact O3.
  rewrite split_lines_last_line by reflexivity.
  cbn [map].
  rewrite !indented_not_blank.
  change (forallb is_blank []) with true.
  change (forallb is_blank (py "        ")) with true.
  cbv iota. cbn [List.filter].
  rewrite !indented_not_blank.
  change (forallb is_blank []) with true.
  cbn [negb map].
  rewrite !indented_leading.
  change (margin_of [indent12; indent12; indent12]) with indent12.
  rewrite !indent12_cons.
  rewrite !indented_startswith, !indented_drop.
  change (Py.startswith indent12 []) with false. cbv iota.
  subst l2 l3. unfold report_head, join_lines, NL, marker.
  cbn [Py.lit]. repeat (progress (cbn [app]; rewrite <- ?app_assoc)).
  reflexivity.
Qed.

End FormatFacts.

(** ** The report renderer *)

Lemma close_to_spec a b : Num.close_to a b = true <-> (Qabs (a - b) < 1 # 100)%Q.
Proof. unfold Num.close_to. apply ltb_lt. Qed.

Lemma positive_spec b : Num.positive b = true <-> (0 < b)%Q.
Proof. unfold Num.positive. apply ltb_lt. Qed.

Lemma completion_no_division_error hours_spent budget :
  completion hours_spent budget <> Raise ZeroDivisionError.
Proof.
  unfold completion, Num.div.
  destruct (Num.positive budget) eqn:P; [|discriminate].
  apply positive_spec in P.
  destruct (Qeq_bool budget 0) eqn:E; [|discriminate].
  apply Qeq_bool_eq in E. rewrite E in P. exfalso. revert P. apply Qlt_irrefl.
Qed.

Lemma completion_nonpositive hours_spent budget :
  (budget <= 0)%Q -> completion hours_spent budget = Ok 0%Q.
Proof.
  intros H. unfold completion.
  destruct (Num.positive budget) eqn:P; [|reflexivity].
  apply positive_spec in P. exfalso. exact (Qlt_not_le _ _ P H).
Qed.

Lemma float_of_str_error s e : Num.float_of_str s = Raise e -> e = ValueError.
Proof.
  unfold Num.float_of_str. destruct (Num.split_dot s) as [ip rest].
  destruct rest as [|c fp].
  - destruct ip; [congruence|]. destruct (Num.digits_value 0 _); congruence.
  - destruct (ip ++ fp); [congruence|].
    destruct (Num.digits_value 0 _); congruence.
Qed.

Lemma write_report_run space_name text work_units hours_spent budget :
  write_report space_name text work_units hours_spent budget
  = match completion hours_spent budget with
    | Ok percent =>
        Ok (mk_rendered true
              (text ++ NL
               ++ make_report space_name percent hours_spent budget work_units))
    | Raise e => Raise e
    end.
Proof. reflexivity. Qed.

Lemma index_of_found text sub :
  0 <= Py.find text sub -> index_of text sub = Ok (Py.find text sub).
Proof.
  intros H. unfold index_of. apply Z.leb_le in H. rewrite H. reflexivity.
Qed.

(** The two ways out of [update_report_page]: the page is left alone, or
    the report is written after the text that precedes the marker. *)
Lemma update_report_page_cases force space_name text work_units budget :
  let hours_spent := work_hours work_units in
  let written :=
    write_report space_name (before_marker text) work_units hours_spent budget in
  update_report_page force space_name text work_units budget
  = if (0 <=? Py.find text marker) && negb force then
      match Re.search (Py.slice_from text (Py.find text marker)) with
      | Some (g1, g2) =>
          match Num.float_of_str g1, Num.float_of_str g2 with
          | Ok previous_hours_spent, Ok previous_budget =>
              if Num.close_to hours_spent previous_hours_spent
                 && Num.close_to previous_budget budget
              then Ok (mk_rendered false text)
              else written
          | Raise e, _ => Raise e
          | Ok _, Raise e => Raise e
          end
      | None => written
      end
    else written.
Proof.
  intros hours_spent written. subst written hours_spent.
  unfold update_report_page, before_marker.
  destruct (0 <=? Py.find text marker) eqn:F; [|reflexivity].
  apply Z.leb_le in F. rewrite (index_of_found _ _ F). cbn [bind andb].
  destruct force; cbn [negb]; [reflexivity|].
  destruct (Re.search _) as [[g1 g2]|]; [|reflexivity].
  destruct (Num.float_of_str g1); [|reflexivity]. cbn [bind].
  destruct (Num.float_of_str g2); reflexivity.
Qed.

(** C8.  With a budget of zero or less the completion is [0.0] without
    any division, no call of the renderer ends in a division by zero, and
    a report that is written shows ["0.0%"]. *)
Theorem budget_zero_safe
    (force : bool) (space_name text : pystr) (work_units : list work_unit)
    (budget : Q) :
  (budget <= 0)%Q ->
  completion (work_hours work_units) budget = Ok 0%Q /\
  update_report_page force space_name text work_units budget
  <> Raise ZeroDivisionError /\
  (forall r,
     update_report_page force space_name text work_units budget = Ok r ->
     changed r = true ->
     body r = before_marker text ++ NL
              ++ make_report space_name 0 (work_hours work_units) budget
                   work_units) /\
  (forall hours_spent,
     report_template space_name 0 hours_spent budget
     = NL ++ py "            " ++ marker ++ NL
       ++ py "            <h2>Project " ++ space_name
       ++ py " is " ++ py "0.0%" ++ py " complete</h2>" ++ NL
       ++ py "            <p>" ++ Num.format_f 2 hours_spent ++ py " out of "
       ++ Num.format_f 0 budget ++ py " hours used.</p>" ++ NL
       ++ py "        ").
Proof.
  intros H.
  pose proof (completion_nonpositive (work_hours work_units) budget H) as C.
  split; [exact C|].
  assert (W : write_report space_name (before_marker text) work_units
                (work_hours work_units) budget
              = Ok (mk_rendered true
                      (before_marker text ++ NL
                       ++ make_report space_name 0 (work_hours work_units)
                            budget work_units))).
  { rewrite write_report_run, C. reflexivity. }
  rewrite update_report_page_cases. cbv zeta. rewrite W.
  split; [|split].
  - destruct ((0 <=? Py.find text marker) && negb force); [|discriminate].
    destruct (Re.search _) as [[g1 g2]|]; [|discriminate].
    destruct (Num.float_of_str g1) as [x|e1] eqn:E1.
    + destruct (Num.float_of_str g2) as [y|e2] eqn:E2.
      * destruct (_ && _); discriminate.
      * apply float_of_str_error in E2. subst e2. discriminate.
    + apply float_of_str_error in E1. subst e1. discriminate.
  - intros r.
    destruct ((0 <=? Py.find text marker) && negb force);
      [|intros [= <-] _; reflexivity].
    destruct (Re.search _) as [[g1 g2]|]; [|intros [= <-] _; reflexivity].
    destruct (Num.float_of_str g1) as [x|e1]; [|discriminate].
    destruct (Num.float_of_str g2) as [y|e2]; [|discriminate].
    destruct (_ && _); intros [= <-]; [discriminate|reflexivity].
  - intros hours_spent. reflexivity.
Qed.


(** *** What a rewrite keeps of the page *)

Lemma marker_not_nil : marker <> [].
Proof. discriminate. Qed.

Lemma before_marker_clean text j :
  Py.startswith marker (drop j (before_marker text)) = false.
Proof.
  unfold before_marker.
  destruct (PyFacts.find_range text marker) as [R|R].
  - rewrite R. change (0 <=? -1) with false. cbv iota.
    apply PyFacts.find_absent. exact R.
  - destruct (Z.leb_spec 0 (Py.find text marker)) as [_|]; [|lia].
    unfold Py.slice_to.
    apply (PyFacts.take_find_clean text marker _ marker_not_nil).
    rewrite Z2Nat.id by lia. reflexivity.
Qed.

(** The first marker of a page that ends in a fresh report is the
    report's own. *)
Lemma find_written pre tail :
  (forall j, Py.startswith marker (drop j pre) = false) ->
  Py.find (pre ++ NL ++ NL ++ marker ++ tail) marker
  = Z.of_nat (length pre + 2).
Proof.
  intros Clean.
  change (pre ++ NL ++ NL ++ marker ++ tail)
    with (pre ++ 10%N :: (10%N :: marker ++ tail)).
  replace (length pre + 2)%nat with (length pre + 1 + 1)%nat by lia.
  apply PyFacts.find_after_clean.
  - exact marker_not_nil.
  - unfold marker. cbn. intros H.
    repeat (destruct H as [H|H]; [discriminate|]). exact H.
  - exact Clean.
  - apply PyFacts.find_found. split.
    + cbn [drop]. apply PyFacts.startswith_app.
    + intros j Hj. assert (j = 0%nat) by lia. subst j. reflexivity.
Qed.

Lemma before_marker_written pre tail :
  (forall j, Py.startswith marker (drop j pre) = false) ->
  before_marker (pre ++ NL ++ NL ++ marker ++ tail) = pre ++ NL ++ NL.
Proof.
  intros Clean. unfold before_marker.
  rewrite (find_written pre tail Clean).
  destruct (Z.leb_spec 0 (Z.of_nat (length pre + 2))) as [_|]; [|lia].
  unfold Py.slice_to. rewrite Nat2Z.id.
  replace (length pre + 2)%nat with (length (pre ++ NL ++ NL))
    by (rewrite !length_app; cbn; lia).
  rewrite !app_assoc. rewrite <- (app_assoc _ marker tail).
  apply take_app_length.
Qed.

Lemma after_marker_written pre tail :
  (forall j, Py.startswith marker (drop j pre) = false) ->
  Py.slice_from (pre ++ NL ++ NL ++ marker ++ tail)
    (Py.find (pre ++ NL ++ NL ++ marker ++ tail) marker)
  = marker ++ tail.
Proof.
  intros Clean. rewrite (find_written pre tail Clean).
  unfold Py.slice_from. rewrite Nat2Z.id.
  replace (length pre + 2)%nat with (length (pre ++ NL ++ NL))
    by (rewrite !length_app; cbn; lia).
  rewrite !app_assoc. rewrite <- (app_assoc _ marker tail).
  apply drop_app_length.
Qed.

(** C9, amended.  When the renderer reports a change, the new page is
    the text that stood before the first marker (all of the text, when
    it had no marker), a line feed, and the fresh report; the report
    itself opens with a line feed before its marker, so that, for a
    space name of one line, the part of the new page before its first
    marker is the old part followed by two line feeds. *)
Theorem report_keeps_text_before_marker
    (force : bool) (space_name text : pystr) (work_units : list work_unit)
    (budget : Q) (r : rendered) :
  update_report_page force space_name text work_units budget = Ok r ->
  changed r = true ->
  (exists percent,
     completion (work_hours work_units) budget = Ok percent /\
     body r = before_marker text ++ NL
              ++ make_report space_name percent (work_hours work_units)
                   budget work_units) /\
  (one_line space_name ->
   before_marker (body r) = before_marker text ++ NL ++ NL).
Proof.
  intros U C.
  assert (W : exists percent,
     completion (work_hours work_units) budget = Ok percent /\
     body r = before_marker text ++ NL
              ++ make_report space_name percent (work_hours work_units)
                   budget work_units).
  { rewrite update_report_page_cases in U. cbv zeta in U.
    rewrite write_report_run in U.
    assert (K : match completion (work_hours work_units) budget with
                | Ok percent =>
                    Ok (mk_rendered true
                          (before_marker text ++ NL
                           ++ make_report space_name percent
                                (work_hours work_units) budget work_units))
                | Raise e => Raise e
                end = Ok r ->
                exists percent,
                  completion (work_hours work_units) budget = Ok percent /\
                  body r = before_marker text ++ NL
                           ++ make_report space_name percent
                                (work_hours work_units) budget work_units).
    { destruct (completion (work_hours work_units) budget) as [p|];
        [|discriminate].
      intros [= <-]. exists p. split; reflexivity. }
    destruct ((0 <=? Py.find text marker) && negb force); [|exact (K U)].
    destruct (Re.search _) as [[g1 g2]|]; [|exact (K U)].
    destruct (Num.float_of_str g1); [|discriminate].
    destruct (Num.float_of_str g2); [|discriminate].
    destruct (_ && _); [|exact (K U)].
    injection U as <-. discriminate. }
  split; [exact W|].
  intros N. destruct W as (p & _ & ->).
  unfold make_report. rewrite FormatFacts.dedent_report_template by exact N.
  unfold report_head. rewrite <- !app_assoc.
  apply before_marker_written, before_marker_clean.
Qed.

(** A page that is left alone is left alone again. *)
Lemma unchanged_stays_unchanged space_name text work_units budget r :
  update_report_page false space_name text work_units budget = Ok r ->
  changed r = false ->
  update_report_page false space_name (body r) work_units budget = Ok r.
Proof.
  intros U C.
  assert (B : body r = text).
  { rewrite update_report_page_cases in U. cbv zeta in U.
    rewrite write_report_run in U.
    destruct ((0 <=? Py.find text marker) && negb false).
    - destruct (Re.search _) as [[g1 g2]|].
      + destruct (Num.float_of_str g1); [|discriminate].
        destruct (Num.float_of_str g2); [|discriminate].
        destruct (_ && _); [injection U as <-; reflexivity|].
        destruct (completion _ _); [|discriminate].
        injection U as <-. discriminate.
      + destruct (completion _ _); [|discriminate].
        injection U as <-. discriminate.
    - destruct (completion _ _); [|discriminate].
      injection U as <-. discriminate. }
  rewrite B. exact U.
Qed.

(** ** The renderer by cases *)

Lemma completion_value hours_spent budget :
  completion hours_spent budget = Ok (percent_of hours_spent budget).
Proof.
  unfold completion, percent_of, Num.div.
  destruct (Num.positive budget) eqn:P; [|reflexivity].
  apply positive_spec in P.
  destruct (Qeq_bool budget 0) eqn:E; [|reflexivity].
  apply Qeq_bool_eq in E. rewrite E in P. exfalso. revert P. apply Qlt_irrefl.
Qed.

Lemma write_report_value space_name text work_units budget :
  write_report space_name (before_marker text) work_units
    (work_hours work_units) budget
  = Ok (mk_rendered true (fresh_page space_name text work_units budget)).
Proof. rewrite write_report_run, completion_value. reflexivity. Qed.

(** [update_report_page], with what it writes spelled out. *)
Lemma render_cases force space_name text work_units budget :
  update_report_page force space_name text work_units budget
  = let written :=
      Ok (mk_rendered true (fresh_page space_name text work_units budget)) in
    if (0 <=? Py.find text marker) && negb force then
      match figures text with
      | Some (g1, g2) =>
          match Num.float_of_str g1, Num.float_of_str g2 with
          | Ok X, Ok Y =>
              if Num.close_to (work_hours work_units) X
                 && Num.close_to Y budget
              then Ok (mk_rendered false text)
              else written
          | Raise e, _ => Raise e
          | Ok _, Raise e => Raise e
          end
      | None => written
      end
    else written.
Proof.
  rewrite update_report_page_cases. cbv zeta.
  rewrite write_report_value. reflexivity.
Qed.

(** *** The figures that [float] takes *)

Lemma digits_value_Some s acc :
  forallb Num.is_digit s = true -> exists v, Num.digits_value acc s = Some v.
Proof.
  revert acc. induction s as [|c s IH]; intros acc H; [eexists; reflexivity|].
  cbn in H. apply andb_true_iff in H as [H1 H2].
  cbn [Num.digits_value]. rewrite H1. apply IH. exact H2.
Qed.

Lemma digits_value_None s acc :
  forallb Num.is_digit s = false -> Num.digits_value acc s = None.
Proof.
  revert acc. induction s as [|c s IH]; intros acc H; [discriminate|].
  cbn in H. cbn [Num.digits_value].
  destruct (Num.is_digit c); [|reflexivity]. apply IH. exact H.
Qed.

Lemma class_digit_or_dot c :
  Re.in_class c = true -> Num.is_digit c = negb (Num.is_dot c).
Proof.
  unfold Re.in_class, Num.is_digit, Num.is_dot.
  destruct (N.eqb_spec c 46) as [->|N]; [reflexivity|].
  rewrite orb_false_r. intros ->. reflexivity.
Qed.

Lemma class_no_dots_digits s :
  forallb Re.in_class s = true ->
  forallb Num.is_digit s = (dots s =? 0)%nat.
Proof.
  unfold dots. induction s as [|c s IH]; intros H; [reflexivity|].
  cbn in H. apply andb_true_iff in H as [H1 H2].
  cbn [forallb List.filter]. rewrite (class_digit_or_dot c H1).
  destruct (Num.is_dot c); cbn [negb andb length]; [reflexivity|].
  apply IH. exact H2.
Qed.

Lemma split_dot_class s :
  forallb Re.in_class s = true ->
  forallb Num.is_digit (fst (Num.split_dot s)) = true /\
  s = fst (Num.split_dot s) ++ snd (Num.split_dot s) /\
  (snd (Num.split_dot s) = [] \/
   exists fp, snd (Num.split_dot s) = 46%N :: fp).
Proof.
  induction s as [|c s IH]; intros H.
  - cbn. split; [reflexivity|]. split; [reflexivity|]. left. reflexivity.
  - cbn in H. apply andb_true_iff in H as [H1 H2].
    cbn [Num.split_dot]. destruct (Num.is_dot c) eqn:D.
    + cbn [fst snd]. split; [reflexivity|]. split; [reflexivity|].
      right. exists s. unfold Num.is_dot in D. apply N.eqb_eq in D.
      subst c. reflexivity.
    + destruct (IH H2) as (I1 & I2 & I3).
      destruct (Num.split_dot s) as [a b]. cbn [fst snd] in *.
      split; [cbn [forallb]; rewrite (class_digit_or_dot c H1), D; exact I1|].
      split; [cbn [app]; f_equal; exact I2|exact I3].
Qed.

Lemma existsb_digits s :
  forallb Num.is_digit s = true ->
  existsb Num.is_digit s = negb (match s with [] => true | _ => false end).
Proof.
  destruct s as [|c s]; [reflexivity|]. cbn. intros H.
  apply andb_true_iff in H as [-> _]. reflexivity.
Qed.

Lemma dots_app a b : dots (a ++ b) = (dots a + dots b)%nat.
Proof. unfold dots. rewrite List.filter_app, length_app. reflexivity. Qed.

Lemma dots_digits s : forallb Num.is_digit s = true -> dots s = 0%nat.
Proof.
  unfold dots. induction s as [|c s IH]; intros H; [reflexivity|].
  cbn in H. apply andb_true_iff in H as [H1 H2]. cbn [List.filter].
  assert (D : Num.is_dot c = false).
  { unfold Num.is_digit in H1. unfold Num.is_dot.
    destruct (N.eqb_spec c 46) as [->|]; [discriminate|reflexivity]. }
  rewrite D. apply IH. exact H2.
Qed.

(** A run of digits and dots is read as a number exactly when it has a
    digit and at most one dot; otherwise [float] raises a [ValueError]. *)
Lemma float_of_str_class g :
  forallb Re.in_class g = true ->
  if is_number g
  then exists X, Num.float_of_str g = Ok X
  else Num.float_of_str g = Raise ValueError.
Proof.
  intros C. destruct (split_dot_class g C) as (D1 & Sp & Rest).
  unfold Num.float_of_str, is_number.
  destruct (Num.split_dot g) as [ip rest]. cbn [fst snd] in *.
  destruct Rest as [->|[fp ->]].
  - rewrite app_nil_r in Sp. subst g.
    rewrite (existsb_digits _ D1), (dots_digits _ D1). cbn [Nat.leb andb].
    rewrite andb_true_r.
    destruct ip as [|c ip]; [reflexivity|]. cbn [negb].
    destruct (digits_value_Some (c :: ip) 0 D1) as [v ->].
    eexists; reflexivity.
  - assert (Cf : forallb Re.in_class fp = true).
    { rewrite Sp, forallb_app in C. apply andb_true_iff in C as [_ C].
      cbn in C. exact C. }
    pose proof (class_no_dots_digits fp Cf) as Df.
    assert (Dots : dots g = S (dots fp)).
    { rewrite Sp, dots_app, (dots_digits _ D1). reflexivity. }
    assert (Ex : existsb Num.is_digit g
                 = existsb Num.is_digit (ip ++ fp)).
    { rewrite Sp, !existsb_app. cbn [existsb].
      change (Num.is_digit 46%N) with false. reflexivity. }
    rewrite Dots, Ex.
    destruct (dots fp) as [|k] eqn:K.
    + cbn [Nat.leb]. rewrite andb_true_r.
      assert (Dall : forallb Num.is_digit (ip ++ fp) = true).
      { rewrite forallb_app. apply andb_true_iff. split; [exact D1|exact Df]. }
      rewrite (existsb_digits _ Dall).
      destruct (ip ++ fp) as [|c l] eqn:E; [reflexivity|]. cbn [negb].
      destruct (digits_value_Some (c :: l) 0 Dall) as [v ->].
      eexists; reflexivity.
    + change (S (S k) <=? 1)%nat with false. rewrite andb_false_r.
      assert (Dall : forallb Num.is_digit (ip ++ fp) = false).
      { rewrite forallb_app. apply andb_false_iff. right. exact Df. }
      rewrite (digits_value_None _ 0 Dall).
      destruct (ip ++ fp); reflexivity.
Qed.

Lemma span_class_class s : forallb Re.in_class (fst (Re.span_class s)) = true.
Proof.
  induction s as [|c s IH]; [reflexivity|]. cbn [Re.span_class].
  destruct (Re.in_class c) eqn:C; [|reflexivity].
  destruct (Re.span_class s) as [a b]. cbn [fst] in *.
  cbn [forallb]. rewrite C. exact IH.
Qed.

Lemma match_here_class s g1 g2 :
  Re.match_here s = Some (g1, g2) ->
  forallb Re.in_class g1 = true /\ forallb Re.in_class g2 = true.
Proof.
  unfold Re.match_here.
  pose proof (span_class_class s) as C1.
  destruct (Re.span_class s) as [a r1]. cbn [fst] in C1.
  destruct a as [|x a]; [discriminate|].
  destruct (Re.strip_prefix _ r1) as [r2|]; [|discriminate].
  pose proof (span_class_class r2) as C2.
  destruct (Re.span_class r2) as [b r3]. cbn [fst] in C2.
  destruct b as [|y b]; [discriminate|].
  destruct (Py.startswith _ r3); [|discriminate].
  intros [= <- <-]. split; assumption.
Qed.

(** The groups of a match are runs of digits and dots. *)
Lemma search_class s g1 g2 :
  Re.search s = Some (g1, g2) ->
  forallb Re.in_class g1 = true /\ forallb Re.in_class g2 = true.
Proof.
  induction s as [|c s IH]; cbn [Re.search].
  - destruct (Re.match_here []) as [m|] eqn:M; [|discriminate].
    intros [= ->]. exact (match_here_class _ _ _ M).
  - destruct (Re.match_here (c :: s)) as [m|] eqn:M; [|exact IH].
    intros [= ->]. exact (match_here_class _ _ _ M).
Qed.

(** What a rewrite leaves behind. *)
Lemma changed_body force space_name text work_units budget r :
  update_report_page force space_name text work_units budget = Ok r ->
  changed r = true ->
  r = mk_rendered true (fresh_page space_name text work_units budget).
Proof.
  rewrite render_cases. cbv zeta. intros U C.
  destruct ((0 <=? Py.find text marker) && negb force);
    [|injection U as <-; reflexivity].
  destruct (figures text) as [[g1 g2]|]; [|injection U as <-; reflexivity].
  destruct (Num.float_of_str g1); [|discriminate].
  destruct (Num.float_of_str g2); [|discriminate].
  destruct (_ && _); injection U as <-; [discriminate|reflexivity].
Qed.

(** A fresh page: the text that was kept, two line feeds, the marker and
    the lines of the report. *)
Lemma fresh_page_shape space_name text work_units budget :
  one_line space_name ->
  fresh_page space_name text work_units budget
  = before_marker text ++ NL ++ NL ++ marker
    ++ (NL ++ py "<h2>Project " ++ space_name ++ py " is "
        ++ (Num.format_f 1 (percent_of (work_hours work_units) budget * 100)
            ++ py "%")
        ++ py " complete</h2>" ++ NL
        ++ py "<p>" ++ Num.format_f 2 (work_hours work_units) ++ py " out of "
        ++ Num.format_f 0 budget ++ py " hours used"
        ++ (py ".</p>" ++ NL ++ month_table work_units)).
Proof.
  intros Line. unfold fresh_page, make_report.
  rewrite FormatFacts.dedent_report_template by exact Line.
  unfold report_head, Num.format_percent.
  rewrite <- !app_assoc. reflexivity.
Qed.

(** With [force] the guard is not consulted. *)
Lemma render_forced space_name text work_units budget :
  update_report_page true space_name text work_units budget
  = Ok (mk_rendered true (fresh_page space_name text work_units budget)).
Proof.
  rewrite render_cases. cbv zeta. cbn [negb]. rewrite andb_false_r.
  reflexivity.
Qed.

(** The first marker of a fresh page is the one of its report. *)
Lemma before_marker_fresh space_name text work_units budget :
  one_line space_name ->
  before_marker (fresh_page space_name text work_units budget)
  = before_marker text ++ NL ++ NL.
Proof.
  intros Line. rewrite (fresh_page_shape _ _ _ _ Line).
  apply before_marker_written. apply before_marker_clean.
Qed.

(** The only exception of the renderer is the [ValueError] of [float]. *)
Lemma render_raise_ValueError force space_name text work_units budget ex :
  update_report_page force space_name text work_units budget = Raise ex ->
  ex = ValueError.
Proof.
  rewrite render_cases. cbv zeta.
  destruct ((0 <=? Py.find text marker) && negb force); [|discriminate].
  destruct (figures text) as [[g1 g2]|]; [|discriminate].
  destruct (Num.float_of_str g1) eqn:F1.
  - destruct (Num.float_of_str g2) eqn:F2.
    + destruct (_ && _); discriminate.
    + intros [= <-]. exact (float_of_str_error _ _ F2).
  - intros [= <-]. exact (float_of_str_error _ _ F1).
Qed.

(** ** The monthly table *)

Module MonthFacts.






(** *** The sort *)

Local Abbreviation by_date := (fun a b : work_unit => Cal.ltb (date a) (date b)).





(** *** The grouping *)

Local Abbreviation by_month := (groupby year_month_eqb year_month).










(** *** The sums *)





(** *** The text of a number does not depend on how the fraction is
    written *)

Lemma round_half_even_comp x y :
  (x == y)%Q -> Num.round_half_even x = Num.round_half_even y.
Proof.
  intros E. unfold Num.round_half_even. cbv zeta.
  pose proof (Qfloor_comp x y E) as Fl. unfold Qfloor in Fl.
  destruct x as [n d], y as [n' d']. cbn [Qnum Qden] in *.
  unfold Qeq in E. cbn [Qnum Qden] in E.
  rewrite <- Fl.
  rewrite !Z.mod_eq by lia. rewrite <- Fl.
  set (fl := n / Z.pos d).
  assert (C : (2 * (n - Z.pos d * fl) ?= Z.pos d)
              = (2 * (n' - Z.pos d' * fl) ?= Z.pos d')).
  { destruct (Z.compare_spec (2 * (n - Z.pos d * fl)) (Z.pos d));
      symmetry; [apply Z.compare_eq_iff|apply Z.compare_lt_iff
                |apply Z.compare_gt_iff]; nia. }
  rewrite C. reflexivity.
Qed.

Lemma format_f_comp prec x y :
  (x == y)%Q -> Num.format_f prec x = Num.format_f prec y.
Proof.
  intros E. unfold Num.format_f. cbv zeta.
  assert (R : Num.round_half_even (Qabs x * inject_Z (Num.pow10 prec))
              = Num.round_half_even (Qabs y * inject_Z (Num.pow10 prec))).
  { apply round_half_even_comp. rewrite E. reflexivity. }
  rewrite R.
  destruct (Qlt_le_dec x 0) as [Lx|Lx], (Qlt_le_dec y 0) as [Ly|Ly];
    try reflexivity; exfalso; rewrite E in Lx;
    [exact (Qlt_not_le _ _ Lx Ly)|exact (Qlt_not_le _ _ Ly Lx)].
Qed.




End MonthFacts.


(** ** Reading back what the report prints *)

Module RoundTrip.
Import Num.

Lemma digits_value_acc d acc :
  digits_value (Z.pos acc) (Py.lit (NilEmpty.string_of_uint d))
  = Some (Z.pos (Pos.of_uint_acc d acc)).
Proof.
  revert acc.
  induction d; intros acc;
    cbn [NilEmpty.string_of_uint Py.lit digits_value Pos.of_uint_acc];
    try reflexivity;
    match goal with
    | |- context [is_digit ?c] => change (is_digit c) with true; cbv iota
    end;
    rewrite <- IHd; f_equal; cbn; lia.
Qed.

Lemma digits_value_uint d :
  digits_value 0 (Py.lit (NilEmpty.string_of_uint d))
  = Some (Z.of_N (Pos.of_uint d)).
Proof.
  induction d;
    cbn [NilEmpty.string_of_uint Py.lit digits_value Pos.of_uint];
    try reflexivity;
    match goal with
    | |- context [is_digit ?c] => change (is_digit c) with true; cbv iota
    end;
    [exact IHd|..];
    match goal with
    | |- digits_value ?a _ = Some (Z.of_N (N.pos (Pos.of_uint_acc _ ?p))) =>
        change a with (Z.pos p)
    end;
    apply digits_value_acc.
Qed.

Lemma str_int_pos p :
  Py.str_int (Z.pos p) = Py.lit (NilEmpty.string_of_uint (Pos.to_uint p)).
Proof.
  unfold Py.str_int, NilZero.string_of_int, NilZero.string_of_uint.
  cbn [Z.to_int].
  pose proof (DecimalPos.Unsigned.to_uint_nonnil p) as N.
  destruct (Pos.to_uint p); [congruence|reflexivity..].
Qed.

(** The digits of a natural number denote that number. *)
Lemma str_int_value n : 0 <= n -> digits_value 0 (Py.str_int n) = Some n.
Proof.
  intros H. destruct n as [|p|p]; [reflexivity| |lia].
  rewrite str_int_pos, digits_value_uint, DecimalPos.Unsigned.of_to.
  reflexivity.
Qed.

Lemma str_int_digits n :
  0 <= n -> forallb is_digit (Py.str_int n) = true /\ Py.str_int n <> [].
Proof.
  intros H. destruct n as [|p|p]; [split; [reflexivity|discriminate]| |lia].
  rewrite str_int_pos. split; [apply FormatFacts.string_of_uint_digits|].
  pose proof (DecimalPos.Unsigned.to_uint_nonnil p) as N.
  destruct (Pos.to_uint p); [congruence|discriminate..].
Qed.

Lemma digits_value_app s1 s2 acc v :
  digits_value acc s1 = Some v ->
  digits_value acc (s1 ++ s2) = digits_value v s2.
Proof.
  revert acc. induction s1 as [|c s1 IH]; intros acc H.
  - cbn in H. injection H as <-. reflexivity.
  - cbn [app digits_value] in *. destruct (is_digit c); [|discriminate].
    apply IH. exact H.
Qed.

Lemma two_digits_table : forallb two_digits_ok (seq 0 100) = true.
Proof. vm_compute. reflexivity. Qed.

(** The two decimals of the report. *)
Lemma two_digits fp :
  0 <= fp < 100 ->
  forallb is_digit (zero_pad 2 (Py.str_int fp)) = true /\
  length (zero_pad 2 (Py.str_int fp)) = 2%nat /\
  forall acc,
    digits_value acc (zero_pad 2 (Py.str_int fp)) = Some (100 * acc + fp).
Proof.
  intros H.
  assert (E : fp = Z.of_nat (Z.to_nat fp)) by lia.
  assert (K : (Z.to_nat fp < 100)%nat) by lia.
  revert E K. generalize (Z.to_nat fp) as k. intros k -> K. clear H.
  pose proof two_digits_table as T.
  rewrite forallb_forall in T. specialize (T k).
  assert (I : In k (seq 0 100)) by (apply in_seq; lia).
  apply T in I. unfold two_digits_ok in I.
  destruct (zero_pad 2 (Py.str_int (Z.of_nat k)))
    as [|a [|b [|c l]]]; try discriminate.
  rewrite !andb_true_iff in I. destruct I as [[A B] C].
  apply Z.eqb_eq in C.
  split; [cbn; rewrite A, B; reflexivity|].
  split; [reflexivity|].
  intros acc. cbn [digits_value]. rewrite A, B.
  f_equal. lia.
Qed.

Lemma split_dot_digits s t :
  forallb is_digit s = true -> split_dot (s ++ 46%N :: t) = (s, 46%N :: t).
Proof.
  induction s as [|c s IH]; intros H; [reflexivity|].
  cbn in H. apply andb_true_iff in H as [H1 H2].
  cbn [app split_dot].
  assert (D : is_dot c = false).
  { unfold is_digit in H1. unfold is_dot.
    destruct (N.eqb_spec c 46) as [->|]; [discriminate|reflexivity]. }
  rewrite D, (IH H2). reflexivity.
Qed.

Lemma split_dot_no_dot s :
  forallb is_digit s = true -> split_dot s = (s, []).
Proof.
  induction s as [|c s IH]; intros H; [reflexivity|].
  cbn in H. apply andb_true_iff in H as [H1 H2].
  cbn [split_dot].
  assert (D : is_dot c = false).
  { unfold is_digit in H1. unfold is_dot.
    destruct (N.eqb_spec c 46) as [->|]; [discriminate|reflexivity]. }
  rewrite D, (IH H2). reflexivity.
Qed.

Lemma round_half_even_nonneg q : (0 <= q)%Q -> 0 <= round_half_even q.
Proof.
  intros H. unfold round_half_even. cbv zeta.
  destruct q as [n d]. unfold Qle in H. cbn [Qnum Qden] in *.
  assert (0 <= n) by lia.
  assert (0 <= n / Z.pos d) by (apply Z.div_pos; lia).
  destruct (2 * (n mod Z.pos d) ?= Z.pos d); [destruct (Z.even _)|..]; lia.
Qed.

(** Rounding moves a number by half a unit at most. *)
Lemma round_half_even_close q :
  (Qabs (inject_Z (round_half_even q) - q) <= 1 # 2)%Q.
Proof.
  unfold round_half_even. cbv zeta. destruct q as [n d].
  cbn [Qnum Qden].
  pose proof (Z.div_mod n (Z.pos d) ltac:(lia)) as DM.
  pose proof (Z.mod_pos_bound n (Z.pos d) ltac:(lia)) as MB.
  set (fl := n / Z.pos d) in *. set (r := n mod Z.pos d) in *.
  apply Qabs_Qle_condition.
  assert (K : forall k,
            - Z.pos d <= 2 * (k * Z.pos d - n) <= Z.pos d ->
            (- (1 # 2) <= inject_Z k - (n # d))%Q /\
            (inject_Z k - (n # d) <= 1 # 2)%Q).
  { intros k Hk. unfold Qle, Qminus, Qplus, Qopp, inject_Z.
    cbn [Qnum Qden]. split; nia. }
  apply K.
  destruct (Z.compare_spec (2 * r) (Z.pos d)); [destruct (Z.even fl)|..]; nia.
Qed.

Lemma pow10_pos k : 0 < pow10 k.
Proof. unfold pow10. apply Z.pow_pos_nonneg; lia. Qed.

(** What is printed for a non-negative number. *)
Lemma format_f_nonneg prec x :
  (0 <= x)%Q ->
  let scaled := round_half_even (Qabs x * inject_Z (pow10 prec))%Q in
  0 <= scaled /\
  format_f prec x
  = Py.str_int (scaled / pow10 prec)
    ++ match prec with
       | O => []
       | S _ => py "." ++ zero_pad prec (Py.str_int (scaled mod pow10 prec))
       end.
Proof.
  intros H scaled. split.
  - apply round_half_even_nonneg. apply Qmult_le_0_compat.
    + apply Qabs_nonneg.
    + unfold Qle, inject_Z. cbn. pose proof (pow10_pos prec). lia.
  - unfold format_f. cbv zeta. fold scaled.
    destruct (Qlt_le_dec x 0) as [L|L]; [|reflexivity].
    exfalso. exact (Qlt_not_le _ _ L H).
Qed.

(** The hours of the report, read back, are within the tolerance. *)
Lemma hours_read_back h :
  (0 <= h)%Q ->
  exists X, float_of_str (format_f 2 h) = Ok X /\ close_to h X = true /\
            forallb Re.in_class (format_f 2 h) = true /\ format_f 2 h <> [].
Proof.
  intros H.
  destruct (format_f_nonneg 2 h H) as [S0 F]. cbv zeta in S0, F.
  set (scaled := round_half_even (Qabs h * inject_Z (pow10 2))%Q) in *.
  change (pow10 2) with 100 in F.
  assert (I0 : 0 <= scaled / 100) by (apply Z.div_pos; lia).
  assert (F0 : 0 <= scaled mod 100 < 100) by (apply Z.mod_pos_bound; lia).
  destruct (str_int_digits _ I0) as [D1 N1].
  destruct (two_digits _ F0) as (D2 & L2 & V2).
  exists (scaled # 100). rewrite F.
  split; [|split; [|split]].
  - unfold float_of_str. change (py ".") with [46%N]. cbn [app].
    rewrite (split_dot_digits _ _ D1).
    rewrite (digits_value_app _ _ 0 (scaled / 100) (str_int_value _ I0)).
    rewrite V2, L2.
    destruct (Py.str_int (scaled / 100)
              ++ zero_pad 2 (Py.str_int (scaled mod 100))) eqn:E.
    + apply app_eq_nil in E as [E _]. congruence.
    + f_equal. change (Z.to_pos (pow10 2)) with 100%positive.
      f_equal. pose proof (Z.div_mod scaled 100 ltac:(lia)). lia.
  - apply close_to_spec.
    pose proof (round_half_even_close (Qabs h * inject_Z (pow10 2))%Q) as C.
    fold scaled in C. rewrite (Qabs_pos h H) in C.
    change (pow10 2) with 100 in C.
    apply Qabs_Qle_condition in C as [C1 C2].
    apply Qabs_Qlt_condition.
    revert C1 C2. unfold Qle, Qlt, Qminus, Qplus, Qopp, Qmult, inject_Z.
    destruct h as [n d]. cbn [Qnum Qden]. intros C1 C2. split; nia.
  - assert (Cl : forall s, forallb is_digit s = true ->
                           forallb Re.in_class s = true).
    { intros s Hs. rewrite forallb_forall in *. intros c Hc.
      unfold Re.in_class. rewrite (Hs c Hc). reflexivity. }
    rewrite forallb_app. apply andb_true_iff. split; [exact (Cl _ D1)|].
    rewrite forallb_app. apply andb_true_iff. split; [reflexivity|].
    exact (Cl _ D2).
  - intros E. apply app_eq_nil in E as [E _]. congruence.
Qed.

(** A whole budget is printed exactly and read back exactly. *)
Lemma budget_read_back budget n :
  0 <= n -> (budget == inject_Z n)%Q ->
  format_f 0 budget = Py.str_int n /\
  float_of_str (Py.str_int n) = Ok (inject_Z n) /\
  close_to (inject_Z n) budget = true /\
  forallb Re.in_class (Py.str_int n) = true /\ Py.str_int n <> [].
Proof.
  intros H E.
  destruct (str_int_digits _ H) as [D1 N1].
  split; [|split; [|split; [|split]]].
  - rewrite (MonthFacts.format_f_comp 0 _ _ E).
    assert (P : (0 <= inject_Z n)%Q) by (unfold Qle, inject_Z; cbn; lia).
    destruct (format_f_nonneg 0 (inject_Z n) P) as [_ F]. cbv zeta in F.
    rewrite F, app_nil_r. f_equal.
    assert (R : round_half_even (Qabs (inject_Z n) * inject_Z (pow10 0))%Q
                = n).
    { rewrite (MonthFacts.round_half_even_comp _ (inject_Z n)).
      - unfold round_half_even, inject_Z. cbn [Qnum Qden].
        rewrite Z.mod_1_r, Z.div_1_r. reflexivity.
      - rewrite (Qabs_pos _ P). change (inject_Z (pow10 0)) with 1%Q. ring. }
    rewrite R. change (pow10 0) with 1. apply Z.div_1_r.
  - unfold float_of_str. rewrite (split_dot_no_dot _ D1).
    pose proof (str_int_value _ H) as V.
    destruct (Py.str_int n) as [|c s]; [congruence|].
    rewrite V. reflexivity.
  - apply close_to_spec. rewrite E.
    assert (Z0 : (inject_Z n - inject_Z n == 0)%Q) by ring.
    rewrite Z0. reflexivity.
  - rewrite forallb_forall in *. intros c Hc.
    unfold Re.in_class. rewrite (D1 c Hc). reflexivity.
  - exact N1.
Qed.

End RoundTrip.

(** ** Finding the figures of a fresh report *)

Module SearchFacts.
Import Re.

Lemma search_found s m : match_here s = Some m -> search s = Some m.
Proof. intros H. destruct s; cbn [search]; rewrite H; reflexivity. Qed.

Lemma search_skip c s : match_here (c :: s) = None -> search (c :: s) = search s.
Proof. intros H. cbn [search]. rewrite H. reflexivity. Qed.

Lemma match_here_not_class c s : in_class c = false -> match_here (c :: s) = None.
Proof. intros H. unfold match_here. cbn [span_class]. rewrite H. reflexivity. Qed.

(** A stretch of text in which no match starts is passed over. *)
Lemma search_skip_region a b :
  (forall j, (j < length a)%nat -> match_here (drop j (a ++ b)) = None) ->
  search (a ++ b) = search b.
Proof.
  induction a as [|c a IH]; intros H; [reflexivity|].
  cbn [app]. rewrite search_skip.
  - apply IH. intros j Hj. apply (H (S j)). cbn [length]. lia.
  - apply (H 0%nat). cbn [length]. lia.
Qed.

Lemma span_class_run g r :
  forallb in_class g = true ->
  match r with [] => True | c :: _ => in_class c = false end ->
  span_class (g ++ r) = (g, r).
Proof.
  intros G R. induction g as [|c g IH].
  - destruct r as [|c r]; [reflexivity|]. cbn [app span_class].
    rewrite R. reflexivity.
  - cbn in G. apply andb_true_iff in G as [G1 G2].
    cbn [app span_class]. rewrite G1, (IH G2). reflexivity.
Qed.

Lemma span_class_split s :
  s = fst (span_class s) ++ snd (span_class s).
Proof.
  induction s as [|c s IH]; [reflexivity|]. cbn [span_class].
  destruct (in_class c); [|reflexivity].
  destruct (span_class s) as [g r]. cbn [fst snd] in *.
  rewrite IH at 1. reflexivity.
Qed.

Lemma span_class_sep s c t :
  in_class c = false ->
  span_class (s ++ c :: t)
  = (fst (span_class s), snd (span_class s) ++ c :: t).
Proof.
  intros C. induction s as [|x s IH].
  - cbn [app span_class fst snd]. rewrite C. reflexivity.
  - cbn [app span_class]. destruct (in_class x); [|reflexivity].
    rewrite IH. destruct (span_class s) as [g r]. reflexivity.
Qed.

Lemma strip_prefix_app p r : strip_prefix p (p ++ r) = Some r.
Proof.
  unfold strip_prefix. rewrite PyFacts.startswith_app.
  rewrite drop_app_length. reflexivity.
Qed.

(** The match on the line of the figures. *)
Lemma match_here_figures hrs bud rest :
  forallb in_class hrs = true -> hrs <> [] ->
  forallb in_class bud = true -> bud <> [] ->
  match_here (hrs ++ py " out of " ++ bud ++ py " hours used" ++ rest)
  = Some (hrs, bud).
Proof.
  intros H1 N1 H2 N2. unfold match_here.
  rewrite (span_class_run hrs _ H1) by reflexivity.
  destruct hrs as [|h hrs]; [congruence|].
  rewrite strip_prefix_app.
  rewrite (span_class_run bud _ H2) by reflexivity.
  destruct bud as [|b bud]; [congruence|].
  rewrite PyFacts.startswith_app. reflexivity.
Qed.

(** No match starts inside a printed percentage. *)
Lemma match_here_percent f t :
  forallb num_char f = true -> match_here (f ++ 37%N :: t) = None.
Proof.
  intros F.
  assert (S : exists g c r, span_class (f ++ 37%N :: t) = (g, c :: r)
                            /\ c <> 32%N).
  { induction f as [|x f IH].
    - exists [], 37%N, t. split; [reflexivity|discriminate].
    - cbn in F. apply andb_true_iff in F as [F1 F2].
      destruct (IH F2) as (g & c & r & E & N).
      cbn [app span_class]. destruct (in_class x) eqn:X.
      + rewrite E. exists (x :: g), c, r. split; [reflexivity|exact N].
      + exists [], x, (f ++ 37%N :: t). split; [reflexivity|].
        intros ->. unfold num_char in F1. discriminate. }
  destruct S as (g & c & r & E & N).
  unfold match_here. rewrite E. destruct g; [reflexivity|].
  unfold strip_prefix. cbn [Py.lit Py.startswith].
  change (N_of_ascii " ") with 32%N.
  destruct (N.eqb_spec 32 c) as [e|]; [|reflexivity].
  symmetry in e. contradiction.
Qed.

Lemma forallb_drop {A} (f : A -> bool) j l :
  forallb f l = true -> forallb f (drop j l) = true.
Proof.
  rewrite !forallb_forall. intros H x Hx. apply H.
  apply list_elem_of_In. apply list_elem_of_In in Hx.
  apply (subseteq_drop j l). exact Hx.
Qed.

Lemma search_skip_percent f t :
  forallb num_char f = true -> search (f ++ 37%N :: t) = search t.
Proof.
  intros F. rewrite search_skip_region.
  - apply search_skip. apply match_here_not_class. reflexivity.
  - intros j Hj. rewrite drop_app_le by lia.
    apply match_here_percent. apply forallb_drop. exact F.
Qed.

(** Where the words of the pattern would have to stand. *)
Lemma out_of_inside r t :
  Py.startswith (py " out of ") (r ++ py " is " ++ t) = true ->
  Py.startswith (py "out of") (drop 1 r) = true.
Proof.
  cbn [Py.lit]. intros H.
  destruct r as [|c1 [|c2 [|c3 [|c4 [|c5 [|c6 [|c7 r]]]]]]];
    cbn [app Py.startswith drop] in H |- *;
    repeat match type of H with
           | (_ && _) = true => apply andb_true_iff in H as [? H]
           end;
    try (vm_compute in H; discriminate);
    repeat match goal with
           | E : (_ =? _)%N = true |- _ =>
               first [ vm_compute in E; discriminate
                     | rewrite E; clear E ]
           end;
    reflexivity.
Qed.

(** No match starts inside a space name that does not hold the words
    "out of". *)
Lemma match_here_name s t :
  (forall j, Py.startswith (py "out of") (drop j s) = false) ->
  match_here (s ++ py " is " ++ t) = None.
Proof.
  intros Clean. unfold match_here.
  change (py " is " ++ t) with (32%N :: py "is " ++ t).
  rewrite span_class_sep by reflexivity.
  pose proof (span_class_split s) as Sp.
  destruct (span_class s) as [g r]. cbn [fst snd] in *.
  destruct g as [|x g]; [reflexivity|].
  unfold strip_prefix.
  match goal with
  | |- context [Py.startswith ?p (r ++ ?u)] =>
      destruct (Py.startswith p (r ++ u)) eqn:St; [|reflexivity]
  end.
  exfalso. apply out_of_inside in St.
  specialize (Clean (length (x :: g) + 1)%nat).
  rewrite Sp in Clean. rewrite <- drop_drop in Clean.
  rewrite drop_app_length in Clean. congruence.
Qed.

Lemma search_skip_name s t :
  (forall j, Py.startswith (py "out of") (drop j s) = false) ->
  search (s ++ py " is " ++ t) = search (py " is " ++ t).
Proof.
  intros Clean. apply search_skip_region. intros j Hj.
  rewrite drop_app_le by lia. apply match_here_name.
  intros k. rewrite drop_drop. apply Clean.
Qed.

(** The figures of a fresh report are the first match after its
    marker. *)
Lemma search_report space_name f hrs bud rest :
  (forall j, Py.startswith (py "out of") (drop j space_name) = false) ->
  forallb num_char f = true ->
  forallb in_class hrs = true -> hrs <> [] ->
  forallb in_class bud = true -> bud <> [] ->
  search (marker ++ NL ++ py "<h2>Project " ++ space_name ++ py " is "
          ++ (f ++ py "%") ++ py " complete</h2>" ++ NL
          ++ py "<p>" ++ hrs ++ py " out of " ++ bud
          ++ py " hours used" ++ rest)
  = Some (hrs, bud).
Proof.
  intros Clean F H1 N1 H2 N2.
  rewrite !app_assoc. rewrite <- (app_assoc _ space_name).
  rewrite <- !app_assoc.
  change (marker ++ NL ++ py "<h2>Project " ++ ?x)
    with ((marker ++ NL ++ py "<h2>Project ") ++ x).
  rewrite search_skip_region.
  2:{ intros j Hj.
      do 19 (destruct j as [|j]; [reflexivity|]). cbn in Hj. lia. }
  rewrite search_skip_name by exact Clean.
  change (py " is " ++ ?x) with (py " is " ++ x).
  rewrite search_skip_region.
  2:{ intros j Hj.
      do 4 (destruct j as [|j]; [reflexivity|]). cbn in Hj. lia. }
  change (py "%" ++ ?x) with (37%N :: x).
  rewrite search_skip_percent by exact F.
  change (py " complete</h2>" ++ NL ++ py "<p>" ++ ?x)
    with ((py " complete</h2>" ++ NL ++ py "<p>") ++ x).
  rewrite search_skip_region.
  2:{ intros j Hj.
      do 18 (destruct j as [|j]; [reflexivity|]). cbn in Hj. lia. }
  apply search_found, match_here_figures; assumption.
Qed.

End SearchFacts.

(** ** When rendering twice changes nothing *)

(** What is printed for a budget that is not negative: the nearest whole
    number. *)
Lemma format_f_budget budget :
  (0 <= budget)%Q ->
  0 <= Num.round_half_even budget /\
  Num.format_f 0 budget = Py.str_int (Num.round_half_even budget).
Proof.
  intros H.
  destruct (RoundTrip.format_f_nonneg 0 budget H) as [S0 F]. cbv zeta in S0, F.
  assert (R : Num.round_half_even (Qabs budget * inject_Z (Num.pow10 0))%Q
              = Num.round_half_even budget).
  { apply MonthFacts.round_half_even_comp. rewrite (Qabs_pos _ H).
    change (inject_Z (Num.pow10 0)) with 1%Q. ring. }
  rewrite R in S0, F. split; [exact S0|].
  rewrite F, app_nil_r. change (Num.pow10 0) with 1.
  rewrite Z.div_1_r. reflexivity.
Qed.

(** Rendering a fresh page again: the hours that were printed are always
    accepted; the page is left alone exactly when the budget that was
    printed, a whole number, is within the tolerance of the budget. *)
Lemma rerender_fresh space_name text work_units budget :
  one_line space_name ->
  Py.find space_name (py "out of") = -1 ->
  (0 <= work_hours work_units)%Q ->
  (0 <= budget)%Q ->
  let page := fresh_page space_name text work_units budget in
  update_report_page false space_name page work_units budget
  = if Num.close_to (inject_Z (Num.round_half_even budget)) budget
    then Ok (mk_rendered false page)
    else Ok (mk_rendered true (fresh_page space_name page work_units budget)).
Proof.
  intros Line NoWords Hh Hb page.
  destruct (RoundTrip.hours_read_back _ Hh) as (X & FX & CX & ClX & NX).
  destruct (format_f_budget budget Hb) as [Hn FB].
  set (n := Num.round_half_even budget) in *.
  destruct (RoundTrip.budget_read_back (inject_Z n) n Hn (Qeq_refl _))
    as (_ & FY & _ & ClY & NY).
  assert (Clean := before_marker_clean text).
  pose proof (fresh_page_shape space_name text work_units budget Line) as Sh.
  fold page in Sh. rewrite FB in Sh.
  set (pre := before_marker text) in *.
  set (hrs := Num.format_f 2 (work_hours work_units)) in *.
  set (tail := NL ++ py "<h2>Project " ++ space_name ++ py " is "
               ++ (Num.format_f 1
                     (percent_of (work_hours work_units) budget * 100)
                   ++ py "%")
               ++ py " complete</h2>" ++ NL
               ++ py "<p>" ++ hrs ++ py " out of " ++ Py.str_int n
               ++ py " hours used"
               ++ (py ".</p>" ++ NL ++ month_table work_units)) in *.
  rewrite render_cases. cbv zeta. unfold figures. rewrite Sh.
  rewrite (after_marker_written pre tail Clean).
  rewrite (find_written pre tail Clean).
  destruct (Z.leb_spec 0 (Z.of_nat (length pre + 2))) as [_|]; [|lia].
  cbn [negb andb].
  assert (S : Re.search (marker ++ tail) = Some (hrs, Py.str_int n)).
  { subst tail. apply SearchFacts.search_report; try assumption.
    - apply PyFacts.find_absent. exact NoWords.
    - apply FormatFacts.format_f_chars. }
  rewrite S, FX, FY, CX. cbn [andb]. rewrite <- Sh.
  destruct (Num.close_to (inject_Z n) budget); reflexivity.
Qed.

(** X1.  The guard does its work for whole budgets: with a space name of one
    line that does not hold the words "out of", hours that are not
    negative and a budget that is a whole number of hours, rendering the
    page that [update_report_page] leaves behind reports no change and
    leaves it as it is. *)
Theorem render_idempotent_whole_budget
    (space_name text : pystr) (work_units : list work_unit) (budget : Q)
    (n : Z) (r1 : rendered) :
  one_line space_name ->
  Py.find space_name (py "out of") = -1 ->
  (0 <= work_hours work_units)%Q ->
  0 <= n -> (budget == inject_Z n)%Q ->
  update_report_page false space_name text work_units budget = Ok r1 ->
  update_report_page false space_name (body r1) work_units budget
  = Ok (mk_rendered false (body r1)).
Proof.
  intros Line NoWords Hh Hn Hb U.
  destruct (changed r1) eqn:C.
  2:{ rewrite (unchanged_stays_unchanged _ _ _ _ _ U C).
      destruct r1 as [c b]. cbn in C |- *. subst c. reflexivity. }
  rewrite (changed_body _ _ _ _ _ _ U C). cbn [body].
  assert (B0 : (0 <= budget)%Q).
  { rewrite Hb. unfold Qle, inject_Z. cbn. lia. }
  rewrite (rerender_fresh _ _ _ _ Line NoWords Hh B0).
  assert (R : Num.round_half_even budget = n).
  { rewrite (MonthFacts.round_half_even_comp _ _ Hb).
    unfold Num.round_half_even, inject_Z. cbn [Qnum Qden].
    rewrite Z.mod_1_r, Z.div_1_r. reflexivity. }
  rewrite R.
  assert (Cl : Num.close_to (inject_Z n) budget = true).
  { apply close_to_spec. rewrite Hb.
    assert (Z0 : (inject_Z n - inject_Z n == 0)%Q) by ring.
    rewrite Z0. reflexivity. }
  rewrite Cl. reflexivity.
Qed.

Lemma render_idempotent_whole_budget_witness :
  one_line (py "P") /\
  Py.find (py "P") (py "out of") = -1 /\
  update_report_page false (py "P") (py "intro") Sample.february_units 10
  = Ok (mk_rendered true
          (py "intro" ++ NL ++ NL ++ marker ++ NL
           ++ py "<h2>Project P is 60.0% complete</h2>" ++ NL
           ++ py "<p>6.00 out of 10 hours used.</p>" ++ NL
           ++ py "<p><table>" ++ NL
           ++ py "<tr><th>Date</th><th>Hours spent</th></tr>" ++ NL
           ++ py "<tr><td>February 2024</td><td>6.00</td></tr>" ++ NL
           ++ py "</table></p>")) /\
  exists r1,
    update_report_page false (py "P") (py "intro") Sample.february_units 10
    = Ok r1 /\
    update_report_page false (py "P") (body r1) Sample.february_units 10
    = Ok (mk_rendered false (body r1)).
Proof.
  assert (U : update_report_page false (py "P") (py "intro")
                Sample.february_units 10
              = Ok (mk_rendered true
                      (py "intro" ++ NL ++ NL ++ marker ++ NL
                       ++ py "<h2>Project P is 60.0% complete</h2>" ++ NL
                       ++ py "<p>6.00 out of 10 hours used.</p>" ++ NL
                       ++ py "<p><table>" ++ NL
                       ++ py "<tr><th>Date</th><th>Hours spent</th></tr>" ++ NL
                       ++ py "<tr><td>February 2024</td><td>6.00</td></tr>"
                       ++ NL ++ py "</table></p>")))
    by (vm_compute; reflexivity).
  split; [reflexivity|]. split; [reflexivity|]. split; [exact U|].
  eexists. split; [exact U|].
  apply (render_idempotent_whole_budget (py "P") (py "intro")
           Sample.february_units 10 10 _).
  - reflexivity.
  - reflexivity.
  - vm_compute. discriminate.
  - lia.
  - reflexivity.
  - exact U.
Defined.

(** ** The guard against needless rewrites *)

(** C1, at a budget of 10.25 hours.  The report prints the budget with
    no decimals (["10"]); read back, it is 0.25 away from the budget,
    which is more than the tolerance, so rendering the page that was
    just rendered reports a change again. *)
Theorem render_twice_fractional_budget :
  exists r1 r2,
    update_report_page false (py "P") (py "intro") [] (41 # 4) = Ok r1 /\
    body r1
    = py "intro" ++ NL ++ NL ++ marker ++ NL
      ++ py "<h2>Project P is 0.0% complete</h2>" ++ NL
      ++ py "<p>0.00 out of 10 hours used.</p>" ++ NL
      ++ py "<p><table>" ++ NL
      ++ py "<tr><th>Date</th><th>Hours spent</th></tr>" ++ NL
      ++ py "</table></p>" /\
    Re.search (Py.slice_from (body r1) (Py.find (body r1) marker))
    = Some (py "0.00", py "10") /\
    Num.close_to (10 # 1) (41 # 4) = false /\
    update_report_page false (py "P") (body r1) [] (41 # 4) = Ok r2 /\
    changed r2 = true.
Proof.
  eexists. eexists.
  split; [vm_compute; reflexivity|].
  split; [vm_compute; reflexivity|].
  split; [vm_compute; reflexivity|].
  split; [vm_compute; reflexivity|].
  split; [vm_compute; reflexivity|].
  reflexivity.
Qed.

(** With a whole budget the same page is left alone the second time. *)
Example render_twice_whole_budget :
  exists r1 r2,
    update_report_page false (py "P") (py "intro") [] 10 = Ok r1 /\
    changed r1 = true /\
    update_report_page false (py "P") (body r1) [] 10 = Ok r2 /\
    changed r2 = false /\ body r2 = body r1.
Proof.
  eexists. eexists.
  split; [vm_compute; reflexivity|].
  split; [reflexivity|].
  split; [vm_compute; reflexivity|].
  split; reflexivity.
Qed.

(** ** The start date that [main] passes on *)



(** C2, at a list in the order of the dates.  [main] passes the date of
    the last work unit, here 2024-02-01, although the unit of 2024-01-01
    is earlier. *)
Theorem start_date_is_last_work_unit :
  project_start_date Sample.ascending = Some (Cal.midnight 2024 2 1) /\
  In (mk_work_unit (Cal.midnight 2024 1 1) 1) Sample.ascending /\
  Cal.ltb (Cal.midnight 2024 1 1) (Cal.midnight 2024 2 1) = true /\
  (forall float_str self e project_subject w,
     notify_step float_str self e project_subject Sample.ascending w
     = update float_str self e project_subject
         (work_hours Sample.ascending) (Cal.midnight 2024 2 1) w).
Proof.
  split; [reflexivity|].
  split; [left; reflexivity|].
  split; [reflexivity|].
  intros. reflexivity.
Qed.

(** ** Instances *)

(** C9 as first stated fails: the text before the marker grows by the
    line feeds that precede the marker of the report. *)
Lemma frame_counterexample :
  ~ (forall force space_name text work_units budget r,
       update_report_page force space_name text work_units budget = Ok r ->
       changed r = true ->
       before_marker (body r) = before_marker text).
Proof.
  intros H.
  assert (E : exists r,
             update_report_page false (py "P") (py "abc") [] 0 = Ok r /\
             changed r = true /\
             before_marker (body r) = py "abc" ++ NL ++ NL).
  { eexists. split; [vm_compute; reflexivity|]. split; reflexivity. }
  destruct E as (r & U & C & B).
  specialize (H _ _ _ _ _ _ U C). rewrite B in H.
  vm_compute in H. discriminate.
Qed.

Lemma normalize_project_id_spec_witness :
  ~ In 120%N accented /\ unaccent 120%N = 120%N.
Proof.
  split.
  - unfold accented; simpl; intros H;
    repeat (destruct H as [H|H]; [discriminate|]); exact H.
  - apply (proj1 (proj2 (proj2 normalize_project_id_spec))).
    unfold accented; simpl; intros H;
    repeat (destruct H as [H|H]; [discriminate|]); exact H.
Defined.

(** 90 hours stored, 105 now: the notification for 100 hours goes out. *)
Lemma hour_checkpoint_rule_witness :
  row_hours <$> rows (db Sample.w0) !! Sample.name = Some (90 : Q) /\
  In (hour_mail Sample.float_str Sample.mailer (Sample.clock true)
        Sample.name 105 Sample.start 100)
     (map mail_of
        (emitted Sample.w0
           (snd (update Sample.float_str Sample.mailer (Sample.clock true)
                   Sample.name 105 Sample.start Sample.w0)))).
Proof.
  assert (P : row_hours <$> rows (db Sample.w0) !! Sample.name = Some (90 : Q))
    by (vm_compute; reflexivity).
  split; [exact P|].
  pose proof (hour_checkpoint_rule Sample.float_str Sample.mailer
                (Sample.clock true) Sample.name 105 Sample.start Sample.w0)
    as H.
  cbv zeta in H. destruct H as (_ & _ & _ & _ & _ & H & _).
  apply (H 90%Q P); reflexivity.
Defined.

(** Stored on 2024-12-30 (start + 364 days), run on 2025-01-01 (start +
    366 days), 95 hours: the day notification goes out. *)
Lemma day_checkpoint_rule_witness :
  rows (db Sample.w0) !! Sample.name
  = Some (mk_row 90 (Cal.mk_datetime 2024 12 30 43200000000)) /\
  Cal.add_days Sample.start 364 = Ok (Cal.midnight 2024 12 30) /\
  Cal.add_days Sample.start 366 = Ok (Cal.midnight 2025 1 1) /\
  In (day_mail Sample.mailer (Sample.clock true) Sample.name 95 Sample.start)
     (map mail_of
        (emitted Sample.w0
           (snd (update Sample.float_str Sample.mailer (Sample.clock true)
                   Sample.name 95 Sample.start Sample.w0)))).
Proof.
  assert (R : rows (db Sample.w0) !! Sample.name
              = Some (mk_row 90 (Cal.mk_datetime 2024 12 30 43200000000)))
    by (vm_compute; reflexivity).
  assert (A1 : Cal.add_days Sample.start 364 = Ok (Cal.midnight 2024 12 30))
    by (vm_compute; reflexivity).
  assert (A2 : Cal.add_days Sample.start 366 = Ok (Cal.midnight 2025 1 1))
    by (vm_compute; reflexivity).
  split; [exact R|]. split; [exact A1|]. split; [exact A2|].
  pose proof (day_checkpoint_rule Sample.float_str Sample.mailer
                (Sample.clock true) Sample.name 95 Sample.start Sample.w0)
    as H.
  cbv zeta in H. destruct H as (_ & _ & _ & H & _).
  apply (H _ _ _ R A1 eq_refl A2 eq_refl).
  intros (c & [<-|[<-|[]]] & Hc); vm_compute in Hc;
    repeat (destruct Hc as [Hc|Hc]; [discriminate|]); exact Hc.
Defined.

(** The transport is down while the notification for 100 hours is due:
    the call raises and the database is as before. *)
Lemma update_persists_witness :
  fst (update Sample.float_str Sample.mailer (Sample.clock false)
         Sample.name 105 Sample.start Sample.w0)
  = Raise SMTPException /\
  db (snd (update Sample.float_str Sample.mailer (Sample.clock false)
             Sample.name 105 Sample.start Sample.w0))
  = db Sample.w0.
Proof.
  assert (R : fst (update Sample.float_str Sample.mailer (Sample.clock false)
                     Sample.name 105 Sample.start Sample.w0)
              = Raise SMTPException)
    by (vm_compute; reflexivity).
  split; [exact R|].
  pose proof (update_persists Sample.float_str Sample.mailer
                (Sample.clock false) Sample.name 105 Sample.start Sample.w0)
    as H.
  cbv zeta in H. destruct H as (_ & H & _).
  exact (H _ R).
Defined.


Lemma budget_zero_safe_witness :
  (0 <= 0)%Q /\
  completion (work_hours Sample.february_units) 0 = Ok 0%Q /\
  update_report_page false (py "P") (py "abc") Sample.february_units 0
  <> Raise ZeroDivisionError.
Proof.
  assert (L : (0 <= 0)%Q) by (apply Qle_refl).
  split; [exact L|].
  destruct (budget_zero_safe false (py "P") (py "abc") Sample.february_units
              0 L) as (H1 & H2 & _).
  split; [exact H1|exact H2].
Defined.

Lemma report_keeps_text_before_marker_witness :
  (exists r,
     update_report_page true (py "P") Sample.january_page
       Sample.february_units 10 = Ok r /\
     changed r = true /\
     before_marker (body r) = py "<p>Notes</p>" ++ NL ++ NL ++ NL ++ NL).
Proof.
  assert (U : exists r,
     update_report_page true (py "P") Sample.january_page
       Sample.february_units 10 = Ok r /\ changed r = true).
  { eexists. split; [vm_compute; reflexivity|reflexivity]. }
  destruct U as (r & U & C). exists r. split; [exact U|]. split; [exact C|].
  destruct (report_keeps_text_before_marker true (py "P") Sample.january_page
              Sample.february_units 10 r U C) as (_ & H).
  rewrite H by reflexivity. vm_compute. reflexivity.
Defined.


(** ** Checks of the number formats *)

Example format_f_two_decimals : Num.format_f 2 5 = py "5.00".
Proof. vm_compute. reflexivity. Qed.
Example format_f_half_even : Num.format_f 0 (21 # 2) = py "10".
Proof. vm_compute. reflexivity. Qed.
Example format_f_tie : Num.format_f 2 (9 # 8) = py "1.12".
Proof. vm_compute. reflexivity. Qed.
Example format_f_negative : Num.format_f 2 (- (1 # 1024)) = py "-0.00".
Proof. vm_compute. reflexivity. Qed.
Example format_percent_half : Num.format_percent 1 (1 # 2) = py "50.0%".
Proof. vm_compute. reflexivity. Qed.
Example float_of_str_decimal : Num.float_of_str (py "12.50") = Ok (1250 # 100).
Proof. vm_compute. reflexivity. Qed.
Example float_of_str_two_dots : Num.float_of_str (py "1.2.3") = Raise ValueError.
Proof. vm_compute. reflexivity. Qed.
Example float_of_str_lone_dot : Num.float_of_str (py ".") = Raise ValueError.
Proof. vm_compute. reflexivity. Qed.
Example float_of_str_trailing_dot : Num.float_of_str (py "12.") = Ok (12 # 1).
Proof. vm_compute. reflexivity. Qed.
Example ord2ymd_2024_01_05 : Cal.ord2ymd 738890 = (2024, 1, 5).
Proof. reflexivity. Qed.
Example ordinal_of_first_day : Cal.ymd2ord Cal.MINYEAR 1 1 = 1.
Proof. reflexivity. Qed.
Example ordinal_of_last_day : Cal.ymd2ord Cal.MAXYEAR 12 31 = Cal.MAXORDINAL.
Proof. reflexivity. Qed.

(* ===================================================================== *)
(** * More of the script *)
(* ===================================================================== *)

(** ** The renderer: when it rewrites, when it leaves alone, when it
       raises *)

(** X2.  With [force], or on a page without the marker, the renderer
    does not look at the figures of the page: it never raises, reports a
    change and writes the report after the text before the marker; on a
    page without the marker that is the whole text. *)
Theorem forced_or_unmarked_page_is_rewritten
    (force : bool) (space_name text : pystr) (work_units : list work_unit)
    (budget : Q) :
  force = true \/ Py.find text marker = -1 ->
  update_report_page force space_name text work_units budget
  = Ok (mk_rendered true (fresh_page space_name text work_units budget)) /\
  (Py.find text marker = -1 ->
   fresh_page space_name text work_units budget
   = text ++ NL
     ++ make_report space_name (percent_of (work_hours work_units) budget)
          (work_hours work_units) budget work_units).
Proof.
  intros H. split.
  - destruct H as [->|F]; [apply render_forced|].
    rewrite render_cases. cbv zeta. rewrite F. reflexivity.
  - intros F. unfold fresh_page, before_marker. rewrite F. reflexivity.
Qed.

Lemma forced_or_unmarked_page_is_rewritten_witness :
  Py.find (py "abc") marker = -1 /\
  update_report_page false (py "P") (py "abc") Sample.february_units 10
  = Ok (mk_rendered true
          (py "abc" ++ NL
           ++ make_report (py "P") (6 / 10) 6 10 Sample.february_units)).
Proof.
  assert (F : Py.find (py "abc") marker = -1) by reflexivity.
  split; [exact F|].
  destruct (forced_or_unmarked_page_is_rewritten false (py "P") (py "abc")
              Sample.february_units 10 (or_intror F)) as [U E].
  rewrite U. rewrite (E F). vm_compute. reflexivity.
Defined.


(** X4.  The renderer raises in one case only, and then a [ValueError]:
    [force] is off, the page holds the marker, the text from the marker
    on matches the pattern of the figures, and one of the two runs of
    digits and dots it captured is not a number: it has no digit, or
    more than one dot. *)
Theorem render_raises_iff
    (force : bool) (space_name text : pystr) (work_units : list work_unit)
    (budget : Q) (e : exn) :
  update_report_page force space_name text work_units budget = Raise e
  <->
  e = ValueError /\ force = false /\ 0 <= Py.find text marker /\
  exists g1 g2,
    figures text = Some (g1, g2) /\
    (is_number g1 = false \/ is_number g2 = false).
Proof.
  rewrite render_cases. cbv zeta. split.
  - intros U.
    destruct force; [rewrite andb_false_r in U; discriminate|].
    destruct (Z.leb_spec 0 (Py.find text marker)) as [M|M]; [|discriminate].
    cbn [negb andb] in U.
    destruct (figures text) as [[g1 g2]|] eqn:F; [|discriminate].
    destruct (search_class _ _ _ F) as [K1 K2].
    pose proof (float_of_str_class g1 K1) as N1.
    pose proof (float_of_str_class g2 K2) as N2.
    destruct (is_number g1) eqn:I1.
    + destruct N1 as [X N1]. rewrite N1 in U.
      destruct (is_number g2) eqn:I2.
      * destruct N2 as [Y N2]. rewrite N2 in U.
        destruct (_ && _); discriminate.
      * rewrite N2 in U. injection U as <-.
        split; [reflexivity|]. split; [reflexivity|]. split; [exact M|].
        exists g1, g2. split; [reflexivity|]. right. exact I2.
    + rewrite N1 in U. injection U as <-.
      split; [reflexivity|]. split; [reflexivity|]. split; [exact M|].
      exists g1, g2. split; [reflexivity|]. left. exact I1.
  - intros (-> & -> & M & g1 & g2 & F & N).
    destruct (Z.leb_spec 0 (Py.find text marker)) as [_|]; [|lia].
    cbn [negb andb]. rewrite F.
    destruct (search_class _ _ _ F) as [K1 K2].
    pose proof (float_of_str_class g1 K1) as N1.
    pose proof (float_of_str_class g2 K2) as N2.
    destruct (is_number g1) eqn:I1.
    + destruct N1 as [X N1]. rewrite N1.
      destruct N as [N|N]; [discriminate|]. rewrite N in N2.
      rewrite N2. reflexivity.
    + rewrite N1. reflexivity.
Qed.

(** X5.  What a rewrite produces depends on the old page only through
    the text before its first marker: two pages that agree there are
    rewritten to the same page, whatever stood after the marker and
    whether or not the rewrite was forced. *)
Theorem rewrite_ignores_old_report
    (force1 force2 : bool) (space_name text1 text2 : pystr)
    (work_units : list work_unit) (budget : Q) (r1 r2 : rendered) :
  before_marker text1 = before_marker text2 ->
  update_report_page force1 space_name text1 work_units budget = Ok r1 ->
  update_report_page force2 space_name text2 work_units budget = Ok r2 ->
  changed r1 = true -> changed r2 = true ->
  r1 = r2.
Proof.
  intros B U1 U2 C1 C2.
  rewrite (changed_body _ _ _ _ _ _ U1 C1), (changed_body _ _ _ _ _ _ U2 C2).
  unfold fresh_page. rewrite B. reflexivity.
Qed.

Lemma rewrite_ignores_old_report_witness :
  update_report_page false (py "P") Sample.january_page
    Sample.february_units 20
  = update_report_page true (py "P")
      (py "<p>Notes</p>" ++ NL ++ NL ++ marker ++ py "anything")
      Sample.february_units 20.
Proof.
  assert (U1 : exists r1,
             update_report_page false (py "P") Sample.january_page
               Sample.february_units 20 = Ok r1 /\ changed r1 = true).
  { eexists. split; [vm_compute; reflexivity|reflexivity]. }
  assert (U2 : exists r2,
             update_report_page true (py "P")
               (py "<p>Notes</p>" ++ NL ++ NL ++ marker ++ py "anything")
               Sample.february_units 20 = Ok r2 /\ changed r2 = true).
  { eexists. split; [vm_compute; reflexivity|reflexivity]. }
  destruct U1 as (r1 & U1 & C1). destruct U2 as (r2 & U2 & C2).
  rewrite U1, U2. f_equal.
  apply (rewrite_ignores_old_report false true (py "P") Sample.january_page
           (py "<p>Notes</p>" ++ NL ++ NL ++ marker ++ py "anything")
           Sample.february_units 20 r1 r2);
    [vm_compute; reflexivity|exact U1|exact U2|exact C1|exact C2].
Defined.

(** X6.  A forced rewrite is not idempotent on the page: for a space
    name of one line, forcing the renderer on the page it has just
    written gives the same report after the same text, with two more
    line feeds between them. *)
Theorem forced_rewrite_grows
    (space_name text : pystr) (work_units : list work_unit) (budget : Q) :
  one_line space_name ->
  let report :=
    make_report space_name (percent_of (work_hours work_units) budget)
      (work_hours work_units) budget work_units in
  let kept := before_marker text in
  update_report_page true space_name text work_units budget
  = Ok (mk_rendered true (kept ++ NL ++ report)) /\
  update_report_page true space_name (kept ++ NL ++ report) work_units budget
  = Ok (mk_rendered true (kept ++ NL ++ NL ++ NL ++ report)).
Proof.
  intros Line report kept. split; [apply render_forced|].
  rewrite render_forced. f_equal. f_equal.
  change (kept ++ NL ++ report)
    with (fresh_page space_name text work_units budget).
  unfold fresh_page at 1.
  rewrite (before_marker_fresh _ _ _ _ Line).
  rewrite <- !app_assoc. reflexivity.
Qed.

Lemma forced_rewrite_grows_witness :
  one_line (py "P") /\
  exists page,
    update_report_page true (py "P") (py "intro") Sample.february_units 10
    = Ok (mk_rendered true page) /\
    exists page',
      update_report_page true (py "P") page Sample.february_units 10
      = Ok (mk_rendered true page') /\
      length page' = (length page + 2)%nat.
Proof.
  assert (L : one_line (py "P")) by reflexivity.
  split; [exact L|].
  pose proof (forced_rewrite_grows (py "P") (py "intro")
                Sample.february_units 10 L) as H.
  cbv zeta in H. destruct H as [H1 H2].
  eexists. split; [exact H1|].
  eexists. split; [exact H2|].
  rewrite !length_app. cbn [length NL]. lia.
Defined.

(** X7.  Rendering again what the renderer has just written, with the
    same work units and budget: for a space name of one line without
    the words "out of", hours and a budget that are not negative, the
    second call returns, and it leaves the page alone exactly when the
    budget is within 0.01 of the whole number that was printed for it;
    otherwise it writes the report once more. *)
Theorem second_render_changes_iff
    (space_name text : pystr) (work_units : list work_unit) (budget : Q)
    (r1 : rendered) :
  one_line space_name ->
  Py.find space_name (py "out of") = -1 ->
  (0 <= work_hours work_units)%Q ->
  (0 <= budget)%Q ->
  update_report_page false space_name text work_units budget = Ok r1 ->
  changed r1 = true ->
  exists r2,
    update_report_page false space_name (body r1) work_units budget = Ok r2 /\
    (changed r2 = false <->
     (Qabs (inject_Z (Num.round_half_even budget) - budget) < 1 # 100)%Q) /\
    (changed r2 = false -> body r2 = body r1) /\
    (changed r2 = true ->
     body r2 = fresh_page space_name (body r1) work_units budget).
Proof.
  intros Line NoWords Hh Hb U C.
  rewrite (changed_body _ _ _ _ _ _ U C). cbn [body].
  rewrite (rerender_fresh _ _ _ _ Line NoWords Hh Hb).
  destruct (Num.close_to (inject_Z (Num.round_half_even budget)) budget)
    eqn:Cl.
  - eexists. split; [reflexivity|]. cbn [changed body].
    split; [|split; [reflexivity|discriminate]].
    split; [intros _; apply close_to_spec; exact Cl|reflexivity].
  - eexists. split; [reflexivity|]. cbn [changed body].
    split; [|split; [discriminate|reflexivity]].
    split; [discriminate|].
    intros H. apply close_to_spec in H. congruence.
Qed.

Lemma second_render_changes_iff_witness :
  exists r1 r2,
    update_report_page false (py "P") (py "intro") Sample.february_units
      (41 # 4) = Ok r1 /\
    update_report_page false (py "P") (body r1) Sample.february_units
      (41 # 4) = Ok r2 /\
    changed r1 = true /\ changed r2 = true.
Proof.
  assert (U : exists r1,
             update_report_page false (py "P") (py "intro")
               Sample.february_units (41 # 4) = Ok r1 /\ changed r1 = true).
  { eexists. split; [vm_compute; reflexivity|reflexivity]. }
  destruct U as (r1 & U & C).
  destruct (second_render_changes_iff (py "P") (py "intro")
              Sample.february_units (41 # 4) r1)
    as (r2 & U2 & I & _); try (vm_compute; congruence); try assumption.
  exists r1, r2. split; [exact U|]. split; [exact U2|]. split; [exact C|].
  destruct (changed r2); [reflexivity|].
  exfalso. destruct I as [I _]. specialize (I eq_refl).
  revert I. vm_compute. congruence.
Defined.

(** ** The threshold evaluator: how a call ends, and the next call *)

Section UpdateEndings.

Variable float_str : Q -> pystr.
Variable self : emailer.
Variable e : env.
Variable name : pystr.
Variable hours : Q.
Variable start : Cal.datetime.

Local Abbreviation run := (update float_str self e name hours start).
Local Abbreviation row := (mk_row hours (current_timestamp e)).

(** A call that returns has written and committed the row, and its flag
    tells whether a notification was due. *)
Lemma update_Ok_inv w b :
  fst (run w) = Ok b ->
  db (snd (run w))
  = mk_database (<[name := row]> (rows (db w)))
                (<[name := row]> (rows (db w))) /\
  (b = true <-> due float_str self e name hours start w <> None) /\
  (dry_run self || smtp_up e = true
   \/ due float_str self e name hours start w = None).
Proof.
  rewrite update_run. unfold due, notify, persisted.
  destruct (rows (db w) !! name) as [r|].
  2:{ cbn. intros [= <-]. split; [reflexivity|].
      split; [split; [discriminate|congruence]|right; reflexivity]. }
  destruct (List.find _ CHECKPOINT_HOURS) as [c|].
  { destruct (dry_run self || smtp_up e); [|discriminate].
    cbn. intros [= <-]. split; [reflexivity|].
    split; [split; [discriminate|reflexivity]|left; reflexivity]. }
  destruct (Cal.add_days start CHECKPOINT_DAYS) as [cp|ex]; [|discriminate].
  destruct (Cal.ltb _ cp && Cal.leb cp (today e)).
  - destruct (dry_run self || smtp_up e); [|discriminate].
    cbn. intros [= <-]. split; [reflexivity|].
    split; [split; [discriminate|reflexivity]|left; reflexivity].
  - cbn. intros [= <-]. split; [reflexivity|].
    split; [split; [discriminate|congruence]|right; reflexivity].
Qed.

Lemma update_Ok_row w b :
  fst (run w) = Ok b -> rows (db (snd (run w))) !! name = Some row.
Proof.
  intros H. destruct (update_Ok_inv w b H) as (D & _). rewrite D.
  cbn [rows]. apply lookup_insert_eq.
Qed.

End UpdateEndings.

Lemma add_days_Raise_iff d n :
  Cal.add_days d n = Raise OverflowError <->
  ~ (0 < Cal.toordinal d + n <= Cal.MAXORDINAL).
Proof.
  unfold Cal.add_days.
  destruct (Z.ltb_spec 0 (Cal.toordinal d + n));
    destruct (Z.leb_spec (Cal.toordinal d + n) Cal.MAXORDINAL); cbn [andb];
    try (split; [intros _; lia|reflexivity]).
  destruct (Cal.ord2ymd (Cal.toordinal d + n)) as [[y m] dd].
  split; [discriminate|lia].
Qed.

(** X8.  [update] raises in two cases only.  It raises the failure of
    the mail transport when a notification is due, the mailer is not on
    a dry run and the server refuses; and it raises an [OverflowError]
    when the store holds the project, no hour checkpoint is crossed and
    the day checkpoint, 365 days after the start date, lies outside the
    dates the calendar supports.  The [KeyError] of a project that is
    not in the store never escapes. *)
Theorem update_raises_iff
    (float_str : Q -> pystr) (self : emailer) (e : env) (name : pystr)
    (hours : Q) (start : Cal.datetime) (w : world) (ex : exn) :
  fst (update float_str self e name hours start w) = Raise ex
  <->
  (ex = SMTPException /\ dry_run self = false /\ smtp_up e = false /\
   due float_str self e name hours start w <> None)
  \/
  (ex = OverflowError /\
   exists r, rows (db w) !! name = Some r /\
     (forall c, In c CHECKPOINT_HOURS ->
        ~ ((row_hours r < inject_Z c)%Q /\ (inject_Z c <= hours)%Q)) /\
     ~ (0 < Cal.toordinal start + CHECKPOINT_DAYS <= Cal.MAXORDINAL)).
Proof.
  assert (NoCross : forall r,
    List.find (crossed (row_hours r) hours) CHECKPOINT_HOURS = None <->
    forall c, In c CHECKPOINT_HOURS ->
      ~ ((row_hours r < inject_Z c)%Q /\ (inject_Z c <= hours)%Q)).
  { intros r. rewrite find_crossed_None. split; intros H c Hc.
    - rewrite <- crossed_spec. rewrite (H c Hc). discriminate.
    - specialize (H c Hc). rewrite <- crossed_spec in H.
      destruct (crossed (row_hours r) hours c); [destruct H|]; reflexivity. }
  rewrite update_run. unfold due, notify.
  destruct (rows (db w) !! name) as [r|].
  2:{ cbn. split; [discriminate|].
      intros [(_ & _ & _ & H)|(_ & r & H & _)];
        [destruct H; reflexivity|discriminate]. }
  destruct (List.find _ CHECKPOINT_HOURS) as [c|] eqn:F.
  { assert (Other : ~ (ex = OverflowError /\
       exists r0, Some r = Some r0 /\
         (forall c, In c CHECKPOINT_HOURS ->
            ~ ((row_hours r0 < inject_Z c)%Q /\ (inject_Z c <= hours)%Q)) /\
         ~ (0 < Cal.toordinal start + CHECKPOINT_DAYS <= Cal.MAXORDINAL))).
    { intros (_ & r0 & [= <-] & N & _). apply NoCross in N. congruence. }
    destruct (dry_run self) eqn:D, (smtp_up e) eqn:U; cbn; split.
    - discriminate.
    - intros [(_ & D' & _)|H]; [discriminate|destruct (Other H)].
    - discriminate.
    - intros [(_ & D' & _)|H]; [discriminate|destruct (Other H)].
    - discriminate.
    - intros [(_ & _ & U' & _)|H]; [discriminate|destruct (Other H)].
    - intros [= <-]. left.
      split; [reflexivity|]. split; [reflexivity|]. split; [reflexivity|].
      discriminate.
    - intros [(-> & _)|H]; [reflexivity|destruct (Other H)]. }
  destruct (Cal.add_days start CHECKPOINT_DAYS) as [cp|ex'] eqn:A.
  - assert (Other : ~ (ex = OverflowError /\
       exists r0, Some r = Some r0 /\
         (forall c, In c CHECKPOINT_HOURS ->
            ~ ((row_hours r0 < inject_Z c)%Q /\ (inject_Z c <= hours)%Q)) /\
         ~ (0 < Cal.toordinal start + CHECKPOINT_DAYS <= Cal.MAXORDINAL))).
    { intros (_ & r0 & _ & _ & N).
      apply add_days_Raise_iff in N. congruence. }
    destruct (Cal.ltb _ cp && Cal.leb cp (today e)).
    + destruct (dry_run self) eqn:D, (smtp_up e) eqn:U; cbn; split.
      * discriminate.
      * intros [(_ & D' & _)|H]; [discriminate|destruct (Other H)].
      * discriminate.
      * intros [(_ & D' & _)|H]; [discriminate|destruct (Other H)].
      * discriminate.
      * intros [(_ & _ & U' & _)|H]; [discriminate|destruct (Other H)].
      * intros [= <-]. left.
        split; [reflexivity|]. split; [reflexivity|]. split; [reflexivity|].
        discriminate.
      * intros [(-> & _)|H]; [reflexivity|destruct (Other H)].
    + cbn. split; [discriminate|].
      intros [(_ & _ & _ & H)|H];
        [destruct H; reflexivity|destruct (Other H)].
  - pose proof (add_days_Raise _ _ _ A) as ->. cbn. split.
    + intros [= <-]. right. split; [reflexivity|]. exists r.
      split; [reflexivity|]. split; [apply NoCross; exact F|].
      apply add_days_Raise_iff. exact A.
    + intros [(_ & _ & _ & H)|(-> & _)];
        [destruct H; reflexivity|reflexivity].
Qed.

(** X9.  The flag that [update] returns tells what happened: it is true
    exactly when the call handed a notification to [send_email], and
    then that is the one event of the call; it is false exactly when the
    call emitted nothing. *)
Theorem update_flag_tells_notification
    (float_str : Q -> pystr) (self : emailer) (e : env) (name : pystr)
    (hours : Q) (start : Cal.datetime) (w : world) (b : bool) :
  fst (update float_str self e name hours start w) = Ok b ->
  let w' := snd (update float_str self e name hours start w) in
  (b = true <->
   exists m, due float_str self e name hours start w = Some m /\
             emitted w w' = [outcome self e m] /\
             outcome self e m <> Failed m) /\
  (b = false <-> emitted w w' = []).
Proof.
  intros H w'. destruct (update_Ok_inv _ _ _ _ _ _ _ _ H) as (_ & B & S).
  subst w'. rewrite update_emitted.
  destruct (due float_str self e name hours start w) as [m|].
  - destruct S as [S|S]; [|discriminate].
    assert (Bt : b = true) by (apply B; discriminate).
    split.
    + split; [|intros _; exact Bt]. intros _. exists m.
      split; [reflexivity|]. split; [reflexivity|].
      unfold outcome. destruct (dry_run self); [discriminate|].
      cbn in S. rewrite S. discriminate.
    + subst b. split; discriminate.
  - assert (Bf : b = false).
    { destruct b; [|reflexivity]. exfalso.
      destruct B as [B _]. apply (B eq_refl). reflexivity. }
    subst b. split; [|split; reflexivity].
    split; [discriminate|]. intros (m & D & _). discriminate.
Qed.

Lemma update_flag_tells_notification_witness :
  fst (update Sample.float_str Sample.mailer (Sample.clock true)
         Sample.name 105 Sample.start Sample.w0) = Ok true /\
  exists m,
    emitted Sample.w0
      (snd (update Sample.float_str Sample.mailer (Sample.clock true)
              Sample.name 105 Sample.start Sample.w0))
    = [outcome Sample.mailer (Sample.clock true) m].
Proof.
  assert (H : fst (update Sample.float_str Sample.mailer (Sample.clock true)
                     Sample.name 105 Sample.start Sample.w0) = Ok true)
    by (vm_compute; reflexivity).
  split; [exact H|].
  pose proof (update_flag_tells_notification Sample.float_str Sample.mailer
                (Sample.clock true) Sample.name 105 Sample.start Sample.w0
                true H) as T.
  cbv zeta in T. destruct T as [[T _] _].
  destruct (T eq_refl) as (m & _ & E & _). exists m. exact E.
Defined.

(** X10.  Two runs in a row.  When a call for a project has returned,
    the next call for it compares with the hours of that call: it sends
    the notification of the hour checkpoint [c] exactly when the hours
    went from below [c] to [c] or more between the two calls and [c] is
    the lowest such checkpoint.  With hours that did not rise, no hour
    notification is sent again. *)
Theorem consecutive_runs_hour_rule
    (float_str : Q -> pystr) (self : emailer) (e1 e2 : env) (name : pystr)
    (h1 h2 : Q) (start1 start2 : Cal.datetime) (w w1 : world) (b : bool)
    (c : Z) :
  update float_str self e1 name h1 start1 w = (Ok b, w1) ->
  In c CHECKPOINT_HOURS ->
  let w2 := snd (update float_str self e2 name h2 start2 w1) in
  let fired :=
    In (hour_mail float_str self e2 name h2 start2 c)
       (map mail_of (emitted w1 w2)) in
  (fired <->
   (h1 < inject_Z c)%Q /\ (inject_Z c <= h2)%Q /\
   forall c', In c' CHECKPOINT_HOURS ->
     (h1 < inject_Z c')%Q -> (inject_Z c' <= h2)%Q -> c <= c') /\
  ((h2 <= h1)%Q -> ~ fired).
Proof.
  intros U Hc w2 fired.
  assert (R : rows (db w1) !! name = Some (mk_row h1 (current_timestamp e1))).
  { pose proof (update_Ok_row float_str self e1 name h1 start1 w b) as H.
    rewrite U in H. apply H. reflexivity. }
  assert (I : fired <->
              (h1 < inject_Z c)%Q /\ (inject_Z c <= h2)%Q /\
              forall c', In c' CHECKPOINT_HOURS ->
                (h1 < inject_Z c')%Q -> (inject_Z c' <= h2)%Q -> c <= c').
  { subst fired w2. rewrite (hour_fired_iff _ _ _ _ _ _ _ _ Hc). split.
    - intros (r & Hr & F). rewrite R in Hr. injection Hr as <-.
      cbn [row_hours] in F.
      apply find_crossed_Some in F as (_ & C & Min).
      apply crossed_spec in C as [C1 C2].
      split; [exact C1|]. split; [exact C2|].
      intros c' Hc' L1 L2. apply (Min c' Hc').
      apply crossed_spec. split; assumption.
    - intros (C1 & C2 & Min). eexists. split; [exact R|].
      cbn [row_hours]. apply find_crossed_Some.
      split; [exact Hc|]. split; [apply crossed_spec; split; assumption|].
      intros c' Hc' C. apply crossed_spec in C as [L1 L2].
      exact (Min c' Hc' L1 L2). }
  split; [exact I|].
  intros Le F. apply I in F as (C1 & C2 & _).
  apply (Qlt_irrefl h1).
  apply (Qlt_le_trans _ (inject_Z c)); [exact C1|].
  apply (Qle_trans _ h2); assumption.
Qed.

Lemma consecutive_runs_hour_rule_witness :
  exists w1,
    update Sample.float_str Sample.mailer (Sample.clock true) Sample.name
      105 Sample.start Sample.w0 = (Ok true, w1) /\
    In (hour_mail Sample.float_str Sample.mailer (Sample.clock true)
          Sample.name 350 Sample.start 300)
       (map mail_of
          (emitted w1
             (snd (update Sample.float_str Sample.mailer (Sample.clock true)
                     Sample.name 350 Sample.start w1)))).
Proof.
  eexists. split; [vm_compute; reflexivity|].
  eapply (consecutive_runs_hour_rule Sample.float_str Sample.mailer
            (Sample.clock true) (Sample.clock true) Sample.name 105 350
            Sample.start Sample.start Sample.w0 _ true 300).
  - vm_compute. reflexivity.
  - right. left. reflexivity.
  - split; [reflexivity|]. split; [vm_compute; discriminate|].
    intros c' [<-|[<-|[]]] L1 L2; [vm_compute in L1; discriminate|lia].
Defined.

(** X11.  A checkpoint that is jumped over together with a lower one is
    lost.  When one run takes a project from below 100 hours to 300 or
    more, the notification it sends is the one for 100 hours, and the
    next run sends no hour notification at all, whatever its hours: the
    one for 300 hours is never sent unless the hours fall below 300 and
    rise again. *)
Theorem jumped_checkpoint_is_lost
    (float_str : Q -> pystr) (self : emailer) (e1 : env) (name : pystr)
    (h1 : Q) (start1 : Cal.datetime) (w w1 : world) (b : bool)
    (r : project_row) :
  rows (db w) !! name = Some r ->
  (row_hours r < 100)%Q -> (300 <= h1)%Q ->
  update float_str self e1 name h1 start1 w = (Ok b, w1) ->
  b = true /\
  emitted w w1
  = [outcome self e1 (hour_mail float_str self e1 name h1 start1 100)] /\
  forall e2 h2 start2 c, In c CHECKPOINT_HOURS ->
    ~ In (hour_mail float_str self e2 name h2 start2 c)
         (map mail_of
            (emitted w1
               (snd (update float_str self e2 name h2 start2 w1)))).
Proof.
  intros Hr Lo Hi U.
  assert (F : List.find (crossed (row_hours r) h1) CHECKPOINT_HOURS
              = Some 100).
  { unfold CHECKPOINT_HOURS. cbn [List.find].
    assert (C : crossed (row_hours r) h1 100 = true).
    { apply crossed_spec. split; [exact Lo|].
      apply (Qle_trans _ 300); [|exact Hi]. unfold Qle. cbn. lia. }
    rewrite C. reflexivity. }
  assert (D : due float_str self e1 name h1 start1 w
              = Some (hour_mail float_str self e1 name h1 start1 100)).
  { unfold due. rewrite Hr, F. reflexivity. }
  assert (U1 : fst (update float_str self e1 name h1 start1 w) = Ok b)
    by (rewrite U; reflexivity).
  assert (U2 : snd (update float_str self e1 name h1 start1 w) = w1)
    by (rewrite U; reflexivity).
  destruct (update_Ok_inv _ _ _ _ _ _ _ _ U1) as (_ & B & _).
  split; [apply B; rewrite D; discriminate|].
  split.
  { rewrite <- U2, update_emitted, D. reflexivity. }
  intros e2 h2 start2 c Hc Fired.
  apply (hour_fired_iff _ _ _ _ _ _ _ _ Hc) in Fired as (r' & Hr' & F').
  pose proof (update_Ok_row _ _ _ _ _ _ _ _ U1) as R.
  rewrite U2, Hr' in R. injection R as ->. cbn [row_hours] in F'.
  apply find_crossed_Some in F' as (_ & C & _).
  apply crossed_spec in C as [C1 _].
  assert (L : (inject_Z c <= 300)%Q).
  { unfold CHECKPOINT_HOURS in Hc.
    destruct Hc as [<-|[<-|[]]]; unfold Qle; cbn; lia. }
  apply (Qlt_irrefl h1).
  apply (Qlt_le_trans _ (inject_Z c)); [exact C1|].
  apply (Qle_trans _ 300); assumption.
Qed.

Lemma jumped_checkpoint_is_lost_witness :
  exists w1,
    update Sample.float_str Sample.mailer (Sample.clock true) Sample.name
      350 Sample.start Sample.w0 = (Ok true, w1) /\
    emitted Sample.w0 w1
    = [Sent (hour_mail Sample.float_str Sample.mailer (Sample.clock true)
               Sample.name 350 Sample.start 100)].
Proof.
  eexists. split; [vm_compute; reflexivity|].
  eapply (jumped_checkpoint_is_lost Sample.float_str Sample.mailer
            (Sample.clock true) Sample.name 350 Sample.start Sample.w0 _
            true (mk_row 90 (Cal.mk_datetime 2024 12 30 43200000000))).
  - vm_compute. reflexivity.
  - reflexivity.
  - vm_compute. discriminate.
  - vm_compute. reflexivity.
Defined.

(** ** The day checkpoint, once more *)





(** X13.  The day notification is sent once.  When a call sent it, the
    start date is at midnight and the clock of the database shows the
    same date as the local clock, the next call for the project with
    the same start date does not send it again, whatever its clock and
    hours are. *)
Theorem day_notification_sent_once
    (float_str : Q -> pystr) (self : emailer) (e1 e2 : env) (name : pystr)
    (h1 h2 : Q) (start : Cal.datetime) (w w1 : world) (b : bool) :
  Cal.time_us start = 0 ->
  0 <= Cal.time_us (today e1) ->
  Cal.date_of (current_timestamp e1) = Cal.date_of (today e1) ->
  update float_str self e1 name h1 start w = (Ok b, w1) ->
  In (day_mail self e1 name h1 start) (map mail_of (emitted w w1)) ->
  ~ In (day_mail self e2 name h2 start)
       (map mail_of
          (emitted w1 (snd (update float_str self e2 name h2 start w1)))).
Proof.
  intros T0 Tt Clock U Fired1 Fired2.
  assert (U1 : fst (update float_str self e1 name h1 start w) = Ok b)
    by (rewrite U; reflexivity).
  assert (U2 : snd (update float_str self e1 name h1 start w) = w1)
    by (rewrite U; reflexivity).
  rewrite <- U2 in Fired1.
  apply day_fired_iff in Fired1 as (r & cp & _ & _ & A & _ & Le).
  apply day_fired_iff in Fired2 as (r2 & cp2 & Hr2 & _ & A2 & Lt2 & _).
  rewrite A in A2. injection A2 as <-.
  pose proof (update_Ok_row _ _ _ _ _ _ _ _ U1) as R.
  rewrite U2, Hr2 in R. injection R as ->. cbn [row_date] in Lt2.
  assert (Tc : Cal.time_us cp = 0).
  { apply add_days_Ok in A as (_ & _ & T). lia. }
  apply (ltb_midnight _ _ Tc) in Lt2. rewrite Clock in Lt2.
  apply (leb_midnight _ _ Tc Tt) in Le as [Le|Le].
  - exact (date_lt_asym _ _ Lt2 Le).
  - rewrite Le in Lt2. exact (date_lt_irrefl _ Lt2).
Qed.

Lemma day_notification_sent_once_witness :
  exists w1,
    update Sample.float_str Sample.mailer
      (mk_env (Cal.mk_datetime 2025 1 1 32400000000)
              (Cal.mk_datetime 2025 1 1 32400000000) true)
      Sample.name 95 Sample.start Sample.w0 = (Ok true, w1) /\
    ~ In (day_mail Sample.mailer (Sample.clock true) Sample.name 96
            Sample.start)
         (map mail_of
            (emitted w1
               (snd (update Sample.float_str Sample.mailer
                       (Sample.clock true) Sample.name 96 Sample.start
                       w1)))).
Proof.
  eexists. split; [vm_compute; reflexivity|].
  eapply (day_notification_sent_once Sample.float_str Sample.mailer
            (mk_env (Cal.mk_datetime 2025 1 1 32400000000)
                    (Cal.mk_datetime 2025 1 1 32400000000) true)
            (Sample.clock true) Sample.name 95 96 Sample.start Sample.w0
            _ true).
  - reflexivity.
  - vm_compute. discriminate.
  - reflexivity.
  - vm_compute. reflexivity.
  - left. vm_compute. reflexivity.
Defined.

(** ** The mail transport and the store *)


(** X15.  The store: a row that is written is read back with the hours
    given and the date of the database clock; the other rows are read as
    before; a project that is not there raises a [KeyError]; and what is
    written is not in the file before [commit] or [close]. *)
Theorem database_round_trip
    (e : env) (name other : pystr) (hours : Q) (w : world) :
  let w1 := snd (db_setitem e name hours w) in
  db_getitem name w1
  = (Ok (hours, Cal.date_of (current_timestamp e)), w1) /\
  (other <> name -> fst (db_getitem other w1) = fst (db_getitem other w)) /\
  (rows (db w) !! other = None -> db_getitem other w = (Raise KeyError, w)) /\
  stored (db w1) = stored (db w) /\
  stored (db (snd (db_close w1)))
  = <[name := mk_row hours (current_timestamp e)]> (rows (db w)) /\
  snd (db_close w1) = snd (db_commit w1) /\
  trace (snd (db_close w1)) = trace w.
Proof.
  intros w1. subst w1. unfold db_getitem, db_setitem, db_close, db_commit.
  cbn [fst snd db rows stored trace].
  split; [rewrite lookup_insert_eq; reflexivity|].
  split.
  { intros N. rewrite lookup_insert_ne by congruence. 
    destruct (rows (db w) !! other); reflexivity. }
  split; [intros ->; reflexivity|].
  repeat split.
Qed.

(** ** The loop over the pages: names, projects, start dates *)

Lemma replace_from_skip old new k s :
  Text.replace_from old new k s = Text.replace_from old new 0 (drop k s).
Proof.
  revert k. induction s as [|c s IH]; intros [|k]; try reflexivity.
  cbn [Text.replace_from drop]. apply IH.
Qed.

Lemma replace_from_step old new s :
  old <> [] ->
  Text.replace_from old new 0 s
  = if Py.startswith old s
    then new ++ Text.replace_from old new 0 (drop (length old) s)
    else match s with
         | [] => []
         | c :: s' => c :: Text.replace_from old new 0 s'
         end.
Proof.
  intros NE. destruct old as [|a old]; [destruct NE; reflexivity|].
  destruct s as [|c s]; [reflexivity|].
  cbn [Text.replace_from].
  destruct (Py.startswith (a :: old) (c :: s)); [|reflexivity].
  rewrite replace_from_skip.
  replace (length (a :: old) - 1)%nat with (length old)
    by (cbn [length]; lia).
  reflexivity.
Qed.

(** X16.  [replace] in terms of [find]: a text without the searched
    text is returned as it is; otherwise the text up to the first
    occurrence is kept, the occurrence is replaced, and the rest of the
    text, after the occurrence, is treated in the same way.  So every
    occurrence is replaced, wherever it stands, not only one at the
    start. *)
Theorem replace_first_occurrence (s old new : pystr) :
  old <> [] ->
  Text.replace s old new
  = if Py.find s old <? 0 then s
    else
      let k := Z.to_nat (Py.find s old) in
      take k s ++ new ++ Text.replace (drop (k + length old) s) old new.
Proof.
  intros NE.
  assert (R : forall t, Text.replace t old new
                        = Text.replace_from old new 0 t).
  { intros t. unfold Text.replace.
    destruct old; [destruct NE|]; reflexivity. }
  cbv zeta. rewrite !R.
  induction s as [|c s IH].
  - assert (St : Py.startswith old [] = false)
      by (destruct old; [destruct NE|]; reflexivity).
    unfold Py.find. cbn [Py.find_from]. rewrite St. reflexivity.
  - rewrite (replace_from_step old new (c :: s) NE).
    unfold Py.find. cbn [Py.find_from].
    destruct (Py.startswith old (c :: s)); [reflexivity|].
    rewrite PyFacts.find_from_shift. rewrite IH. unfold Py.find.
    destruct (PyFacts.find_from_range old s) as [Rg|Rg].
    + rewrite Rg. reflexivity.
    + change (0 + 1) with 1.
      destruct (Z.eqb_spec (Py.find_from old s 0) (-1)) as [E|_]; [lia|].
      destruct (Z.ltb_spec (Py.find_from old s 0) 0) as [|_]; [lia|].
      destruct (Z.ltb_spec (1 + Py.find_from old s 0) 0) as [|_]; [lia|].
      rewrite Z2Nat.inj_add by lia. change (Z.to_nat 1) with 1%nat.
      reflexivity.
Qed.

Lemma replace_first_occurrence_witness :
  Text.replace (py "My NBIS Space") NBIS [] = py "My Space".
Proof.
  rewrite (replace_first_occurrence (py "My NBIS Space") NBIS []);
    [|discriminate].
  vm_compute. reflexivity.
Defined.

Lemma bool_decide_is_Some {A} (o : option A) :
  bool_decide (is_Some o) = match o with Some _ => true | None => false end.
Proof.
  destruct o.
  - apply bool_decide_eq_true_2. eexists. reflexivity.
  - apply bool_decide_eq_false_2. intros [? ?]. discriminate.
Qed.

(** X17.  The head of the loop over the pages never raises.  A page is
    ignored exactly when [--space] names neither its space nor the
    normalised name of its space.  Otherwise it gets the project kept
    under the normalised name, and only when there is none the project
    kept under that name without ["NBIS "]; with neither it is reported
    as not found. *)
Theorem find_project_cases {P : Type}
    (projects : gmap pystr P) (space : option pystr) (space_name : pystr) :
  let norm := normalize_project_id space_name in
  let stripped := Text.replace norm NBIS [] in
  let wanted :=
    match space with
    | None => True
    | Some s => s = space_name \/ s = norm
    end in
  (find_project projects space space_name = Ok Ignored <-> ~ wanted) /\
  (forall p,
     find_project projects space space_name = Ok (Matched p) <->
     wanted /\
     (projects !! norm = Some p \/
      (projects !! norm = None /\ projects !! stripped = Some p))) /\
  (find_project projects space space_name = Ok NotInRedmine <->
   wanted /\ projects !! norm = None /\ projects !! stripped = None) /\
  (forall e, find_project projects space space_name <> Raise e).
Proof.
  intros norm stripped wanted. unfold find_project. fold norm.
  fold stripped. cbv zeta.
  set (filtered := match space with
                   | None => false
                   | Some s => negb (Text.eqb s space_name)
                               && negb (Text.eqb s norm)
                   end).
  assert (Fl : if filtered then ~ wanted else wanted).
  { subst filtered wanted. destruct space as [s|]; [|exact I].
    unfold Text.eqb. repeat case_bool_decide; cbn; tauto. }
  rewrite !bool_decide_is_Some. unfold getitem.
  destruct filtered.
  { split; [split; [intros _; exact Fl|reflexivity]|].
    split; [intros p; split; [discriminate|intros [W _]; destruct (Fl W)]|].
    split; [split; [discriminate|intros [W _]; destruct (Fl W)]|].
    discriminate. }
  destruct (projects !! norm) as [p0|]; cbn [orb bind].
  { split; [split; [discriminate|intros N; destruct (N Fl)]|].
    split.
    { intros p. split.
      - intros [= <-]. split; [exact Fl|left; reflexivity].
      - intros [_ [[= <-]|[? _]]]; [reflexivity|discriminate]. }
    split; [split; [discriminate|intros (_ & ? & _); discriminate]|].
    discriminate. }
  destruct (projects !! stripped) as [p1|]; cbn [orb bind].
  { split; [split; [discriminate|intros N; destruct (N Fl)]|].
    split.
    { intros p. split.
      - intros [= <-]. split; [exact Fl|right; split; reflexivity].
      - intros [_ [?|[_ [= <-]]]]; [discriminate|reflexivity]. }
    split; [split; [discriminate|intros (_ & _ & ?); discriminate]|].
    discriminate. }
  split; [split; [discriminate|intros N; destruct (N Fl)]|].
  split.
  { intros p. split; [discriminate|].
    intros [_ [?|[_ ?]]]; discriminate. }
  split; [split; [intros _; repeat split; [exact Fl]|reflexivity]|].
  discriminate.
Qed.

Section ProjectFacts.

Variable is_decimal : char -> bool.

Local Abbreviation build := (build_projects is_decimal).
Local Abbreviation key := (project_key is_decimal).

Lemma build_projects_snoc issues i :
  build (issues ++ [i])
  = match key i with
    | Some k => <[k := i]> (build issues)
    | None => build issues
    end.
Proof. unfold build_projects. rewrite fold_left_app. reflexivity. Qed.

(** An issue with a key leaves an issue with that key in [projects]. *)
Lemma build_projects_has issues i k :
  In i issues -> key i = Some k ->
  exists i', build issues !! k = Some i' /\ key i' = Some k.
Proof.
  induction issues as [|x l IH] using rev_ind; intros Hi Hk; [destruct Hi|].
  rewrite build_projects_snoc.
  destruct (key x) as [k'|] eqn:Kx.
  - destruct (decide (k' = k)) as [->|N].
    + exists x. split; [apply lookup_insert_eq|exact Kx].
    + rewrite lookup_insert_ne by exact N. apply IH; [|exact Hk].
      apply in_app_or in Hi as [Hi|[<-|[]]]; [exact Hi|congruence].
  - apply IH; [|exact Hk].
    apply in_app_or in Hi as [Hi|[<-|[]]]; [exact Hi|congruence].
Qed.

End ProjectFacts.

(** X18.  What the loop over the issues leaves in [projects]: under a
    key stands the last issue of the list that has this key; issues
    before it with the same key are overwritten, issues without a key
    are not kept. *)
Theorem build_projects_keeps_last
    (is_decimal : char -> bool) (issues : list issue) (k : pystr)
    (i : issue) :
  build_projects is_decimal issues !! k = Some i
  <->
  exists earlier later,
    issues = earlier ++ i :: later /\
    project_key is_decimal i = Some k /\
    forall i', In i' later -> project_key is_decimal i' <> Some k.
Proof.
  revert i. induction issues as [|x l IH] using rev_ind; intros i.
  { unfold build_projects. cbn [fold_left]. rewrite lookup_empty.
    split; [discriminate|].
    intros (earlier & later & E & _). destruct earlier; discriminate. }
  rewrite build_projects_snoc.
  assert (Split : forall earlier later,
            l ++ [x] = earlier ++ i :: later ->
            (later = [] /\ i = x /\ earlier = l) \/
            (exists later', later = later' ++ [x]
                            /\ l = earlier ++ i :: later')).
  { intros earlier later E.
    destruct later as [|y lt _] using rev_ind.
    - left. apply app_inj_tail in E as [-> ->]. repeat split.
    - right. exists lt.
      rewrite app_comm_cons, app_assoc in E.
      apply app_inj_tail in E as [-> ->]. split; reflexivity. }
  assert (Other : project_key is_decimal x <> Some k ->
            (build_projects is_decimal l !! k = Some i <->
             exists earlier later,
               l ++ [x] = earlier ++ i :: later /\
               project_key is_decimal i = Some k /\
               forall i', In i' later ->
                          project_key is_decimal i' <> Some k)).
  { intros N. rewrite IH. split.
    - intros (earlier & later & -> & K & Rest).
      exists earlier, (later ++ [x]). split; [|split; [exact K|]].
      + rewrite <- app_assoc. reflexivity.
      + intros i' Hi'. apply in_app_or in Hi' as [Hi'|[<-|[]]];
          [exact (Rest i' Hi')|exact N].
    - intros (earlier & later & E & K & Rest).
      destruct (Split _ _ E) as [(-> & -> & ->)|(lt & -> & ->)];
        [congruence|].
      exists earlier, lt. split; [reflexivity|]. split; [exact K|].
      intros i' Hi'. apply Rest. apply in_or_app. left. exact Hi'. }
  destruct (project_key is_decimal x) as [k'|] eqn:Kx.
  2:{ apply Other. discriminate. }
  destruct (decide (k' = k)) as [->|N].
  - rewrite lookup_insert_eq. split.
    + intros [= <-]. exists l, []. split; [reflexivity|].
      split; [exact Kx|]. intros i' [].
    + intros (earlier & later & E & K & Rest).
      destruct (Split _ _ E) as [(-> & -> & ->)|(lt & -> & ->)];
        [reflexivity|].
      exfalso. apply (Rest x); [|exact Kx].
      apply in_or_app. right. left. reflexivity.
  - rewrite lookup_insert_ne by exact N. apply Other. congruence.
Qed.

(** X19.  The projects and the pages meet.  A page whose space has, once
    normalised, the key of some issue of the tracker is matched with an
    issue of that key, whatever other issues there are. *)
Theorem page_finds_its_project
    (is_decimal : char -> bool) (issues : list issue) (i : issue)
    (space_name : pystr) :
  In i issues ->
  project_key is_decimal i = Some (normalize_project_id space_name) ->
  exists i',
    find_project (build_projects is_decimal issues) None space_name
    = Ok (Matched i') /\
    project_key is_decimal i' = Some (normalize_project_id space_name).
Proof.
  intros Hi Hk.
  destruct (build_projects_has is_decimal issues i _ Hi Hk) as (i' & L & K).
  exists i'. split; [|exact K].
  unfold find_project, getitem. cbv zeta. rewrite L.
  rewrite bool_decide_is_Some. reflexivity.
Qed.

Lemma page_finds_its_project_witness :
  exists i',
    find_project
      (build_projects Num.is_digit
         [ mk_issue 7 (py "Some study")
             (Some [(py "WABI ID", Some [214; 95; 49]%N)]);
           mk_issue 8 (py "A_Project_2301") None ])
      None [214; 95; 49]%N
    = Ok (Matched i') /\
    project_key Num.is_digit i' = Some (py "O_1").
Proof.
  apply (page_finds_its_project Num.is_digit
           [ mk_issue 7 (py "Some study")
               (Some [(py "WABI ID", Some [214; 95; 49]%N)]);
             mk_issue 8 (py "A_Project_2301") None ]
           (mk_issue 7 (py "Some study")
              (Some [(py "WABI ID", Some [214; 95; 49]%N)]))
           [214; 95; 49]%N).
  - left. reflexivity.
  - vm_compute. reflexivity.
Defined.

(** ** The subjects that stand for a project id *)

Lemma subject_is_id_eq is_decimal s :
  subject_is_id is_decimal s
  = match (match rev s with
           | [] => []
           | c :: r => if (c =? 10)%N then r else c :: r
           end) with
    | d4 :: d3 :: d2 :: d1 :: u :: before =>
        (u =? 95)%N
        && (is_decimal d1 && is_decimal d2 && is_decimal d3 && is_decimal d4
            && forallb (fun c => negb (c =? 10)%N) before)
    | _ => false
    end.
Proof.
  unfold subject_is_id. cbv zeta.
  assert (Tail : forall body : pystr,
    match body with
    | d4 :: d3 :: d2 :: d1 :: 95%N :: before =>
        is_decimal d1 && is_decimal d2 && is_decimal d3 && is_decimal d4
        && forallb (fun c => negb (c =? 10)%N) before
    | _ => false
    end
    = match body with
      | d4 :: d3 :: d2 :: d1 :: u :: before =>
          (u =? 95)%N
          && (is_decimal d1 && is_decimal d2 && is_decimal d3
              && is_decimal d4
              && forallb (fun c => negb (c =? 10)%N) before)
      | _ => false
      end).
  { intros [|d4 [|d3 [|d2 [|d1 [|u before]]]]]; try reflexivity.
    destruct u as [|p]; [reflexivity|].
    do 7 (try (destruct p as [p|p|]; try reflexivity)). }
  rewrite <- Tail.
  destruct (rev s) as [|c r]; [reflexivity|].
  destruct c as [|p]; [reflexivity|].
  do 4 (try (destruct p as [p|p|]; try reflexivity)).
Qed.

Lemma one_line_rev s : one_line s -> one_line (rev s).
Proof.
  unfold one_line. rewrite !forallb_forall. intros H c Hc.
  apply H. apply in_rev. exact Hc.
Qed.

(** X20.  Which subjects are taken for a project id.  With a table of
    digits that does not hold the line feed, the subject is accepted
    exactly when it is some text of one line, an underscore and four
    digits, with nothing after them or one line feed.  Nothing is asked
    of the text before the underscore. *)
Theorem subject_is_id_spec (is_decimal : char -> bool) (s : pystr) :
  is_decimal 10%N = false ->
  (subject_is_id is_decimal s = true
   <->
   exists before d1 d2 d3 d4 tail,
     s = before ++ [95%N; d1; d2; d3; d4] ++ tail /\
     (tail = [] \/ tail = [10%N]) /\
     is_decimal d1 = true /\ is_decimal d2 = true /\
     is_decimal d3 = true /\ is_decimal d4 = true /\
     one_line before).
Proof.
  intros NoNL. rewrite subject_is_id_eq. split.
  - intros H.
    assert (Es : s = rev (rev s)) by (symmetry; apply rev_involutive).
    destruct (rev s) as [|c r]; [discriminate|].
    destruct (N.eqb_spec c 10) as [->|Nc].
    + destruct r as [|d4 [|d3 [|d2 [|d1 [|u bf]]]]]; try discriminate.
      apply andb_true_iff in H as [Hu H]. apply N.eqb_eq in Hu. subst u.
      apply andb_true_iff in H as [H L].
      apply andb_true_iff in H as [H D4].
      apply andb_true_iff in H as [H D3].
      apply andb_true_iff in H as [D1 D2].
      exists (rev bf), d1, d2, d3, d4, [10%N].
      split; [rewrite Es; cbn [rev]; rewrite <- !app_assoc; reflexivity|].
      split; [right; reflexivity|].
      repeat (split; [assumption|]). apply one_line_rev. exact L.
    + destruct r as [|d3 [|d2 [|d1 [|u bf]]]]; try discriminate.
      apply andb_true_iff in H as [Hu H]. apply N.eqb_eq in Hu. subst u.
      apply andb_true_iff in H as [H L].
      apply andb_true_iff in H as [H D4].
      apply andb_true_iff in H as [H D3].
      apply andb_true_iff in H as [D1 D2].
      exists (rev bf), d1, d2, d3, c, [].
      split; [rewrite Es; cbn [rev]; rewrite <- !app_assoc; reflexivity|].
      split; [left; reflexivity|].
      repeat (split; [assumption|]). apply one_line_rev. exact L.
  - intros (before & d1 & d2 & d3 & d4 & tail & -> & T & D1 & D2 & D3 & D4
            & L).
    apply one_line_rev in L. unfold one_line in L.
    rewrite !rev_app_distr.
    destruct T as [->| ->]; cbn [rev app].
    + destruct (N.eqb_spec d4 10) as [->|_]; [congruence|].
      repeat (apply andb_true_iff; split); try assumption; reflexivity.
    + repeat (apply andb_true_iff; split); try assumption; reflexivity.
Qed.

Lemma subject_is_id_spec_witness :
  subject_is_id Num.is_digit (py "A_Project_2301") = true.
Proof.
  apply (subject_is_id_spec Num.is_digit (py "A_Project_2301") eq_refl).
  exists (py "A_Project"), 50%N, 51%N, 48%N, 49%N, [].
  split; [reflexivity|]. split; [left; reflexivity|].
  repeat (split; [reflexivity|]). reflexivity.
Defined.

(** ** The normalizer, in the loop *)

Lemma unaccent_accented c : In c accented -> unaccent c <> c.
Proof.
  unfold accented.
  intros [<-|[<-|[<-|[<-|[<-|[<-|[]]]]]]]; discriminate.
Qed.

Lemma unaccent_idem c : unaccent (unaccent c) = unaccent c.
Proof.
  destruct (in_dec N.eq_dec c accented) as [I|N].
  - unfold accented in I.
    destruct I as [<-|[<-|[<-|[<-|[<-|[<-|[]]]]]]]; reflexivity.
  - rewrite !(unaccent_other c N). reflexivity.
Qed.

(** X21.  The normalizer is idempotent and works piece by piece, and the
    texts it leaves as they are are exactly those without any of the six
    letters.  So the keys of [projects] are not changed by normalising
    them again, and a name may be normalised in parts. *)
Theorem normalize_project_id_idempotent :
  (forall s,
     normalize_project_id (normalize_project_id s)
     = normalize_project_id s) /\
  (forall a b,
     normalize_project_id (a ++ b)
     = normalize_project_id a ++ normalize_project_id b) /\
  (forall s,
     normalize_project_id s = s <-> forall c, In c s -> ~ In c accented).
Proof.
  split; [|split].
  - intros s. rewrite !normalize_map, List.map_map.
    apply List.map_ext. exact unaccent_idem.
  - intros a b. rewrite !normalize_map. apply List.map_app.
  - intros s. rewrite normalize_map. induction s as [|x s IH].
    + split; [intros _ c []|reflexivity].
    + cbn [map]. split.
      * intros [= Hx Hs] c [<-|Hc].
        -- intros I. exact (unaccent_accented _ I Hx).
        -- apply (proj1 IH Hs c Hc).
      * intros H. f_equal.
        -- apply unaccent_other. apply H. left. reflexivity.
        -- apply IH. intros c Hc. apply H. right. exact Hc.
Qed.

(** ** The start date that [main] passes on, in general *)



(** ** The upload *)

(** X23.  What is sent to the wiki.  A request of
    [update_report_page] carries the page that was fetched with its id,
    title and ancestors, the version number that follows the one
    fetched, and as its text the text before the marker followed by the
    fresh report; it is the only request of the call, and it is made
    only when uploads are on and the renderer reports a change. *)
Theorem upload_sends_next_version
    (self : confluence) (http_ok : bool) (space_name : pystr)
    (j : wiki_page) (work_units : list work_unit) (budget : Q)
    (c : content) :
  In c (snd (upload_report self http_ok space_name j work_units budget)) ->
  snd (upload_report self http_ok space_name j work_units budget) = [c] /\
  upload self = true /\
  content_id c = page_id j /\
  content_title c = page_title j /\
  content_ancestors c = page_ancestors j /\
  content_version c = page_version j + 1 /\
  content_value c = fresh_page space_name (page_text j) work_units budget /\
  update_report_page (force self) space_name (page_text j) work_units budget
  = Ok (mk_rendered true (content_value c)).
Proof.
  unfold upload_report.
  destruct (update_report_page (force self) space_name (page_text j)
              work_units budget) as [r|ex] eqn:U; [|intros []].
  destruct (changed r) eqn:C; [|intros []].
  rewrite (changed_body _ _ _ _ _ _ U C). cbn [body].
  destruct (upload self); [|intros []].
  destruct http_ok; cbn [snd]; intros [<-|[]]; repeat split.
Qed.

Lemma upload_sends_next_version_witness :
  exists c,
    snd (upload_report (mk_confluence true false) true (py "P")
           (mk_wiki_page (py "42") (py "TimeLog") [py "7"] (py "intro") 3)
           Sample.february_units 10) = [c] /\
    content_version c = 4.
Proof.
  eexists.
  assert (I : In (mk_content (py "42") (py "page") (py "TimeLog") [py "7"]
                    (fresh_page (py "P") (py "intro") Sample.february_units
                       10)
                    (py "storage") 4)
                 (snd (upload_report (mk_confluence true false) true (py "P")
                         (mk_wiki_page (py "42") (py "TimeLog") [py "7"]
                            (py "intro") 3)
                         Sample.february_units 10)))
    by (left; vm_compute; reflexivity).
  destruct (upload_sends_next_version _ _ _ _ _ _ _ I)
    as (S1 & _ & _ & _ & _ & V & _).
  split; [exact S1|exact V].
Defined.

(** X24.  How the upload ends.  A request is made exactly when uploads
    are on and the renderer reports a change; the call fails with an
    [HTTPError] exactly when a request is made and refused, so a page
    that is left alone cannot fail; an exception of the renderer
    escapes before any request; a call that returns tells what the
    renderer reported; and a dry run ends as a run whose request is
    accepted, without making a request. *)
Theorem upload_report_endings
    (self : confluence) (http_ok : bool) (space_name : pystr)
    (j : wiki_page) (work_units : list work_unit) (budget : Q) :
  let out := upload_report self http_ok space_name j work_units budget in
  let result :=
    update_report_page (force self) space_name (page_text j) work_units
      budget in
  (snd out <> [] <->
   upload self = true /\ exists r, result = Ok r /\ changed r = true) /\
  (fst out = HTTPError <-> http_ok = false /\ snd out <> []) /\
  (forall ex, fst out = Escaped ex <-> result = Raise ex) /\
  (forall b, fst out = Returned b ->
             exists r, result = Ok r /\ changed r = b) /\
  (upload self = false ->
   snd out = [] /\
   fst out
   = fst (upload_report (mk_confluence true (force self)) true space_name j
            work_units budget)).
Proof.
  intros out result. subst out result. unfold upload_report. cbn [force].
  destruct (update_report_page (force self) space_name (page_text j)
              work_units budget) as [r|ex0].
  2:{ cbn [fst snd]. split.
      { split; [intros H; destruct H; reflexivity|].
        intros (_ & r & ? & _). discriminate. }
      split; [split; [discriminate|intros [_ H]; destruct H; reflexivity]|].
      split; [intros ex; split; congruence|].
      split; [discriminate|]. intros _. split; reflexivity. }
  destruct (changed r) eqn:C.
  2:{ cbn [fst snd]. split.
      { split; [intros H; destruct H; reflexivity|].
        intros (_ & r' & [= <-] & C'). congruence. }
      split; [split; [discriminate|intros [_ H]; destruct H; reflexivity]|].
      split; [intros ex; split; discriminate|].
      split; [|intros _; split; reflexivity].
      intros b [= <-]. exists r. split; [reflexivity|exact C]. }
  destruct (upload self), http_ok; cbn [fst snd upload].
  - split; [split; [intros _; split; [reflexivity|]; exists r; split;
                    [reflexivity|exact C]|discriminate]|].
    split; [split; [discriminate|intros [? _]; discriminate]|].
    split; [intros ex; split; discriminate|].
    split; [|discriminate].
    intros b [= <-]. exists r. split; [reflexivity|exact C].
  - split; [split; [intros _; split; [reflexivity|]; exists r; split;
                    [reflexivity|exact C]|discriminate]|].
    split; [split; [intros _; split; [reflexivity|discriminate]
                   |reflexivity]|].
    split; [intros ex; split; discriminate|].
    split; [discriminate|discriminate].
  - split; [split; [intros H; destruct H; reflexivity
                   |intros [? _]; discriminate]|].
    split; [split; [discriminate|intros [? _]; discriminate]|].
    split; [intros ex; split; discriminate|].
    split; [|intros _; split; reflexivity].
    intros b [= <-]. exists r. split; [reflexivity|exact C].
  - split; [split; [intros H; destruct H; reflexivity
                   |intros [? _]; discriminate]|].
    split; [split; [discriminate|intros [_ H]; destruct H; reflexivity]|].
    split; [intros ex; split; discriminate|].
    split; [|intros _; split; reflexivity].
    intros b [= <-]. exists r. split; [reflexivity|exact C].
Qed.

(** ** One project of the loop: the report, then the notification *)

(** X25.  A failure of the upload does not stop the notification, an
    exception of the renderer does.  Whenever the renderer returns,
    whether the page is then left alone, uploaded, refused by the wiki
    or not sent at all, the notification step runs as if there were no
    report.  When the renderer raises, the exception is a [ValueError],
    and it ends the step before any request, mail or write to the
    store. *)
Theorem report_failure_and_notification
    (float_str : Q -> pystr) (conf : confluence) (mailer : emailer)
    (e : env) (http_ok : bool) (space_name : pystr) (j : wiki_page)
    (subject : pystr) (work_units : list work_unit) (budget : Q)
    (w : world) :
  let result :=
    update_report_page (force conf) space_name (page_text j) work_units
      budget in
  let out :=
    process_project float_str conf mailer e http_ok space_name j subject
      work_units budget w in
  (forall r, result = Ok r ->
     fst out = notify_step float_str mailer e subject work_units w) /\
  (forall ex, result = Raise ex -> out = ((Raise ValueError, w), [])).
Proof.
  intros result out. subst result out.
  unfold process_project, upload_report.
  destruct (update_report_page (force conf) space_name (page_text j)
              work_units budget) as [r|ex0] eqn:U.
  - split; [|discriminate]. intros r' _.
    destruct (changed r); [|reflexivity].
    destruct (upload conf); [|reflexivity].
    destruct http_ok; reflexivity.
  - split; [discriminate|]. intros ex [= <-].
    rewrite (render_raise_ValueError _ _ _ _ _ _ U). reflexivity.
Qed.

(** X26.  A dry run is not without effect.  With uploads off and the
    mailer on a dry run, a project with work units makes no request and
    sends nothing: what it would send is printed.  But it writes the
    row of the project to the store and commits it, so that the hours
    of the dry run are what the next run compares with. *)
Theorem dry_run_still_writes_database
    (float_str : Q -> pystr) (conf : confluence) (mailer : emailer)
    (e : env) (http_ok : bool) (space_name : pystr) (j : wiki_page)
    (subject : pystr) (work_units : list work_unit) (budget : Q)
    (w w' : world) (b : bool) (puts : list content) :
  upload conf = false ->
  dry_run mailer = true ->
  work_units <> [] ->
  process_project float_str conf mailer e http_ok space_name j subject
    work_units budget w = ((Ok b, w'), puts) ->
  puts = [] /\
  (forall ev, In ev (emitted w w') -> exists m, ev = Printed m) /\
  stored (db w') !! subject
  = Some (mk_row (work_hours work_units) (current_timestamp e)).
Proof.
  intros Up Dry NE H.
  unfold process_project, upload_report in H. rewrite Up in H.
  assert (N : notify_step float_str mailer e subject work_units w
              = (Ok b, w') /\ puts = []).
  { destruct (update_report_page (force conf) space_name (page_text j)
                work_units budget) as [r|ex0]; [|discriminate].
    destruct (changed r); injection H as H1 H2; split; congruence. }
  destruct N as [N ->]. split; [reflexivity|].
  unfold notify_step in N.
  destruct (project_start_date work_units) as [start|] eqn:Sd.
  2:{ exfalso. apply NE. unfold project_start_date in Sd.
      destruct (last work_units) eqn:L; [discriminate|].
      apply last_None in L. exact L. }
  assert (U1 : fst (update float_str mailer e subject
                      (work_hours work_units) start w) = Ok b)
    by (rewrite N; reflexivity).
  assert (U2 : snd (update float_str mailer e subject
                      (work_hours work_units) start w) = w')
    by (rewrite N; reflexivity).
  split.
  - rewrite <- U2, update_emitted.
    destruct (due float_str mailer e subject (work_hours work_units) start w)
      as [m|]; [|intros ev []].
    intros ev [<-|[]]. exists m. unfold outcome. rewrite Dry. reflexivity.
  - destruct (update_Ok_inv _ _ _ _ _ _ _ _ U1) as (D & _).
    rewrite U2 in D. rewrite D. cbn [stored]. apply lookup_insert_eq.
Qed.

Lemma dry_run_still_writes_database_witness :
  exists w',
    process_project Sample.float_str (mk_confluence false false)
      (mk_emailer true [py "pm@example.org"] (py "bot@example.org"))
      (Sample.clock true) true (py "P")
      (mk_wiki_page (py "42") (py "TimeLog") [] Sample.january_page 3)
      Sample.name Sample.february_units 10 Sample.w0
    = ((Ok false, w'), []) /\
    stored (db w') !! Sample.name
    = Some (mk_row (work_hours Sample.february_units)
              (current_timestamp (Sample.clock true))).
Proof.
  eexists. split; [vm_compute; reflexivity|].
  eapply (dry_run_still_writes_database Sample.float_str
            (mk_confluence false false)
            (mk_emailer true [py "pm@example.org"] (py "bot@example.org"))
            (Sample.clock true) true (py "P")
            (mk_wiki_page (py "42") (py "TimeLog") [] Sample.january_page 3)
            Sample.name Sample.february_units 10 Sample.w0 _ false []).
  - reflexivity.
  - reflexivity.
  - discriminate.
  - vm_compute. reflexivity.
Defined.

(** ** The dump *)

Lemma digits_sep_inj (a a' r r' : pystr) :
  forallb Num.is_digit a = true -> forallb Num.is_digit a' = true ->
  a ++ 45%N :: r = a' ++ 45%N :: r' -> a = a' /\ r = r'.
Proof.
  revert a'. induction a as [|c a IH]; intros [|c' a'] D D' E.
  - injection E as <-. split; reflexivity.
  - cbn in E, D'. injection E as <- _. discriminate.
  - cbn in E, D. injection E as -> _. discriminate.
  - cbn [app] in E. injection E as <- E. cbn [forallb] in D, D'.
    apply andb_true_iff in D as [_ D]. apply andb_true_iff in D' as [_ D'].
    destruct (IH a' D D' E) as [-> ->]. split; reflexivity.
Qed.

Lemma days_in_month_bound y m :
  1 <= m <= 12 -> Cal.days_in_month y m <= 31.
Proof.
  intros H. unfold Cal.days_in_month.
  destruct (_ && _); [lia|].
  assert (C : m = 1 \/ m = 2 \/ m = 3 \/ m = 4 \/ m = 5 \/ m = 6 \/ m = 7
              \/ m = 8 \/ m = 9 \/ m = 10 \/ m = 11 \/ m = 12) by lia.
  repeat (destruct C as [->|C]; [cbn; lia|]). subst m. cbn. lia.
Qed.

(** X27.  The dump keeps the day and the hours of a work unit, and drops
    the time of day: for valid dates, two work units are written with
    the same text and hours only if they fall on the same day and have
    the same hours. *)
Theorem work_unit_to_json_injective (u v : work_unit) :
  1 <= Cal.year (date u) -> 1 <= Cal.year (date v) ->
  CalOrder.valid_ymd
    (Cal.year (date u), Cal.month (date u), Cal.day (date u)) ->
  CalOrder.valid_ymd
    (Cal.year (date v), Cal.month (date v), Cal.day (date v)) ->
  (work_unit_to_json u = work_unit_to_json v
   <->
   Cal.date_of (date u) = Cal.date_of (date v) /\ hours u = hours v).
Proof.
  intros Yu Yv [Mu Du] [Mv Dv].
  pose proof (days_in_month_bound (Cal.year (date u)) _ Mu) as Bu.
  pose proof (days_in_month_bound (Cal.year (date v)) _ Mv) as Bv.
  unfold work_unit_to_json, strftime_Y_m_d, Cal.date_of. split.
  - intros [= E H]. split; [|exact H].
    destruct (RoundTrip.str_int_digits (Cal.year (date u)) ltac:(lia))
      as [Gu _].
    destruct (RoundTrip.str_int_digits (Cal.year (date v)) ltac:(lia))
      as [Gv _].
    destruct (RoundTrip.two_digits (Cal.month (date u)) ltac:(lia))
      as (Pu & _ & Vu).
    destruct (RoundTrip.two_digits (Cal.month (date v)) ltac:(lia))
      as (Pv & _ & Vv).
    destruct (RoundTrip.two_digits (Cal.day (date u)) ltac:(lia))
      as (_ & _ & Wu).
    destruct (RoundTrip.two_digits (Cal.day (date v)) ltac:(lia))
      as (_ & _ & Wv).
    change (py "-" ++ ?x) with (45%N :: x) in E.
    apply (digits_sep_inj _ _ _ _ Gu Gv) in E as [Ey E].
    change (py "-" ++ ?x) with (45%N :: x) in E.
    apply (digits_sep_inj _ _ _ _ Pu Pv) in E as [Em Ed].
    assert (Y : Some (Cal.year (date u)) = Some (Cal.year (date v))).
    { rewrite <- (RoundTrip.str_int_value (Cal.year (date u))) by lia.
      rewrite <- (RoundTrip.str_int_value (Cal.year (date v))) by lia.
      rewrite Ey. reflexivity. }
    assert (M : Some (100 * 0 + Cal.month (date u))
                = Some (100 * 0 + Cal.month (date v))).
    { rewrite <- (Vu 0), <- (Vv 0), Em. reflexivity. }
    assert (D : Some (100 * 0 + Cal.day (date u))
                = Some (100 * 0 + Cal.day (date v))).
    { rewrite <- (Wu 0), <- (Wv 0), Ed. reflexivity. }
    injection Y as Y. injection M as M. injection D as D.
    f_equal; lia.
  - intros [[= -> -> ->] ->]. reflexivity.
Qed.

Lemma work_unit_to_json_injective_witness :
  work_unit_to_json (mk_work_unit (Cal.mk_datetime 2024 2 3 0) 4)
  = work_unit_to_json (mk_work_unit (Cal.mk_datetime 2024 2 3 3600000000) 4)
  /\ json_date (work_unit_to_json (mk_work_unit (Cal.midnight 2024 2 3) 4))
     = py "2024-02-03".
Proof.
  split; [|vm_compute; reflexivity].
  apply (work_unit_to_json_injective
           (mk_work_unit (Cal.mk_datetime 2024 2 3 0) 4)
           (mk_work_unit (Cal.mk_datetime 2024 2 3 3600000000) 4)).
  - cbn. lia.
  - cbn. lia.
  - vm_compute. repeat split; discriminate.
  - vm_compute. repeat split; discriminate.
  - split; reflexivity.
Defined.
